(** * OpenAPI to OpenAI function converter: a verification development

    Shallow embedding of [openapi-to-openai-function-converter.py]
    ([resolve_ref], [extract_properties], [transform_to_openai_format])
    and the properties of its specification.

    The file has two models of the same three functions.

    - The first one (top level) is purely functional: the loaded document
      is a tree, a raised exception is an [Err] result, and the objects the
      converter builds are values.  It is used for every property about
      what the converter computes.
    - [Module Heap] runs the same statements on an explicit store of
      mutable list and dict objects, where the document and the objects
      built by the converter live side by side and every in-place update
      names the object it writes to.  It is used for the property that the
      document is never written to. *)

From Stdlib Require Import List String Ascii ZArith Bool Lia PeanoNat.
From Stdlib Require DecimalString.
Import ListNotations.

Local Open Scope list_scope.
Local Open Scope string_scope.

(** ** Exceptions *)

(** The exception classes the converter's statements can raise. *)
Inductive pyerr : Type :=
| KeyError        (* d[k] with k absent *)
| TypeError       (* subscript / membership / iteration on the wrong type *)
| AttributeError  (* .get, .items, .keys, .lstrip on a value without it *)
| IndexError.     (* l[0] on an empty sequence *)

Inductive result (A : Type) : Type :=
| Ok (a : A)
| Err (e : pyerr).
Arguments Ok {A} a.
Arguments Err {A} e.

Definition bind {A B} (m : result A) (f : A -> result B) : result B :=
  match m with
  | Ok a => f a
  | Err e => Err e
  end.

Notation "x <- m ;; k" := (bind m (fun x => k))
  (at level 61, m at next level, right associativity).
Notation "' p <- m ;; k" := (bind m (fun x => match x with p => k end))
  (at level 61, p pattern, m at next level, right associativity).

(** A [for] loop whose body may raise: the accumulator is threaded through
    the elements in order and the first exception ends the loop. *)
Fixpoint foldM {A S} (body : S -> A -> result S) (l : list A) (s : S)
  : result S :=
  match l with
  | [] => Ok s
  | x :: l' => s' <- body s x ;; foldM body l' s'
  end.

(** A list comprehension whose element expression may raise. *)
Fixpoint mapM {A B} (f : A -> result B) (l : list A) : result (list B) :=
  match l with
  | [] => Ok []
  | x :: l' => y <- f x ;; ys <- mapM f l' ;; Ok (y :: ys)
  end.

Definition is_ok {A} (r : result A) : bool :=
  match r with Ok _ => true | Err _ => false end.

(** ** Python strings *)

Fixpoint mem_char (c : ascii) (chars : string) : bool :=
  match chars with
  | EmptyString => false
  | String c' chars' => Ascii.eqb c c' || mem_char c chars'
  end.

(** [s.lstrip(chars)]: drops every leading character that belongs to the
    set [chars]. *)
Fixpoint str_lstrip (chars : string) (s : string) : string :=
  match s with
  | EmptyString => EmptyString
  | String c s' => if mem_char c chars then str_lstrip chars s' else s
  end.

(** [s.split(sep)] for a one-character separator; [''.split('/')] is
    [['']]. *)
Fixpoint str_split (sep : ascii) (s : string) : list string :=
  match s with
  | EmptyString => [EmptyString]
  | String c s' =>
      if Ascii.eqb c sep then EmptyString :: str_split sep s'
      else match str_split sep s' with
           | w :: ws => String c w :: ws
           | [] => [String c EmptyString]
           end
  end.

(** [sep.join(l)] on a list of str. *)
Definition str_join (sep : string) (l : list string) : string :=
  String.concat sep l.

(** [sub in s] on two str. *)
Fixpoint str_contains (sub s : string) : bool :=
  String.prefix sub s
  || match s with
     | EmptyString => false
     | String _ s' => str_contains sub s'
     end.

(** The characters of a str, each one a str of length one. *)
Fixpoint chars_of (s : string) : list string :=
  match s with
  | EmptyString => []
  | String c s' => String c EmptyString :: chars_of s'
  end.

(** ** The document tree *)

(** Hashable scalars, the keys of a dict. *)
Inductive key : Type :=
| KNone
| KBool (b : bool)
| KInt (z : Z)
| KStr (s : string).

(** A loaded document, as [json.load] and [yaml.safe_load] build it:
    [None], bool, int, str, list and dict.  A dict is the list of its items
    in insertion order, which is the order [.items()] and [.keys()]
    enumerate; in a dict the keys are pairwise different ([dict_wf]
    below).  Floating-point scalars are left out of the model. *)
#[warnings="-register-all"]
Inductive json : Type :=
| JNone
| JBool (b : bool)
| JInt (z : Z)
| JStr (s : string)
| JList (l : list json)
| JDict (d : list (key * json)).

Definition dict := list (key * json).

(** Python compares and hashes [True] as [1] and [False] as [0]. *)
Definition key_norm (k : key) : key :=
  match k with
  | KBool b => KInt (if b then 1 else 0)
  | _ => k
  end.

Definition key_eqb (k1 k2 : key) : bool :=
  match key_norm k1, key_norm k2 with
  | KNone, KNone => true
  | KInt a, KInt b => Z.eqb a b
  | KStr a, KStr b => String.eqb a b
  | _, _ => false
  end.

Definition key_to_json (k : key) : json :=
  match k with
  | KNone => JNone
  | KBool b => JBool b
  | KInt z => JInt z
  | KStr s => JStr s
  end.

(** Using a value as a dict key: lists and dicts are unhashable. *)
Definition json_to_key (v : json) : result key :=
  match v with
  | JNone => Ok KNone
  | JBool b => Ok (KBool b)
  | JInt z => Ok (KInt z)
  | JStr s => Ok (KStr s)
  | JList _ | JDict _ => Err TypeError
  end.

Fixpoint dict_get {V : Type} (k : key) (d : list (key * V)) : option V :=
  match d with
  | [] => None
  | (k', v) :: d' => if key_eqb k' k then Some v else dict_get k d'
  end.

Definition dict_has {V : Type} (k : key) (d : list (key * V)) : bool :=
  match dict_get k d with Some _ => true | None => false end.

(** [d[k] = v]: an existing key keeps its place (and its key object), a new
    key goes to the end. *)
Fixpoint dict_set {V : Type} (k : key) (v : V) (d : list (key * V))
  : list (key * V) :=
  match d with
  | [] => [(k, v)]
  | (k', v') :: d' =>
      if key_eqb k' k then (k', v) :: d' else (k', v') :: dict_set k v d'
  end.

(** [d.update(other)]: the items of [other] are assigned in order. *)
Definition dict_update {V : Type} (d other : list (key * V))
  : list (key * V) :=
  fold_left (fun acc kv => dict_set (fst kv) (snd kv) acc) other d.

Definition dict_keys {V : Type} (d : list (key * V)) : list key :=
  map fst d.

Fixpoint keys_distinct (ks : list key) : bool :=
  match ks with
  | [] => true
  | k :: ks' => negb (existsb (key_eqb k) ks') && keys_distinct ks'
  end.

(** The keys of a dict are pairwise different. *)
Definition dict_wf {V : Type} (d : list (key * V)) : bool :=
  keys_distinct (dict_keys d).

(** ** The operations of Python the converter uses *)

(** [v == s] for a str literal [s]: only an equal str is equal to it. *)
Definition eq_str (v : json) (s : string) : bool :=
  match v with
  | JStr t => String.eqb t s
  | _ => false
  end.

(** [s in v] for a str literal [s]: key membership on a dict, element
    membership on a list, substring test on a str. *)
Definition py_contains (s : string) (v : json) : result bool :=
  match v with
  | JDict d => Ok (dict_has (KStr s) d)
  | JList l => Ok (existsb (fun x => eq_str x s) l)
  | JStr t => Ok (str_contains s t)
  | JNone | JBool _ | JInt _ => Err TypeError
  end.

(** [v[s]] for a str [s]: only a dict can be subscripted by a str. *)
Definition py_getitem (v : json) (s : string) : result json :=
  match v with
  | JDict d =>
      match dict_get (KStr s) d with
      | Some x => Ok x
      | None => Err KeyError
      end
  | _ => Err TypeError
  end.

(** [v.get(s, default)]: only a dict has [get]. *)
Definition py_get (v : json) (s : string) (default : json) : result json :=
  match v with
  | JDict d =>
      match dict_get (KStr s) d with
      | Some x => Ok x
      | None => Ok default
      end
  | _ => Err AttributeError
  end.

(** [v.items()]. *)
Definition py_items (v : json) : result dict :=
  match v with
  | JDict d => Ok d
  | _ => Err AttributeError
  end.

(** [v.keys()]. *)
Definition py_keys (v : json) : result (list json) :=
  match v with
  | JDict d => Ok (map key_to_json (dict_keys d))
  | _ => Err AttributeError
  end.

(** Iterating [v] ([for x in v], [l.extend(v)]): the elements of a list,
    the keys of a dict, the characters of a str. *)
Definition py_iter (v : json) : result (list json) :=
  match v with
  | JList l => Ok l
  | JDict d => Ok (map key_to_json (dict_keys d))
  | JStr s => Ok (map JStr (chars_of s))
  | JNone | JBool _ | JInt _ => Err TypeError
  end.

(** [v[0]]. *)
Definition py_getitem0 (v : json) : result json :=
  match v with
  | JList (x :: _) => Ok x
  | JList [] => Err IndexError
  | JDict d =>
      match dict_get (KInt 0) d with
      | Some x => Ok x
      | None => Err KeyError
      end
  | JStr (String c _) => Ok (JStr (String c EmptyString))
  | JStr EmptyString => Err IndexError
  | JNone | JBool _ | JInt _ => Err TypeError
  end.

(** The truth value of [v] in a condition. *)
Definition py_truthy (v : json) : bool :=
  match v with
  | JNone => false
  | JBool b => b
  | JInt z => negb (Z.eqb z 0)
  | JStr s => negb (String.eqb s EmptyString)
  | JList l => match l with [] => false | _ => true end
  | JDict d => match d with [] => false | _ => true end
  end.

(** ** The reference resolver *)

(** The loop of [resolve_ref]: [result = result[key]] for each key. *)
Definition walk (keys : list string) (spec : json) : result json :=
  foldM py_getitem keys spec.

(** [resolve_ref(ref, spec)].  [ref] is whatever the document holds under
    ['$ref']; only a str has [lstrip]. *)
Definition resolve_ref (ref : json) (spec : json) : result json :=
  match ref with
  | JStr r =>
      let keys := str_split "/" (str_lstrip "#/" r) in
      walk keys spec
  | _ => Err AttributeError
  end.

(** ** Text of a value *)

Definition nl : string := String "010"%char EmptyString.
Definition dquote : string := String "034"%char EmptyString.
Definition squote : string := String "039"%char EmptyString.
Definition backslash : string := String "092"%char EmptyString.

(** [str(z)] for an int. *)
Definition str_of_Z (z : Z) : string :=
  DecimalString.NilZero.string_of_int (Z.to_int z).

Definition hex_digit (n : nat) : string :=
  String (nth n (list_ascii_of_string "0123456789abcdef") "0"%char)
         EmptyString.

(** One character of [repr(s)], inside the quote [q].  Bytes above 127
    stand for printable non-ASCII text and are kept. *)
Definition repr_char (q c : ascii) : string :=
  let n := nat_of_ascii c in
  if Ascii.eqb c "092"%char then backslash ++ backslash
  else if Ascii.eqb c q then backslash ++ String q EmptyString
  else if Nat.eqb n 10 then backslash ++ "n"
  else if Nat.eqb n 13 then backslash ++ "r"
  else if Nat.eqb n 9 then backslash ++ "t"
  else if Nat.ltb n 32 || Nat.eqb n 127
       then backslash ++ "x" ++ hex_digit (n / 16) ++ hex_digit (n mod 16)
  else String c EmptyString.

Fixpoint repr_chars (q : ascii) (s : string) : string :=
  match s with
  | EmptyString => EmptyString
  | String c s' => repr_char q c ++ repr_chars q s'
  end.

(** [repr(s)] for a str: single quotes, unless the text has a single quote
    and no double quote. *)
Definition repr_str (s : string) : string :=
  let q := if mem_char "039"%char s && negb (mem_char "034"%char s)
           then "034"%char else "039"%char in
  String q EmptyString ++ repr_chars q s ++ String q EmptyString.

Definition repr_key (k : key) : string :=
  match k with
  | KNone => "None"
  | KBool b => if b then "True" else "False"
  | KInt z => str_of_Z z
  | KStr s => repr_str s
  end.

(** [repr(v)]. *)
Fixpoint py_repr (v : json) : string :=
  match v with
  | JNone => "None"
  | JBool b => if b then "True" else "False"
  | JInt z => str_of_Z z
  | JStr s => repr_str s
  | JList l => "[" ++ str_join ", " (map py_repr l) ++ "]"
  | JDict d =>
      "{" ++ str_join ", " (map (fun kv => repr_key (fst kv) ++ ": "
                                       ++ py_repr (snd kv)) d) ++ "}"
  end.

(** [str(v)], the text an f-string puts for [{v}]. *)
Definition py_str (v : json) : string :=
  match v with
  | JStr s => s
  | _ => py_repr v
  end.

(** [sep.join(l)]: every element has to be a str. *)
Definition as_str (v : json) : result string :=
  match v with
  | JStr s => Ok s
  | _ => Err TypeError
  end.

Definition py_join (sep : string) (l : list json) : result string :=
  ss <- mapM as_str l ;; Ok (str_join sep ss).

(** ** The schema flattener *)

(** The idiom [if '$ref' in x: x = resolve_ref(x['$ref'], spec)], which the
    source writes out at each of its six uses. *)
Definition resolve_if_ref (x : json) (spec : json) : result json :=
  has_ref <- py_contains "$ref" x ;;
  if has_ref : bool
  then r <- py_getitem x "$ref" ;; resolve_ref r spec
  else Ok x.

(** The dict literal [{"type": t, "description": d}]. *)
Definition descriptor (t d : json) : json :=
  JDict [(KStr "type", t); (KStr "description", d)].

(** The body of the loop over [props.items()] in [extract_properties]. *)
Definition extract_property (openapi_spec : json) (properties : dict)
    (item : key * json) : result dict :=
  let '(prop_name, prop_details) := item in
  prop_details <- resolve_if_ref prop_details openapi_spec ;;
  prop_type <- py_get prop_details "type" (JStr "object") ;;
  description <- py_get prop_details "description" (JStr EmptyString) ;;
  Ok (dict_set prop_name (descriptor prop_type description) properties).

(** [extract_properties(schema, openapi_spec)]; returns the pair
    [(properties, required)]. *)
Definition extract_properties (schema : json) (openapi_spec : json)
  : result (dict * json) :=
  schema <- resolve_if_ref schema openapi_spec ;;
  has_props <- py_contains "properties" schema ;;
  props <- (if has_props : bool
            then py_getitem schema "properties"
            else Ok (JDict [])) ;;
  required <- py_get schema "required" (JList []) ;;
  items <- py_items props ;;
  properties <- foldM (extract_property openapi_spec) items [] ;;
  Ok (properties, required).

(** ** The operation transformer *)

(** The two parts of [function['parameters']] that the loops update:
    ['properties'] and ['required']. *)
Definition params_state : Type := dict * list json.

(** The body of the loop over [details['parameters']]. *)
Definition add_parameter (openapi_spec : json) (st : params_state)
    (param : json) : result params_state :=
  let '(properties, required) := st in
  param <- resolve_if_ref param openapi_spec ;;
  param_name <- py_getitem param "name" ;;
  param_schema <- py_get param "schema" (JDict []) ;;
  param_schema <- resolve_if_ref param_schema openapi_spec ;;
  param_type <- py_get param_schema "type" (JStr "string") ;;
  description <- py_get param "description" (JStr EmptyString) ;;
  let param_details := descriptor param_type description in
  k <- json_to_key param_name ;;
  let properties := dict_set k param_details properties in
  is_required <- py_get param "required" (JBool false) ;;
  Ok (properties,
      if py_truthy is_required
      then (required ++ [param_name])%list
      else required).

(** The body of the loop over [content.items()]. *)
Definition add_content (openapi_spec : json) (st : params_state)
    (item : key * json) : result params_state :=
  let '(fproperties, frequired) := st in
  let '(content_type, schema_obj) := item in
  schema <- py_getitem schema_obj "schema" ;;
  schema <- resolve_if_ref schema openapi_spec ;;
  ' (properties, required) <- extract_properties schema openapi_spec ;;
  let fproperties := dict_update fproperties properties in
  extra <- py_iter required ;;
  Ok (fproperties, (frequired ++ extra)%list).

(** Lines 63-78: the [parameters] of an operation. *)
Definition handle_parameters (openapi_spec details : json)
    (st : params_state) : result params_state :=
  has_params <- py_contains "parameters" details ;;
  if has_params : bool
  then ps <- py_getitem details "parameters" ;;
       l <- py_iter ps ;;
       foldM (add_parameter openapi_spec) l st
  else Ok st.

(** Lines 81-92: the [requestBody] of an operation. *)
Definition handle_request_body (openapi_spec details : json)
    (st : params_state) : result params_state :=
  has_body <- py_contains "requestBody" details ;;
  if has_body : bool
  then request_body <- py_getitem details "requestBody" ;;
       request_body <- resolve_if_ref request_body openapi_spec ;;
       content <- py_getitem request_body "content" ;;
       items <- py_items content ;;
       foldM (add_content openapi_spec) items st
  else Ok st.

(** The dict [function] as it stands when it is appended. *)
Definition function_json (name description : json) (st : params_state)
  : json :=
  JDict [(KStr "name", name);
         (KStr "description", description);
         (KStr "parameters",
           JDict [(KStr "type", JStr "object");
                  (KStr "properties", JDict (fst st));
                  (KStr "required", JList (snd st))])].

(** Lines 52-92: the function descriptor of one operation. *)
Definition build_function (openapi_spec details : json) : result json :=
  name <- py_getitem details "operationId" ;;
  description <- py_get details "summary" (JStr EmptyString) ;;
  st <- handle_parameters openapi_spec details ([], []) ;;
  st <- handle_request_body openapi_spec details st ;;
  Ok (function_json name description st).

(** [[param['name'] for param in params if param.get('in') == place]]. *)
Fixpoint names_in (place : string) (params : list json)
  : result (list json) :=
  match params with
  | [] => Ok []
  | param :: params' =>
      loc <- py_get param "in" JNone ;;
      if eq_str loc place
      then name <- py_getitem param "name" ;;
           names <- names_in place params' ;;
           Ok (name :: names)
      else names_in place params'
  end.

(** Line 98: the chain of [.get(..., {})] from [details] down to the
    [properties] of the [application/json] schema. *)
Definition raw_body_params (details : json) : result json :=
  request_body <- py_get details "requestBody" (JDict []) ;;
  content <- py_get request_body "content" (JDict []) ;;
  media <- py_get content "application/json" (JDict []) ;;
  schema <- py_get media "schema" (JDict []) ;;
  py_get schema "properties" (JDict []).

(** The values the stub text is made of. *)
Record stub : Type := mkStub {
  func_name : json;
  path_params : list json;
  query_params : list json;
  request_body_params : json;
}.

(** Lines 95-98. *)
Definition stub_of (details : json) : result stub :=
  func_name <- py_getitem details "operationId" ;;
  params <- py_get details "parameters" (JList []) ;;
  params <- py_iter params ;;
  path_params <- names_in "path" params ;;
  query_params <- names_in "query" params ;;
  request_body_params <- raw_body_params details ;;
  Ok (mkStub func_name path_params query_params request_body_params).

(** The f-string [f'"{param}": {param}'] of lines 105 and 110. *)
Definition dict_entry (param : json) : string :=
  dquote ++ py_str param ++ dquote ++ ": " ++ py_str param.

(** Lines 100-115: the text of the stub. *)
Definition function_code (openapi_spec : json) (path : key) (s : stub)
  : result string :=
  body_keys <- py_keys (request_body_params s) ;;
  signature <- py_join ", "
                 (path_params s ++ query_params s ++ body_keys)%list ;;
  let code := "def " ++ py_str (func_name s) ++ "(" ++ signature ++ "):"
              ++ nl in
  servers <- py_getitem openapi_spec "servers" ;;
  server <- py_getitem0 servers ;;
  url <- py_getitem server "url" ;;
  let code := code ++ "    url = '" ++ py_str url
              ++ py_str (key_to_json path) ++ "'" ++ nl in
  let code := code ++ "    headers = {'Content-Type': 'application/json'}"
              ++ nl in
  let code :=
    match query_params s with
    | _ :: _ =>
        code ++ "    params = {"
        ++ str_join ", " (map dict_entry (query_params s)) ++ "}" ++ nl
    | [] => code ++ "    params = {}" ++ nl
    end in
  let code :=
    if py_truthy (request_body_params s)
    then code ++ "    body = {"
         ++ str_join ", " (map dict_entry body_keys) ++ "}" ++ nl
         ++ "    response = requests.post(url, headers=headers, "
         ++ "params=params, json=body)" ++ nl
    else code ++ "    response = requests.get(url, headers=headers, "
         ++ "params=params)" ++ nl in
  Ok (code ++ "    return response.json()" ++ nl).

(** The two lists the transformer appends to. *)
Definition outputs : Type := list json * list string.

(** The body of the inner loop (lines 52-118), for one
    [(method, details)] of the path item at [path]. *)
Definition transform_operation (openapi_spec : json) (path : key)
    (out : outputs) (item : key * json) : result outputs :=
  let '(openai_functions, openai_function_codes) := out in
  let '(method, details) := item in
  function <- build_function openapi_spec details ;;
  s <- stub_of details ;;
  code <- function_code openapi_spec path s ;;
  Ok ((openai_functions ++ [function])%list,
      (openai_function_codes ++ [code])%list).

(** The body of the outer loop, for one [(path, methods)]. *)
Definition transform_path (openapi_spec : json) (out : outputs)
    (item : key * json) : result outputs :=
  let '(path, methods) := item in
  ops <- py_items methods ;;
  foldM (transform_operation openapi_spec path) ops out.

(** [transform_to_openai_format(openapi_spec)]. *)
Definition transform_to_openai_format (openapi_spec : json)
  : result outputs :=
  paths <- py_getitem openapi_spec "paths" ;;
  items <- py_items paths ;;
  foldM (transform_path openapi_spec) items ([], []).

(** ** What the specification says of the resolver *)

(** The subtree of [node] at a key path, by mapping lookups only. *)
Fixpoint subtree_at (keys : list string) (node : json) : option json :=
  match keys with
  | [] => Some node
  | k :: keys' =>
      match node with
      | JDict d =>
          match dict_get (KStr k) d with
          | Some child => subtree_at keys' child
          | None => None
          end
      | _ => None
      end
  end.

Definition digit_of (c : ascii) : option nat :=
  let n := nat_of_ascii c in
  if Nat.leb 48 n && Nat.leb n 57 then Some (n - 48) else None.

Fixpoint index_of_digits (acc : nat) (s : string) : option nat :=
  match s with
  | EmptyString => Some acc
  | String c s' =>
      match digit_of c with
      | Some n => index_of_digits (10 * acc + n) s'
      | None => None
      end
  end.

(** The position a key denotes in a sequence: its decimal value. *)
Definition index_of_key (k : string) : option nat :=
  match k with
  | EmptyString => None
  | _ => index_of_digits 0 k
  end.

(** The subtree at a key path as section 4.1 of the specification words it:
    each key is a mapping key lookup or a sequence index, by the kind of
    the node it is applied to. *)
Fixpoint spec_subtree_at (keys : list string) (node : json) : option json :=
  match keys with
  | [] => Some node
  | k :: keys' =>
      match node with
      | JDict d =>
          match dict_get (KStr k) d with
          | Some child => spec_subtree_at keys' child
          | None => None
          end
      | JList l =>
          match index_of_key k with
          | Some i =>
              match nth_error l i with
              | Some child => spec_subtree_at keys' child
              | None => None
              end
          | None => None
          end
      | _ => None
      end
  end.

(** The reference string [#/k1/k2/.../kn]. *)
Definition ref_of_keys (keys : list string) : string :=
  "#/" ++ str_join "/" keys.

Definition no_slash (k : string) : bool := negb (mem_char "/" k).

(** Key paths that a reference string spells without ambiguity for
    [resolve_ref]: at least one key, no ['/'] inside a key, and a first key
    that is not empty (unless it is the only key) and does not begin with
    ['#']. *)
Definition keys_ok (keys : list string) : bool :=
  forallb no_slash keys
  && match keys with
     | [] => false
     | EmptyString :: rest => match rest with [] => true | _ => false end
     | String c _ :: _ => negb (Ascii.eqb c "#")
     end.


(** ** What the specification says of the [required] list *)

(** The name a parameter adds to [required]: its name when it is marked
    required, nothing otherwise. *)
Definition required_name (spec param : json) : list json :=
  match resolve_if_ref param spec with
  | Ok p =>
      match py_getitem p "name", py_get p "required" (JBool false) with
      | Ok n, Ok r => if py_truthy r then [n] else []
      | _, _ => []
      end
  | Err _ => []
  end.

(** The names a content type adds to [required]: the elements of the
    [required] value its flattened schema returns. *)
Definition flattened_required (spec : json) (item : key * json)
  : list json :=
  match py_getitem (snd item) "schema" with
  | Ok schema =>
      match resolve_if_ref schema spec with
      | Ok schema =>
          match extract_properties schema spec with
          | Ok (_, required) =>
              match py_iter required with
              | Ok names => names
              | Err _ => []
              end
          | Err _ => []
          end
      | Err _ => []
      end
  | Err _ => []
  end.

(** The parameter objects of an operation, in order ([[]] without a
    [parameters] key). *)
Definition parameters_of (details : json) : list json :=
  match py_get details "parameters" (JList []) with
  | Ok ps => match py_iter ps with Ok l => l | Err _ => [] end
  | Err _ => []
  end.

(** The content-type entries of the (resolved) request body of an
    operation, in order ([[]] without a [requestBody] key). *)
Definition contents_of (spec details : json) : dict :=
  match py_getitem details "requestBody" with
  | Ok body =>
      match resolve_if_ref body spec with
      | Ok body =>
          match py_getitem body "content" with
          | Ok (JDict items) => items
          | _ => []
          end
      | Err _ => []
      end
  | Err _ => []
  end.

(** [f['parameters']['properties']] and [f['parameters']['required']] of an
    emitted function descriptor. *)
Definition properties_of (f : json) : result json :=
  parameters <- py_getitem f "parameters" ;;
  py_getitem parameters "properties".

Definition required_of (f : json) : result json :=
  parameters <- py_getitem f "parameters" ;;
  py_getitem parameters "required".

(** ** What the specification says of the transformer *)

(** The operations of a path item: each entry of the path item, in
    order, with its path. *)
Definition operations_of_path (item : key * json)
  : list (key * (key * json)) :=
  match snd item with
  | JDict ops => map (fun op => (fst item, op)) ops
  | _ => []
  end.

(** The operations [(path, (method, details))] of a document in traversal
    order: paths in document order, methods within each path in document
    order. *)
Definition operations (spec : json) : list (key * (key * json)) :=
  match py_getitem spec "paths" with
  | Ok (JDict paths) => flat_map operations_of_path paths
  | _ => []
  end.

(** The function descriptor and the stub text of one operation. *)
Definition operation_output (spec : json) (op : key * (key * json))
  : result (json * string) :=
  let '(path, (method, details)) := op in
  function <- build_function spec details ;;
  s <- stub_of details ;;
  code <- function_code spec path s ;;
  Ok (function, code).

(** A field the transformer assumes is absent: the operation has no
    [operationId], its (resolved) request body has no [content], or the
    document has no [servers]. *)
Inductive assumed_field_absent (spec details : json) : Prop :=
| no_operationId (d : dict) :
    details = JDict d ->
    dict_get (KStr "operationId") d = None ->
    assumed_field_absent spec details
| no_content (body : json) (rb : dict) :
    py_getitem details "requestBody" = Ok body ->
    resolve_if_ref body spec = Ok (JDict rb) ->
    dict_get (KStr "content") rb = None ->
    assumed_field_absent spec details
| no_servers (d : dict) :
    spec = JDict d ->
    dict_get (KStr "servers") d = None ->
    assumed_field_absent spec details.

(** ** What the specification says of the stub *)

(** The path of line 98 in the operation object itself. *)
Definition raw_body_path : list string :=
  ["requestBody"; "content"; "application/json"; "schema"; "properties"].

Definition value_or_empty (v : option json) : json :=
  match v with
  | Some x => x
  | None => JDict []
  end.

(** The first line of a stub. *)
Definition def_line (name : json) (signature : string) : string :=
  "def " ++ py_str name ++ "(" ++ signature ++ "):" ++ nl.

(** The lines of a stub that set [url], [headers] and [params]. *)
Definition url_line (url : json) (path : key) : string :=
  "    url = '" ++ py_str url ++ py_str (key_to_json path) ++ "'" ++ nl.

Definition headers_line : string :=
  "    headers = {'Content-Type': 'application/json'}" ++ nl.

Definition params_line (query_params : list json) : string :=
  match query_params with
  | [] => "    params = {}" ++ nl
  | _ :: _ =>
      "    params = {" ++ str_join ", " (map dict_entry query_params)
      ++ "}" ++ nl
  end.

(** The last lines of a stub that issues a GET. *)
Definition get_tail : string :=
  "    response = requests.get(url, headers=headers, params=params)" ++ nl
  ++ "    return response.json()" ++ nl.

(** The last lines of a stub that issues a POST with the body parameters
    [names]. *)
Definition post_tail (names : list json) : string :=
  "    body = {" ++ str_join ", " (map dict_entry names) ++ "}" ++ nl
  ++ "    response = requests.post(url, headers=headers, params=params, json=body)"
  ++ nl
  ++ "    return response.json()" ++ nl.

(** ** What the specification says of the [properties] *)

(** The value of a key a dict may lack: [default] without it. *)
Definition value_or (default : json) (v : option json) : json :=
  match v with
  | Some x => x
  | None => default
  end.

(** The key a parameter is described under: the [name] of the object the
    parameter stands for. *)
Definition parameter_key (spec param : json) : option key :=
  match resolve_if_ref param spec with
  | Ok p =>
      match py_getitem p "name" with
      | Ok name =>
          match json_to_key name with
          | Ok k => Some k
          | Err _ => None
          end
      | Err _ => None
      end
  | Err _ => None
  end.

(** The schema a content type is flattened from: its [schema], with a
    reference followed by the transformer and one more by the
    flattener. *)
Definition content_schema (spec : json) (item : key * json) : option json :=
  match py_getitem (snd item) "schema" with
  | Ok schema =>
      match resolve_if_ref schema spec with
      | Ok schema =>
          match resolve_if_ref schema spec with
          | Ok schema => Some schema
          | Err _ => None
          end
      | Err _ => None
      end
  | Err _ => None
  end.

(** The property definitions of a schema, in order ([[]] without a
    [properties] key). *)
Definition schema_properties (schema : json) : dict :=
  match schema with
  | JDict sd =>
      match dict_get (KStr "properties") sd with
      | Some (JDict items) => items
      | _ => []
      end
  | _ => []
  end.

(** ** A sample document *)

(** A dict with str keys. *)
Definition obj (items : list (string * json)) : json :=
  JDict (map (fun kv => (KStr (fst kv), snd kv)) items).

Definition id_parameter : json :=
  obj [("name", JStr "id"); ("in", JStr "path"); ("required", JBool true)].

Definition limit_ref : json :=
  obj [("$ref", JStr "#/components/parameters/Limit")].

Definition limit_parameter : json :=
  obj [("name", JStr "limit"); ("in", JStr "query");
       ("schema", obj [("type", JStr "integer")])].

Definition pet_schema : json :=
  obj [("properties",
         obj [("name", obj [("type", JStr "string")]); ("tag", obj [])]);
       ("required", JList [JStr "name"])].

Definition pet_body : json :=
  obj [("content",
         obj [("application/json",
                obj [("schema",
                       obj [("$ref", JStr "#/components/schemas/Pet")])])])].

Definition get_item : json :=
  obj [("operationId", JStr "getItem");
       ("parameters", JList [id_parameter; limit_ref])].

Definition create_pet : json :=
  obj [("operationId", JStr "createPet");
       ("requestBody",
         obj [("$ref", JStr "#/components/requestBodies/PetBody")])].

Definition name_int_parameter : json :=
  obj [("name", JStr "name"); ("in", JStr "query");
       ("schema", obj [("type", JStr "integer")]);
       ("required", JBool true)].

Definition name_parameter : json :=
  obj [("name", JStr "name"); ("in", JStr "query");
       ("required", JBool true)].

Definition xml_content : key * json :=
  (KStr "application/xml",
   obj [("schema",
          obj [("properties", obj [("name", obj [("type", JStr "integer")])]);
               ("required", JList [JStr "name"])])]).

Definition json_content : key * json :=
  (KStr "application/json",
   obj [("schema",
          obj [("properties",
                 obj [("name", obj [("type", JStr "boolean")]);
                      ("age", obj [("type", JStr "integer")])]);
               ("required", JList [JStr "name"])])]).

Definition update_pet : json :=
  obj [("operationId", JStr "updatePet");
       ("parameters", JList [name_int_parameter; name_parameter]);
       ("requestBody", obj [("content", JDict [xml_content; json_content])])].

(** Two parameters of one name, and a body that has no property of that
    name. *)
Definition rename_pet : json :=
  obj [("operationId", JStr "renamePet");
       ("parameters", JList [name_int_parameter; name_parameter]);
       ("requestBody",
         obj [("content",
                obj [("application/json",
                       obj [("schema",
                              obj [("properties",
                                     obj [("age",
                                           obj [("type",
                                                 JStr "integer")])])])])])])].

Definition sample_components : json :=
  obj [("parameters", obj [("Limit", limit_parameter)]);
       ("schemas", obj [("Pet", pet_schema)]);
       ("requestBodies", obj [("PetBody", pet_body)])].

Definition sample_paths : json :=
  obj [("/items/{id}", obj [("get", get_item)]);
       ("/pets", obj [("post", create_pet); ("put", update_pet)])].

Definition sample_spec : json :=
  obj [("servers", JList [obj [("url", JStr "https://api.example.com")]]);
       ("components", sample_components);
       ("paths", sample_paths)].

(** The same document without [servers]. *)
Definition sample_spec_no_servers : json :=
  obj [("components", sample_components); ("paths", sample_paths)].

(** The outputs of the transformer on the sample document. *)
Definition sample_functions : list json :=
  match transform_to_openai_format sample_spec with
  | Ok (functions, _) => functions
  | Err _ => []
  end.

Definition sample_codes : list string :=
  match transform_to_openai_format sample_spec with
  | Ok (_, codes) => codes
  | Err _ => []
  end.

Definition sample_function (details : json) : json :=
  match build_function sample_spec details with
  | Ok f => f
  | Err _ => JNone
  end.

(** What the flattener returns for a schema of the sample document. *)
Definition sample_flattened (schema : json) : dict :=
  match extract_properties schema sample_spec with
  | Ok (properties, _) => properties
  | Err _ => []
  end.

Definition sample_stub (details : json) : stub :=
  match stub_of details with
  | Ok s => s
  | Err _ => mkStub JNone [] [] JNone
  end.

Definition sample_code (path : key) (details : json) : string :=
  match function_code sample_spec path (sample_stub details) with
  | Ok code => code
  | Err _ => EmptyString
  end.

(** ** The scenarios of section 8 of the specification *)

Definition scenario_servers : string * json :=
  ("servers", JList [obj [("url", JStr "https://api.example.com")]]).

(** Scenario A: one [GET /items/{id}] with a required path parameter
    [id] without a type. *)
Definition scenario_A : json :=
  obj [scenario_servers;
       ("paths",
         obj [("/items/{id}",
                obj [("get",
                       obj [("operationId", JStr "getItem");
                            ("parameters", JList [id_parameter])])])])].

(** Scenario B: a request body with the [application/json] properties
    [name] and [age]. *)
Definition thing_schema : json :=
  obj [("properties",
         obj [("name", obj [("type", JStr "string")]);
              ("age", obj [("type", JStr "integer")])])].

Definition create_thing : json :=
  obj [("operationId", JStr "createThing");
       ("requestBody",
         obj [("content",
                obj [("application/json",
                       obj [("schema", thing_schema)])])])].

Definition scenario_B : json :=
  obj [scenario_servers;
       ("paths", obj [("/things", obj [("post", create_thing)])])].

(** Scenario D: a parameter that refers to a component that is not
    there. *)
Definition missing_ref : json :=
  obj [("$ref", JStr "#/components/parameters/Missing")].

Definition scenario_D : json :=
  obj [scenario_servers;
       ("components", obj [("parameters", obj [])]);
       ("paths",
         obj [("/items",
                obj [("get",
                       obj [("operationId", JStr "listItems");
                            ("parameters", JList [missing_ref])])])])].

(** * The converter on a store of objects

    The same three functions, statement by statement, on a store that
    holds the list and dict objects of the document and those the
    converter creates.  A value is a scalar or a reference to an object;
    [{}], [[]] and dict displays allocate a new object; [d[k] = v],
    [append], [extend] and [update] replace the object at the address they
    are applied to. *)
Module Heap.

Definition loc : Type := nat.

Inductive value : Type :=
| VNone
| VBool (b : bool)
| VInt (z : Z)
| VStr (s : string)
| VRef (l : loc).

Inductive object : Type :=
| OList (items : list value)
| ODict (items : list (key * value)).

(** The object at address [l] is the [l]-th of the store; a new object
    goes to the end. *)
Definition heap : Type := list object.

(** A statement ends normally, raises, or is stuck: it reads an address
    that the store does not have, or [update] is given something else
    than a dict (its argument is always the dict [extract_properties]
    has built). *)
Inductive outcome (A : Type) : Type :=
| Done (a : A)
| Raise (e : pyerr)
| Stuck.
Arguments Done {A} a.
Arguments Raise {A} e.
Arguments Stuck {A}.

Definition M (A : Type) : Type := heap -> outcome A * heap.

Definition ret {A} (a : A) : M A := fun h => (Done a, h).

Definition bind {A B} (m : M A) (f : A -> M B) : M B :=
  fun h =>
    match m h with
    | (Done a, h') => f a h'
    | (Raise e, h') => (Raise e, h')
    | (Stuck, h') => (Stuck, h')
    end.

Declare Scope heap_scope.
Delimit Scope heap_scope with heap.
Notation "x <- m ;; k" := (bind m (fun x => k))
  (at level 61, m at next level, right associativity) : heap_scope.
Notation "' p <- m ;; k" := (bind m (fun x => match x with p => k end))
  (at level 61, p pattern, m at next level, right associativity)
  : heap_scope.
Notation "m ;;; k" := (bind m (fun _ => k))
  (at level 61, right associativity) : heap_scope.
Local Open Scope heap_scope.

(** A statement that only reads the store. *)
Definition read {A} (f : heap -> outcome A) : M A := fun h => (f h, h).

Fixpoint foldM {A S} (body : S -> A -> M S) (l : list A) (s : S) : M S :=
  match l with
  | [] => ret s
  | x :: l' => s' <- body s x ;; foldM body l' s'
  end.

(** A [for] loop; the elements are those the iterated object has when
    the loop starts (the loops of the converter never write to the object
    they iterate). *)
Definition for_each {A} (body : A -> M unit) (l : list A) : M unit :=
  foldM (fun _ x => body x) l tt.

(** ** Writing to the store *)

Fixpoint replace (l : loc) (o : object) (h : heap) : heap :=
  match h, l with
  | [], _ => []
  | _ :: h', O => o :: h'
  | o' :: h', S l' => o' :: replace l' o h'
  end.

(** A display [{...}] or [[...]]: a new object. *)
Definition alloc (o : object) : M loc :=
  fun h => (Done (List.length h), (h ++ [o])%list).

(** [target[k] = v]. *)
Definition setitem (target : value) (k : key) (v : value) : M unit :=
  fun h =>
    match target with
    | VRef l =>
        match nth_error h l with
        | Some (ODict d) => (Done tt, replace l (ODict (dict_set k v d)) h)
        | Some (OList _) => (Raise TypeError, h)
        | None => (Stuck, h)
        end
    | _ => (Raise TypeError, h)
    end.

(** [target.append(v)]. *)
Definition append (target : value) (v : value) : M unit :=
  fun h =>
    match target with
    | VRef l =>
        match nth_error h l with
        | Some (OList xs) => (Done tt, replace l (OList (xs ++ [v])) h)
        | Some (ODict _) => (Raise AttributeError, h)
        | None => (Stuck, h)
        end
    | _ => (Raise AttributeError, h)
    end.

(** ** Reading the store *)

Definition v_eq_str (v : value) (s : string) : bool :=
  match v with
  | VStr t => String.eqb t s
  | _ => false
  end.

Definition key_to_value (k : key) : value :=
  match k with
  | KNone => VNone
  | KBool b => VBool b
  | KInt z => VInt z
  | KStr s => VStr s
  end.

Definition value_to_key (v : value) : outcome key :=
  match v with
  | VNone => Done KNone
  | VBool b => Done (KBool b)
  | VInt z => Done (KInt z)
  | VStr s => Done (KStr s)
  | VRef _ => Raise TypeError
  end.

Definition h_contains (s : string) (v : value) (h : heap) : outcome bool :=
  match v with
  | VRef l =>
      match nth_error h l with
      | Some (ODict d) => Done (dict_has (KStr s) d)
      | Some (OList xs) => Done (existsb (fun x => v_eq_str x s) xs)
      | None => Stuck
      end
  | VStr t => Done (str_contains s t)
  | VNone | VBool _ | VInt _ => Raise TypeError
  end.

Definition h_getitem (v : value) (s : string) (h : heap) : outcome value :=
  match v with
  | VRef l =>
      match nth_error h l with
      | Some (ODict d) =>
          match dict_get (KStr s) d with
          | Some x => Done x
          | None => Raise KeyError
          end
      | Some (OList _) => Raise TypeError
      | None => Stuck
      end
  | _ => Raise TypeError
  end.

Definition h_get (v : value) (s : string) (default : value) (h : heap)
  : outcome value :=
  match v with
  | VRef l =>
      match nth_error h l with
      | Some (ODict d) =>
          match dict_get (KStr s) d with
          | Some x => Done x
          | None => Done default
          end
      | Some (OList _) => Raise AttributeError
      | None => Stuck
      end
  | _ => Raise AttributeError
  end.

Definition h_items (v : value) (h : heap) : outcome (list (key * value)) :=
  match v with
  | VRef l =>
      match nth_error h l with
      | Some (ODict d) => Done d
      | Some (OList _) => Raise AttributeError
      | None => Stuck
      end
  | _ => Raise AttributeError
  end.

Definition h_keys (v : value) (h : heap) : outcome (list value) :=
  match h_items v h with
  | Done d => Done (map key_to_value (dict_keys d))
  | Raise e => Raise e
  | Stuck => Stuck
  end.

Definition h_iter (v : value) (h : heap) : outcome (list value) :=
  match v with
  | VRef l =>
      match nth_error h l with
      | Some (OList xs) => Done xs
      | Some (ODict d) => Done (map key_to_value (dict_keys d))
      | None => Stuck
      end
  | VStr s => Done (map VStr (chars_of s))
  | VNone | VBool _ | VInt _ => Raise TypeError
  end.

Definition h_getitem0 (v : value) (h : heap) : outcome value :=
  match v with
  | VRef l =>
      match nth_error h l with
      | Some (OList (x :: _)) => Done x
      | Some (OList []) => Raise IndexError
      | Some (ODict d) =>
          match dict_get (KInt 0) d with
          | Some x => Done x
          | None => Raise KeyError
          end
      | None => Stuck
      end
  | VStr (String c _) => Done (VStr (String c EmptyString))
  | VStr EmptyString => Raise IndexError
  | VNone | VBool _ | VInt _ => Raise TypeError
  end.

Definition h_truthy (v : value) (h : heap) : outcome bool :=
  match v with
  | VNone => Done false
  | VBool b => Done b
  | VInt z => Done (negb (Z.eqb z 0))
  | VStr s => Done (negb (String.eqb s EmptyString))
  | VRef l =>
      match nth_error h l with
      | Some (OList xs) => Done (match xs with [] => false | _ => true end)
      | Some (ODict d) => Done (match d with [] => false | _ => true end)
      | None => Stuck
      end
  end.

(** The tree that a value stands for, down to depth [fuel]. *)
Fixpoint reify (fuel : nat) (h : heap) (v : value) : json :=
  match v with
  | VNone => JNone
  | VBool b => JBool b
  | VInt z => JInt z
  | VStr s => JStr s
  | VRef l =>
      match fuel with
      | O => JNone
      | S fuel' =>
          match nth_error h l with
          | Some (OList xs) => JList (map (reify fuel' h) xs)
          | Some (ODict d) =>
              JDict (map (fun kv => (fst kv, reify fuel' h (snd kv))) d)
          | None => JNone
          end
      end
  end.

(** [str(v)].  The text of a list or dict is the text of its tree; an
    object that contains itself, for which Python writes [[...]], is cut
    at the depth of the number of objects.  No property of this module
    looks at a text. *)
Definition h_str (v : value) (h : heap) : string :=
  py_str (reify (List.length h) h v).

Definition h_join (sep : string) (l : list value) : outcome string :=
  match mapM (fun v => match v with
                       | VStr s => Ok s
                       | _ => Err TypeError
                       end) l with
  | Ok ss => Done (str_join sep ss)
  | Err e => Raise e
  end.

(** [target.extend(other)]. *)
Definition extend (target : value) (other : value) : M unit :=
  fun h =>
    match target with
    | VRef l =>
        match nth_error h l with
        | Some (OList xs) =>
            match h_iter other h with
            | Done vs => (Done tt, replace l (OList (xs ++ vs)) h)
            | Raise e => (Raise e, h)
            | Stuck => (Stuck, h)
            end
        | Some (ODict _) => (Raise AttributeError, h)
        | None => (Stuck, h)
        end
    | _ => (Raise AttributeError, h)
    end.

(** [target.update(other)], for a dict [other]. *)
Definition update (target : value) (other : loc) : M unit :=
  fun h =>
    match target with
    | VRef l =>
        match nth_error h l with
        | Some (ODict d) =>
            match nth_error h other with
            | Some (ODict d') =>
                (Done tt, replace l (ODict (dict_update d d')) h)
            | _ => (Stuck, h)
            end
        | Some (OList _) => (Raise AttributeError, h)
        | None => (Stuck, h)
        end
    | _ => (Raise AttributeError, h)
    end.

(** ** The three functions *)

Definition resolve_ref (ref : value) (spec : value) : M value :=
  match ref with
  | VStr r =>
      let keys := str_split "/" (str_lstrip "#/" r) in
      foldM (fun result key => read (h_getitem result key)) keys spec
  | _ => read (fun _ => Raise AttributeError)
  end.

Definition resolve_if_ref (x : value) (spec : value) : M value :=
  has_ref <- read (h_contains "$ref" x) ;;
  if has_ref : bool
  then r <- read (h_getitem x "$ref") ;; resolve_ref r spec
  else ret x.

Definition extract_property (openapi_spec : value) (properties : loc)
    (item : key * value) : M unit :=
  let '(prop_name, prop_details) := item in
  prop_details <- resolve_if_ref prop_details openapi_spec ;;
  prop_type <- read (h_get prop_details "type" (VStr "object")) ;;
  description <- read (h_get prop_details "description" (VStr EmptyString)) ;;
  d <- alloc (ODict [(KStr "type", prop_type);
                     (KStr "description", description)]) ;;
  setitem (VRef properties) prop_name (VRef d).

Definition extract_properties (schema : value) (openapi_spec : value)
  : M (loc * value) :=
  properties <- alloc (ODict []) ;;
  _ <- alloc (OList []) ;;
  schema <- resolve_if_ref schema openapi_spec ;;
  has_props <- read (h_contains "properties" schema) ;;
  props <- (if has_props : bool
            then read (h_getitem schema "properties")
            else e <- alloc (ODict []) ;; ret (VRef e)) ;;
  default <- alloc (OList []) ;;
  required <- read (h_get schema "required" (VRef default)) ;;
  items <- read (h_items props) ;;
  for_each (extract_property openapi_spec properties) items ;;;
  ret (properties, required).

(** [function['parameters'][field]]. *)
Definition parameters_field (function : loc) (field : string) : M value :=
  parameters <- read (h_getitem (VRef function) "parameters") ;;
  read (h_getitem parameters field).

Definition add_parameter (openapi_spec : value) (function : loc)
    (param : value) : M unit :=
  param <- resolve_if_ref param openapi_spec ;;
  param_name <- read (h_getitem param "name") ;;
  default <- alloc (ODict []) ;;
  param_schema <- read (h_get param "schema" (VRef default)) ;;
  param_schema <- resolve_if_ref param_schema openapi_spec ;;
  param_type <- read (h_get param_schema "type" (VStr "string")) ;;
  description <- read (h_get param "description" (VStr EmptyString)) ;;
  param_details <- alloc (ODict [(KStr "type", param_type);
                                 (KStr "description", description)]) ;;
  properties <- parameters_field function "properties" ;;
  k <- read (fun _ => value_to_key param_name) ;;
  setitem properties k (VRef param_details) ;;;
  is_required <- read (h_get param "required" (VBool false)) ;;
  truth <- read (h_truthy is_required) ;;
  if truth : bool
  then required <- parameters_field function "required" ;;
       append required param_name
  else ret tt.

Definition add_content (openapi_spec : value) (function : loc)
    (item : key * value) : M unit :=
  let '(content_type, schema_obj) := item in
  schema <- read (h_getitem schema_obj "schema") ;;
  schema <- resolve_if_ref schema openapi_spec ;;
  ' (properties, required) <- extract_properties schema openapi_spec ;;
  fproperties <- parameters_field function "properties" ;;
  update fproperties properties ;;;
  frequired <- parameters_field function "required" ;;
  extend frequired required.

Definition handle_parameters (openapi_spec details : value)
    (function : loc) : M unit :=
  has_params <- read (h_contains "parameters" details) ;;
  if has_params : bool
  then ps <- read (h_getitem details "parameters") ;;
       l <- read (h_iter ps) ;;
       for_each (add_parameter openapi_spec function) l
  else ret tt.

Definition handle_request_body (openapi_spec details : value)
    (function : loc) : M unit :=
  has_body <- read (h_contains "requestBody" details) ;;
  if has_body : bool
  then request_body <- read (h_getitem details "requestBody") ;;
       request_body <- resolve_if_ref request_body openapi_spec ;;
       content <- read (h_getitem request_body "content") ;;
       items <- read (h_items content) ;;
       for_each (add_content openapi_spec function) items
  else ret tt.

(** Lines 52-92.  The dict display of lines 52-60 allocates, innermost
    first, the [properties] dict, the [required] list, the [parameters]
    dict and the [function] dict. *)
Definition build_function (openapi_spec details : value) : M loc :=
  name <- read (h_getitem details "operationId") ;;
  description <- read (h_get details "summary" (VStr EmptyString)) ;;
  properties <- alloc (ODict []) ;;
  required <- alloc (OList []) ;;
  parameters <- alloc (ODict [(KStr "type", VStr "object");
                              (KStr "properties", VRef properties);
                              (KStr "required", VRef required)]) ;;
  function <- alloc (ODict [(KStr "name", name);
                            (KStr "description", description);
                            (KStr "parameters", VRef parameters)]) ;;
  handle_parameters openapi_spec details function ;;;
  handle_request_body openapi_spec details function ;;;
  ret function.

Fixpoint names_in (place : string) (params : list value)
  : M (list value) :=
  match params with
  | [] => ret []
  | param :: params' =>
      loc <- read (h_get param "in" VNone) ;;
      if v_eq_str loc place
      then name <- read (h_getitem param "name") ;;
           names <- names_in place params' ;;
           ret (name :: names)
      else names_in place params'
  end.

(** Line 98; each [{}] default is a new dict. *)
Definition get_or_empty (v : value) (s : string) : M value :=
  default <- alloc (ODict []) ;;
  read (h_get v s (VRef default)).

Definition raw_body_params (details : value) : M value :=
  request_body <- get_or_empty details "requestBody" ;;
  content <- get_or_empty request_body "content" ;;
  media <- get_or_empty content "application/json" ;;
  schema <- get_or_empty media "schema" ;;
  get_or_empty schema "properties".

Record stub : Type := mkStub {
  func_name : value;
  path_params : list value;
  query_params : list value;
  request_body_params : value;
}.

(** Lines 95-98; [details.get('parameters', [])] is evaluated once for
    each of the two comprehensions. *)
Definition stub_of (details : value) : M stub :=
  func_name <- read (h_getitem details "operationId") ;;
  default <- alloc (OList []) ;;
  params <- read (h_get details "parameters" (VRef default)) ;;
  params <- read (h_iter params) ;;
  path_params <- names_in "path" params ;;
  default <- alloc (OList []) ;;
  params <- read (h_get details "parameters" (VRef default)) ;;
  params <- read (h_iter params) ;;
  query_params <- names_in "query" params ;;
  request_body_params <- raw_body_params details ;;
  ret (mkStub func_name path_params query_params request_body_params).

Definition dict_entry (param : value) (h : heap) : string :=
  dquote ++ h_str param h ++ dquote ++ ": " ++ h_str param h.

(** Lines 100-115. *)
Definition function_code (openapi_spec : value) (path : key) (s : stub)
  : M string :=
  body_keys <- read (h_keys (request_body_params s)) ;;
  signature <- read (fun _ =>
                 h_join ", "
                   (path_params s ++ query_params s ++ body_keys)%list) ;;
  name <- read (fun h => Done (h_str (func_name s) h)) ;;
  let code := "def " ++ name ++ "(" ++ signature ++ "):" ++ nl in
  servers <- read (h_getitem openapi_spec "servers") ;;
  server <- read (h_getitem0 servers) ;;
  url <- read (h_getitem server "url") ;;
  url <- read (fun h => Done (h_str url h)) ;;
  let code := code ++ "    url = '" ++ url
              ++ py_str (key_to_json path) ++ "'" ++ nl in
  let code := code ++ "    headers = {'Content-Type': 'application/json'}"
              ++ nl in
  query_entries <- read (fun h =>
                     Done (map (fun p => dict_entry p h) (query_params s))) ;;
  let code :=
    match query_params s with
    | _ :: _ =>
        code ++ "    params = {" ++ str_join ", " query_entries ++ "}" ++ nl
    | [] => code ++ "    params = {}" ++ nl
    end in
  has_body <- read (h_truthy (request_body_params s)) ;;
  body_entries <- read (fun h =>
                    Done (map (fun p => dict_entry p h) body_keys)) ;;
  let code :=
    if has_body : bool
    then code ++ "    body = {" ++ str_join ", " body_entries ++ "}" ++ nl
         ++ "    response = requests.post(url, headers=headers, "
         ++ "params=params, json=body)" ++ nl
    else code ++ "    response = requests.get(url, headers=headers, "
         ++ "params=params)" ++ nl in
  ret (code ++ "    return response.json()" ++ nl).

(** The body of the inner loop. *)
Definition transform_operation (openapi_spec : value) (path : key)
    (openai_functions openai_function_codes : loc) (item : key * value)
  : M unit :=
  let '(method, details) := item in
  function <- build_function openapi_spec details ;;
  s <- stub_of details ;;
  code <- function_code openapi_spec path s ;;
  append (VRef openai_function_codes) (VStr code) ;;;
  append (VRef openai_functions) (VRef function).

Definition transform_path (openapi_spec : value)
    (openai_functions openai_function_codes : loc) (item : key * value)
  : M unit :=
  let '(path, methods) := item in
  ops <- read (h_items methods) ;;
  for_each (transform_operation openapi_spec path openai_functions
              openai_function_codes) ops.

(** [transform_to_openai_format(openapi_spec)]; returns the two lists. *)
Definition transform_to_openai_format (openapi_spec : value)
  : M (loc * loc) :=
  openai_functions <- alloc (OList []) ;;
  openai_function_codes <- alloc (OList []) ;;
  paths <- read (h_getitem openapi_spec "paths") ;;
  items <- read (h_items paths) ;;
  for_each (transform_path openapi_spec openai_functions
              openai_function_codes) items ;;;
  ret (openai_functions, openai_function_codes).

(** ** Loading a document into the store *)

(** The objects of a tree, children first. *)
Fixpoint load (j : json) : M value :=
  match j with
  | JNone => ret VNone
  | JBool b => ret (VBool b)
  | JInt z => ret (VInt z)
  | JStr s => ret (VStr s)
  | JList l =>
      vs <- (fix load_list (l : list json) : M (list value) :=
               match l with
               | [] => ret []
               | x :: l' =>
                   v <- load x ;; vs <- load_list l' ;; ret (v :: vs)
               end) l ;;
      r <- alloc (OList vs) ;;
      ret (VRef r)
  | JDict d =>
      kvs <- (fix load_items (d : list (key * json))
                : M (list (key * value)) :=
                match d with
                | [] => ret []
                | (k, x) :: d' =>
                    v <- load x ;; kvs <- load_items d' ;;
                    ret ((k, v) :: kvs)
                end) d ;;
      r <- alloc (ODict kvs) ;;
      ret (VRef r)
  end.

(** The store that holds the sample document, and its root. *)
Definition sample_heap : heap := snd (load sample_spec []).

Definition sample_root : value :=
  match fst (load sample_spec []) with
  | Done v => v
  | _ => VNone
  end.

(** The two lists the converter returns on a loaded document, as
    trees. *)
Definition convert (spec : json) : result (json * json) :=
  match (root <- load spec ;; transform_to_openai_format root) [] with
  | (Done (functions, codes), h) =>
      Ok (reify (List.length h) h (VRef functions),
          reify (List.length h) h (VRef codes))
  | (Raise e, _) => Err e
  | (Stuck, _) => Err TypeError
  end.

(** ** What a statement may write *)

(** From [h] to [h'] the store has only grown, and the objects at the
    addresses below [b] are the same, those at the addresses [ex]
    apart. *)
Definition touches (b : nat) (ex : list loc) (h h' : heap) : Prop :=
  List.length h <= List.length h'
  /\ forall l, l < b -> ~ In l ex -> nth_error h' l = nth_error h l.

(** Run from a store that satisfies [I], the statement [m] writes below
    [b] at the addresses [ex] only, and a value it returns satisfies
    [Q]. *)
Definition frames {A} (I : heap -> Prop) (b : nat) (ex : list loc)
    (m : M A) (Q : A -> Prop) : Prop :=
  forall h, I h ->
    touches b ex h (snd (m h))
    /\ forall a, fst (m h) = Done a -> Q a.

(** [I] still holds after such writes. *)
Definition stable (I : heap -> Prop) (b : nat) (ex : list loc) : Prop :=
  forall h h', I h -> touches b ex h h' -> I h'.

(** The objects that lines 52-60 build for an operation are in the store:
    the dict [function], its [parameters] dict, and in it the references
    to the [properties] dict and to the [required] list. *)
Definition function_shape (function parameters properties required : loc)
    (h : heap) : Prop :=
  exists fd pd,
    nth_error h function = Some (ODict fd)
    /\ dict_get (KStr "parameters") fd = Some (VRef parameters)
    /\ nth_error h parameters = Some (ODict pd)
    /\ dict_get (KStr "properties") pd = Some (VRef properties)
    /\ dict_get (KStr "required") pd = Some (VRef required).

(** The invariant of the two loops of an operation: the store has at
    least [b] objects, the objects of the operation among them. *)
Definition loops_inv (function parameters properties required : loc)
    (b : nat) (h : heap) : Prop :=
  b <= List.length h
  /\ function_shape function parameters properties required h.

End Heap.

(** * More of the converter *)

(** ** The loader *)

(** [s.endswith(suffix)]. *)
Fixpoint str_endswith (suffix s : string) : bool :=
  String.eqb s suffix
  || match s with
     | EmptyString => false
     | String _ s' => str_endswith suffix s'
     end.

(** The parser [load_openapi_spec] applies to a file. *)
Inductive parser : Type :=
| JsonLoad       (* json.load *)
| YamlSafeLoad.  (* yaml.safe_load *)

(** Lines 7-12: the choice of the parser by the end of the path. *)
Definition parser_of (file_path : string) : option parser :=
  if str_endswith ".json" file_path then Some JsonLoad
  else if str_endswith ".yaml" file_path || str_endswith ".yml" file_path
       then Some YamlSafeLoad
       else None.

(** How [load_openapi_spec] ends. *)
Inductive loaded : Type :=
| Loaded (spec : json)
| OpenFails         (* [open] raises: the file cannot be read *)
| ParseFails        (* the parser raises on the text *)
| UnsupportedFormat.  (* [ValueError("Unsupported file format")] *)

Section Loader.

(** The files that can be opened for reading, with their text, and the two
    parsers of the libraries. *)
Variable open_file : string -> option string.
Variable json_load : string -> option json.
Variable yaml_safe_load : string -> option json.

(** [load_openapi_spec(file_path)]: the file is opened first, then the
    parser is chosen. *)
Definition load_openapi_spec (file_path : string) : loaded :=
  match open_file file_path with
  | None => OpenFails
  | Some text =>
      match parser_of file_path with
      | Some JsonLoad =>
          match json_load text with
          | Some spec => Loaded spec
          | None => ParseFails
          end
      | Some YamlSafeLoad =>
          match yaml_safe_load text with
          | Some spec => Loaded spec
          | None => ParseFails
          end
      | None => UnsupportedFormat
      end
  end.

End Loader.

(** ** Reference strings *)

(** Every character of [s] is one of [chars]. *)
Fixpoint only_chars (chars s : string) : bool :=
  match s with
  | EmptyString => true
  | String c s' => mem_char c chars && only_chars chars s'
  end.

(** ** Flattening without references *)

Definition is_dict (v : json) : bool :=
  match v with
  | JDict _ => true
  | _ => false
  end.

Definition is_str (v : json) : bool :=
  match v with
  | JStr _ => true
  | _ => false
  end.

(** A dict that is not a reference object. *)
Definition inline_dict (v : json) : bool :=
  match v with
  | JDict d => negb (dict_has (KStr "$ref") d)
  | _ => false
  end.


(** ** More sample documents *)

(** A schema that is only a reference to the schema [Pet]. *)
Definition alias_schema : json :=
  obj [("$ref", JStr "#/components/schemas/Pet")].

(** A schema in the style of Swagger 2, with a boolean [required]. *)
Definition legacy_schema : json :=
  obj [("properties", obj [("id", obj [("type", JStr "integer")])]);
       ("required", JBool true)].

(** A schema with a property whose definition is [null]. *)
Definition null_property_schema : json :=
  obj [("properties", obj [("id", obj []); ("tag", JNone)])].

Definition chain_spec : json :=
  obj [("servers", JList [obj [("url", JStr "https://api.example.com")]]);
       ("components",
         obj [("schemas",
                obj [("Alias", alias_schema);
                     ("Pet", pet_schema);
                     ("Legacy", legacy_schema)])])].

(** A reference with a description beside it. *)
Definition limit_ref_described : dict :=
  [(KStr "$ref", JStr "#/components/parameters/Limit");
   (KStr "description", JStr "ignored")].

(** A path item with parameters of its own, beside its operation. *)
Definition shared_parameters_item : json :=
  obj [("parameters", JList [id_parameter]);
       ("get", obj [("operationId", JStr "getItem")])].

Definition shared_parameters_spec : json :=
  obj [("servers", JList [obj [("url", JStr "https://api.example.com")]]);
       ("paths", obj [("/items/{id}", shared_parameters_item)])].

(** An operation with a parameter that has no [name]. *)
Definition nameless_parameter : json := obj [("in", JStr "query")].

Definition nameless_operation : json :=
  obj [("operationId", JStr "listItems");
       ("parameters", JList [nameless_parameter])].

Definition nameless_spec : json :=
  obj [("servers", JList [obj [("url", JStr "https://api.example.com")]]);
       ("paths", obj [("/items", obj [("get", nameless_operation)])])].

(** The sample document with an empty list of servers. *)
Definition empty_servers_spec : json :=
  obj [("servers", JList []);
       ("components", sample_components);
       ("paths", sample_paths)].

(** An operation with a header parameter. *)
Definition token_parameter : dict :=
  [(KStr "name", JStr "X-Token"); (KStr "in", JStr "header")].

Definition token_operation : json :=
  obj [("operationId", JStr "getItem");
       ("parameters", JList [id_parameter; JDict token_parameter])].

(** An operation with a query parameter whose name is the number 5. *)
Definition numbered_operation : json :=
  obj [("operationId", JStr "listItems");
       ("parameters",
         JList [obj [("name", JInt 5); ("in", JStr "query")]])].

Definition numbered_spec : json :=
  obj [("servers", JList [obj [("url", JStr "https://api.example.com")]]);
       ("paths", obj [("/items", obj [("get", numbered_operation)])])].

(** The sample document with a second server. *)
Definition two_servers_spec : json :=
  obj [("servers",
         JList [obj [("url", JStr "https://api.example.com")];
                obj [("url", JStr "https://staging.example.com")]]);
       ("components", sample_components);
       ("paths", sample_paths)].

(** The last character of a str. *)
Fixpoint str_last (s : string) : option ascii :=
  match s with
  | EmptyString => None
  | String c EmptyString => Some c
  | String _ s' => str_last s'
  end.
(** ** Properties of the exception monad and of loops *)

Lemma bind_ok {A B} (m : result A) (f : A -> result B) (b : B) :
  bind m f = Ok b -> exists a, m = Ok a /\ f a = Ok b.
Proof. destruct m as [a|e]; simpl; [eauto|discriminate]. Qed.

Lemma bind_err {A B} (m : result A) (f : A -> result B) (e : pyerr) :
  m = Err e -> bind m f = Err e.
Proof. now intros ->. Qed.

(** Splits a hypothesis [H : (x <- m ;; k) = Ok r] into the result of [m]
    and the rest. *)
Ltac inv_bind H :=
  let x := fresh "x" in
  let E := fresh "E" in
  apply bind_ok in H; destruct H as (x & E & H).

Ltac inv_ok H := injection H as H; subst.

Lemma foldM_app {A S} (body : S -> A -> result S) (l1 l2 : list A) (s : S) :
  foldM body (l1 ++ l2)%list s = (s' <- foldM body l1 s ;; foldM body l2 s').
Proof.
  revert s. induction l1 as [|x l1 IH]; intros s; simpl; [reflexivity|].
  destruct (body s x); simpl; [apply IH|reflexivity].
Qed.

(** A loop raises as soon as its body raises on one element, whatever the
    accumulator. *)
Lemma foldM_raises {A S} (body : S -> A -> result S) (l : list A) (x : A) :
  In x l -> (forall s, exists e, body s x = Err e) ->
  forall s, exists e, foldM body l s = Err e.
Proof.
  intros Hin Hx. induction l as [|y l IH]; [contradiction|].
  intros s. simpl. destruct Hin as [->|Hin].
  - destruct (Hx s) as [e ->]. now exists e.
  - destruct (body s y) as [s'|e]; simpl; [now apply IH|now exists e].
Qed.

(** An invariant of the accumulator that every iteration keeps. *)
Lemma foldM_invariant {A S} (P : S -> Prop) (body : S -> A -> result S)
    (l : list A) :
  (forall s x s', In x l -> P s -> body s x = Ok s' -> P s') ->
  forall s s', P s -> foldM body l s = Ok s' -> P s'.
Proof.
  induction l as [|y l IH]; intros Hstep s s' Hs H; simpl in H.
  - now inv_ok H.
  - inv_bind H. apply (IH (fun s x s' Hin => Hstep s x s' (or_intror Hin))
                         x s'); [|assumption].
    apply (Hstep s y x); [now left|assumption|assumption].
Qed.

(** ** Properties of keys and dicts *)

Lemma key_eqb_norm (k1 k2 : key) :
  key_eqb k1 k2 = true <-> key_norm k1 = key_norm k2.
Proof.
  assert (HZ : forall a b : Z, Z.eqb a b = true <-> KInt a = KInt b).
  { intros a b. rewrite Z.eqb_eq. split; congruence. }
  assert (HS : forall a b : string,
             String.eqb a b = true <-> KStr a = KStr b).
  { intros a b. rewrite String.eqb_eq. split; congruence. }
  unfold key_eqb.
  destruct k1 as [|b1|z1|s1], k2 as [|b2|z2|s2]; cbn [key_norm];
    try apply HZ; try apply HS;
    try (split; intros H; (discriminate || reflexivity)).
Qed.

Lemma key_norm_not_bool (k : key) (b : bool) : key_norm k <> KBool b.
Proof. destruct k; simpl; discriminate. Qed.

Lemma key_eqb_refl (k : key) : key_eqb k k = true.
Proof. now apply key_eqb_norm. Qed.

Lemma key_eqb_sym (k1 k2 : key) : key_eqb k1 k2 = key_eqb k2 k1.
Proof.
  destruct (key_eqb k1 k2) eqn:E1, (key_eqb k2 k1) eqn:E2; trivial.
  - apply key_eqb_norm in E1. symmetry in E1. apply key_eqb_norm in E1.
    congruence.
  - apply key_eqb_norm in E2. symmetry in E2. apply key_eqb_norm in E2.
    congruence.
Qed.

(** Equal keys behave alike in every comparison. *)
Lemma key_eqb_congr (k1 k2 k : key) :
  key_eqb k1 k2 = true -> key_eqb k1 k = key_eqb k2 k.
Proof.
  intros H. apply key_eqb_norm in H.
  destruct (key_eqb k1 k) eqn:E1, (key_eqb k2 k) eqn:E2; trivial.
  - apply key_eqb_norm in E1.
    assert (E : key_eqb k2 k = true) by (apply key_eqb_norm; congruence).
    congruence.
  - apply key_eqb_norm in E2.
    assert (E : key_eqb k1 k = true) by (apply key_eqb_norm; congruence).
    congruence.
Qed.

Lemma key_eqb_str (s t : string) : key_eqb (KStr s) (KStr t) = String.eqb s t.
Proof. reflexivity. Qed.

(** Reading a dict after an assignment. *)
Lemma dict_get_set {V : Type} (k k' : key) (v : V) (d : list (key * V)) :
  dict_get k' (dict_set k v d)
  = if key_eqb k k' then Some v else dict_get k' d.
Proof.
  induction d as [|[k0 v0] d IH]; simpl.
  - reflexivity.
  - destruct (key_eqb k0 k) eqn:E0; simpl.
    + rewrite (key_eqb_congr k0 k k' E0).
      now destruct (key_eqb k k').
    + rewrite IH. destruct (key_eqb k0 k') eqn:E1; [|reflexivity].
      destruct (key_eqb k k') eqn:E2; [|reflexivity].
      rewrite key_eqb_sym in E2.
      rewrite (key_eqb_congr k0 k' k E1), E2 in E0. discriminate.
Qed.

Lemma dict_get_set_same {V : Type} (k k' : key) (v : V)
    (d : list (key * V)) :
  key_eqb k k' = true -> dict_get k' (dict_set k v d) = Some v.
Proof. intros H. now rewrite dict_get_set, H. Qed.

Lemma dict_get_set_other {V : Type} (k k' : key) (v : V)
    (d : list (key * V)) :
  key_eqb k k' = false -> dict_get k' (dict_set k v d) = dict_get k' d.
Proof. intros H. now rewrite dict_get_set, H. Qed.

(** An assignment never removes a key. *)
Lemma dict_has_set {V : Type} (k k' : key) (v : V) (d : list (key * V)) :
  dict_has k' d = true -> dict_has k' (dict_set k v d) = true.
Proof.
  unfold dict_has. rewrite dict_get_set. now destruct (key_eqb k k').
Qed.

Lemma dict_has_set_same {V : Type} (k k' : key) (v : V)
    (d : list (key * V)) :
  key_eqb k k' = true -> dict_has k' (dict_set k v d) = true.
Proof. intros H. unfold dict_has. now rewrite dict_get_set, H. Qed.

(** Reading a dict after [update]: the entry of [other] if it has one,
    the old entry otherwise; [dict_update [] other] is [other] with its
    last assignment to each key. *)
Lemma dict_get_update {V : Type} (k : key) (d other : list (key * V)) :
  dict_get k (dict_update d other)
  = match dict_get k (dict_update [] other) with
    | Some v => Some v
    | None => dict_get k d
    end.
Proof.
  unfold dict_update. revert d.
  induction other as [|[k0 v0] other IH] using rev_ind; intros d.
  - reflexivity.
  - rewrite !fold_left_app. simpl. rewrite !dict_get_set, IH.
    destruct (key_eqb k0 k); [reflexivity|].
    reflexivity.
Qed.

Lemma dict_has_update {V : Type} (k : key) (d other : list (key * V)) :
  dict_has k d = true -> dict_has k (dict_update d other) = true.
Proof.
  unfold dict_has. rewrite dict_get_update.
  now destruct (dict_get k (dict_update [] other)).
Qed.

Lemma dict_has_update_new {V : Type} (k : key) (d other : list (key * V)) :
  dict_has k (dict_update [] other) = true ->
  dict_has k (dict_update d other) = true.
Proof.
  unfold dict_has. rewrite (dict_get_update k d other).
  now destruct (dict_get k (dict_update [] other)).
Qed.

Lemma py_getitem_dict (v : json) (s : string) (x : json) :
  py_getitem v s = Ok x ->
  exists d, v = JDict d /\ dict_get (KStr s) d = Some x.
Proof.
  destruct v as [| | | | |d]; simpl; try discriminate.
  destruct (dict_get (KStr s) d) eqn:E; [|discriminate].
  intros H. inv_ok H. eauto.
Qed.

Lemma py_get_dict (v : json) (s : string) (default x : json) :
  py_get v s default = Ok x ->
  exists d, v = JDict d
            /\ x = match dict_get (KStr s) d with
                   | Some y => y
                   | None => default
                   end.
Proof.
  destruct v as [| | | | |d]; simpl; try discriminate.
  intros H. exists d. split; [reflexivity|].
  destruct (dict_get (KStr s) d); now inv_ok H.
Qed.

Lemma py_items_dict (v : json) (d : dict) :
  py_items v = Ok d -> v = JDict d.
Proof. destruct v; simpl; try discriminate. now intros H; inv_ok H. Qed.
(** ** Properties of the string operations *)

Lemma str_split_no_sep (sep : ascii) (k : string) :
  mem_char sep k = false -> str_split sep k = [k].
Proof.
  induction k as [|c k IH]; simpl; intros H; [reflexivity|].
  apply orb_false_iff in H. destruct H as [Hc Hk].
  rewrite Ascii.eqb_sym, Hc. now rewrite (IH Hk).
Qed.

Lemma str_split_app (sep : ascii) (k rest : string) :
  mem_char sep k = false ->
  str_split sep (k ++ String sep rest) = k :: str_split sep rest.
Proof.
  induction k as [|c k IH]; simpl; intros H.
  - now rewrite Ascii.eqb_refl.
  - apply orb_false_iff in H. destruct H as [Hc Hk].
    rewrite Ascii.eqb_sym, Hc. now rewrite (IH Hk).
Qed.

Lemma str_split_join (keys : list string) :
  keys <> [] -> forallb no_slash keys = true ->
  str_split "/" (str_join "/" keys) = keys.
Proof.
  induction keys as [|k keys IH]; [congruence|].
  intros _ H. simpl in H. apply andb_true_iff in H. destruct H as [Hk Hks].
  unfold no_slash in Hk. apply negb_true_iff in Hk.
  destruct keys as [|k' keys].
  - simpl. now apply str_split_no_sep.
  - change (str_join "/" (k :: k' :: keys))
      with (k ++ String "/" (str_join "/" (k' :: keys))).
    rewrite str_split_app by assumption.
    f_equal. apply IH; [discriminate|assumption].
Qed.

Lemma str_lstrip_ref_prefix (r : string) :
  str_lstrip "#/" ("#/" ++ r) = str_lstrip "#/" r.
Proof. reflexivity. Qed.

Lemma str_lstrip_join (keys : list string) :
  keys_ok keys = true ->
  str_lstrip "#/" (str_join "/" keys) = str_join "/" keys.
Proof.
  unfold keys_ok. intros H. apply andb_true_iff in H. destruct H as [Hs Hf].
  destruct keys as [|k keys]; [discriminate|].
  destruct k as [|c k].
  - destruct keys; [reflexivity|discriminate].
  - cbn [forallb] in Hs. apply andb_true_iff in Hs. destruct Hs as [Hk _].
    unfold no_slash in Hk. apply negb_true_iff in Hk. cbn [mem_char] in Hk.
    apply orb_false_iff in Hk. destruct Hk as [Hc _].
    apply negb_true_iff in Hf. rewrite Ascii.eqb_sym in Hc.
    assert (E : forall rest, str_lstrip "#/" (String c rest) = String c rest).
    { intros rest. cbn [str_lstrip mem_char]. now rewrite Hf, Hc. }
    destruct keys as [|k' keys]; apply E.
Qed.

Lemma keys_ok_nonempty (keys : list string) :
  keys_ok keys = true -> keys <> [] /\ forallb no_slash keys = true.
Proof.
  unfold keys_ok. intros H. apply andb_true_iff in H. destruct H as [Hs Hf].
  split; [|assumption]. destruct keys; [discriminate|discriminate].
Qed.

(** ** Properties of the resolver *)

Lemma walk_subtree_at (keys : list string) (spec v : json) :
  walk keys spec = Ok v <-> subtree_at keys spec = Some v.
Proof.
  unfold walk. revert spec.
  induction keys as [|k keys IH]; intros spec; simpl.
  - split; congruence.
  - destruct spec as [| | | | |d]; simpl; try (split; discriminate).
    destruct (dict_get (KStr k) d) as [child|]; simpl.
    + apply IH.
    + split; discriminate.
Qed.

Lemma walk_err_subtree_at (keys : list string) (spec : json) :
  (exists e, walk keys spec = Err e) <-> subtree_at keys spec = None.
Proof.
  destruct (walk keys spec) as [v|e] eqn:W.
  - apply walk_subtree_at in W. rewrite W.
    split; [intros [e He]; discriminate|discriminate].
  - destruct (subtree_at keys spec) as [v|] eqn:S.
    + apply walk_subtree_at in S. congruence.
    + split; [reflexivity|intros _; now exists e].
Qed.

Lemma resolve_ref_of_keys (keys : list string) (spec : json) :
  keys_ok keys = true ->
  resolve_ref (JStr (ref_of_keys keys)) spec = walk keys spec.
Proof.
  intros H. unfold resolve_ref, ref_of_keys.
  rewrite str_lstrip_ref_prefix, (str_lstrip_join keys H).
  destruct (keys_ok_nonempty keys H) as [Hne Hs].
  now rewrite (str_split_join keys Hne Hs).
Qed.

Lemma subtree_at_spec_subtree_at (keys : list string) (spec v : json) :
  subtree_at keys spec = Some v -> spec_subtree_at keys spec = Some v.
Proof.
  revert spec. induction keys as [|k keys IH]; intros spec; simpl.
  - trivial.
  - destruct spec as [| | | | |d]; try discriminate.
    destruct (dict_get (KStr k) d) as [child|]; [apply IH|discriminate].
Qed.

(** C1, as the specification states it, fails at three kinds of
    reference.

    - The path goes through a sequence: the document [{'a': ['x']}] has
      the subtree ['x'] at [#/a/0], and [resolve_ref] raises [TypeError]
      there, because it subscripts the list with the str ['0'].
    - The first key is empty: [lstrip('#/')] removes a set of characters,
      not the prefix, so in [{'': {'a': 1}, 'a': 2}] the reference
      [#//a], which denotes [1], resolves to [2].
    - The first key begins with ['#']: in [{'#a': 1, 'a': 2}] the
      reference [#/#a], which denotes [1], resolves to [2]. *)
Lemma resolve_ref_counterexample :
  (spec_subtree_at ["a"; "0"] (JDict [(KStr "a", JList [JStr "x"])])
   = Some (JStr "x")
   /\ resolve_ref (JStr "#/a/0") (JDict [(KStr "a", JList [JStr "x"])])
      = Err TypeError)
  /\
  (spec_subtree_at [EmptyString; "a"]
     (JDict [(KStr EmptyString, JDict [(KStr "a", JInt 1)]);
             (KStr "a", JInt 2)])
   = Some (JInt 1)
   /\ resolve_ref (JStr "#//a")
        (JDict [(KStr EmptyString, JDict [(KStr "a", JInt 1)]);
                (KStr "a", JInt 2)])
      = Ok (JInt 2))
  /\
  (spec_subtree_at ["#a"] (JDict [(KStr "#a", JInt 1); (KStr "a", JInt 2)])
   = Some (JInt 1)
   /\ resolve_ref (JStr "#/#a")
        (JDict [(KStr "#a", JInt 1); (KStr "a", JInt 2)])
      = Ok (JInt 2)).
Proof. repeat split; reflexivity. Qed.

(** C1 (amended): for every document and every reference [#/k1/.../kn]
    whose keys hold no ['/'], whose first key is not empty (unless it is
    the only one) and does not begin with ['#'], and whose path exists in
    the document through mappings only, [resolve_ref] returns exactly the
    subtree obtained by looking up [k1], then [k2], ... then [kn]; that
    subtree is also the one the specification's indexing gives. *)
Theorem resolve_ref_returns_subtree (spec : json) (keys : list string)
    (v : json) :
  keys_ok keys = true ->
  subtree_at keys spec = Some v ->
  resolve_ref (JStr (ref_of_keys keys)) spec = Ok v
  /\ spec_subtree_at keys spec = Some v.
Proof.
  intros Hk Hv. split.
  - rewrite (resolve_ref_of_keys keys spec Hk). now apply walk_subtree_at.
  - now apply subtree_at_spec_subtree_at.
Qed.

Lemma resolve_ref_returns_subtree_witness :
  resolve_ref (JStr "#/components/schemas/Pet") sample_spec = Ok pet_schema
  /\ spec_subtree_at ["components"; "schemas"; "Pet"] sample_spec
     = Some pet_schema.
Proof.
  apply (resolve_ref_returns_subtree sample_spec
           ["components"; "schemas"; "Pet"] pet_schema); reflexivity.
Defined.

(** C2, as stated, fails: a reference without the [#/] prefix resolves,
    silently, when the path it spells exists. *)
Lemma resolve_ref_unprefixed_counterexample :
  String.prefix "#/" "a/b" = false
  /\ resolve_ref (JStr "a/b") (JDict [(KStr "a", JDict [(KStr "b", JInt 3)])])
     = Ok (JInt 3).
Proof. split; reflexivity. Qed.

(** C2 (amended): [resolve_ref] does not look at the prefix.  A reference
    [r] resolves exactly as [#/r] does, and an exception is raised if and
    only if the keys that are left once the leading ['#'] and ['/']
    characters are removed do not lead, by mapping lookups, to a node of
    the document. *)
Theorem resolve_ref_ignores_prefix (r : string) (spec : json) :
  resolve_ref (JStr r) spec = resolve_ref (JStr ("#/" ++ r)) spec
  /\ ((exists e, resolve_ref (JStr r) spec = Err e) <->
      subtree_at (str_split "/" (str_lstrip "#/" r)) spec = None).
Proof.
  split.
  - unfold resolve_ref. now rewrite str_lstrip_ref_prefix.
  - unfold resolve_ref. apply walk_err_subtree_at.
Qed.

(** ** The loop of the flattener *)

Lemma extract_property_writes (spec : json) (acc : dict) (k : key)
    (defn : json) (acc' : dict) :
  extract_property spec acc (k, defn) = Ok acc' ->
  exists p t d,
    resolve_if_ref defn spec = Ok p
    /\ py_get p "type" (JStr "object") = Ok t
    /\ py_get p "description" (JStr EmptyString) = Ok d
    /\ acc' = dict_set k (descriptor t d) acc.
Proof.
  unfold extract_property. intros H.
  inv_bind H. rename x into p. inv_bind H. rename x into t.
  inv_bind H. rename x into d. inv_ok H.
  exists p, t, d. auto.
Qed.

(** The items after the one that wrote [k] leave the entry of [k] alone
    when none of them has the key [k]. *)
Lemma extract_property_loop_keeps (spec : json) (k : key) (items : dict) :
  existsb (key_eqb k) (dict_keys items) = false ->
  forall acc props,
    foldM (extract_property spec) items acc = Ok props ->
    dict_get k props = dict_get k acc.
Proof.
  induction items as [|[k0 d0] items IH]; simpl; intros Hk acc props H.
  - now inv_ok H.
  - apply orb_false_iff in Hk. destruct Hk as [Hk0 Hk].
    inv_bind H. apply extract_property_writes in E.
    destruct E as (p & t & d & _ & _ & _ & ->).
    rewrite (IH Hk _ _ H). apply dict_get_set_other.
    now rewrite key_eqb_sym.
Qed.

Lemma extract_property_loop_entry (spec : json) (items : dict) :
  dict_wf items = true ->
  forall acc props k defn,
    foldM (extract_property spec) items acc = Ok props ->
    In (k, defn) items ->
    exists p t d,
      resolve_if_ref defn spec = Ok p
      /\ py_get p "type" (JStr "object") = Ok t
      /\ py_get p "description" (JStr EmptyString) = Ok d
      /\ dict_get k props = Some (descriptor t d).
Proof.
  unfold dict_wf.
  induction items as [|[k0 d0] items IH]; simpl; intros Hwf acc props k defn
    H Hin; [contradiction|].
  apply andb_true_iff in Hwf. destruct Hwf as [Hfresh Hwf].
  apply negb_true_iff in Hfresh.
  inv_bind H. destruct Hin as [Heq|Hin].
  - injection Heq as -> ->.
    apply extract_property_writes in E.
    destruct E as (p & t & d & Hp & Ht & Hd & ->).
    exists p, t, d. repeat split; trivial.
    rewrite (extract_property_loop_keeps spec k items Hfresh _ _ H).
    apply dict_get_set_same, key_eqb_refl.
  - apply (IH Hwf x props k defn H Hin).
Qed.


(** ** What one iteration of each loop does to the state *)

Lemma add_parameter_state (spec : json) (props : dict) (req : list json)
    (param : json) (st' : params_state) :
  add_parameter spec (props, req) param = Ok st' ->
  exists k d,
    (forall props2 req2,
        add_parameter spec (props2, req2) param
        = Ok (dict_set k d props2,
              (req2 ++ required_name spec param)%list))
    /\ st' = (dict_set k d props, (req ++ required_name spec param)%list).
Proof.
  unfold add_parameter, required_name. intros H.
  inv_bind H. rename x into p. rewrite E.
  inv_bind H. rename x into n.
  inv_bind H. rename x into sch.
  inv_bind H. rename x into sch'.
  inv_bind H. rename x into t.
  inv_bind H. rename x into de.
  inv_bind H. rename x into k.
  inv_bind H. rename x into r. inv_ok H.
  exists k, (descriptor t de).
  repeat (progress (rewrite ?E0, ?E1, ?E2, ?E3, ?E4, ?E5, ?E6; cbn [bind])).
  split.
  - intros props2 req2. destruct (py_truthy r);
      [reflexivity|now rewrite app_nil_r].
  - destruct (py_truthy r); [reflexivity|now rewrite app_nil_r].
Qed.

Lemma add_content_state (spec : json) (props : dict) (req : list json)
    (item : key * json) (st' : params_state) :
  add_content spec (props, req) item = Ok st' ->
  exists P,
    (forall props2 req2,
        add_content spec (props2, req2) item
        = Ok (dict_update props2 P,
              (req2 ++ flattened_required spec item)%list))
    /\ st' = (dict_update props P,
              (req ++ flattened_required spec item)%list).
Proof.
  unfold add_content, flattened_required. destruct item as [ct schema_obj].
  cbn [snd]. intros H.
  inv_bind H. rename x into schema.
  inv_bind H. rename x into schema'.
  inv_bind H. destruct x as [P required].
  inv_bind H. rename x into extra. inv_ok H.
  exists P.
  repeat (progress (rewrite ?E, ?E0, ?E1, ?E2; cbn [bind])).
  split; reflexivity.
Qed.

(** The [required] list after the parameter loop and after the content
    loop. *)
Lemma add_parameter_loop_required (spec : json) (l : list json) :
  forall st st',
    foldM (add_parameter spec) l st = Ok st' ->
    snd st' = (snd st ++ flat_map (required_name spec) l)%list.
Proof.
  induction l as [|param l IH]; intros [props req] st' H; simpl in H.
  - inv_ok H. simpl. now rewrite app_nil_r.
  - inv_bind H. apply add_parameter_state in E.
    destruct E as (k & d & _ & ->).
    rewrite (IH _ _ H). cbn [snd flat_map]. now rewrite app_assoc.
Qed.

Lemma add_content_loop_required (spec : json) (l : dict) :
  forall st st',
    foldM (add_content spec) l st = Ok st' ->
    snd st' = (snd st ++ flat_map (flattened_required spec) l)%list.
Proof.
  induction l as [|item l IH]; intros [props req] st' H; simpl in H.
  - inv_ok H. simpl. now rewrite app_nil_r.
  - inv_bind H. apply add_content_state in E.
    destruct E as (P & _ & ->).
    rewrite (IH _ _ H). cbn [snd flat_map]. now rewrite app_assoc.
Qed.

(** ** The stages of [build_function] *)

Lemma build_function_stages (spec details f : json) :
  build_function spec details = Ok f ->
  exists name description st1 st2,
    py_getitem details "operationId" = Ok name
    /\ py_get details "summary" (JStr EmptyString) = Ok description
    /\ handle_parameters spec details ([], []) = Ok st1
    /\ handle_request_body spec details st1 = Ok st2
    /\ f = function_json name description st2.
Proof.
  unfold build_function. intros H.
  inv_bind H. inv_bind H. inv_bind H. inv_bind H. inv_ok H.
  repeat eexists; eassumption.
Qed.


(** ** The [required] list (C5) *)

Lemma handle_parameters_loop (spec details : json) (st st' : params_state) :
  handle_parameters spec details st = Ok st' ->
  foldM (add_parameter spec) (parameters_of details) st = Ok st'.
Proof.
  unfold handle_parameters, parameters_of. intros H.
  inv_bind H. rename x into has_params.
  destruct details as [| | |s|l|d]; try discriminate.
  - destruct has_params; [discriminate|exact H].
  - destruct has_params; [discriminate|exact H].
  - cbn [py_contains] in E. unfold dict_has in E. cbn [py_get].
    destruct (dict_get (KStr "parameters") d) as [ps|] eqn:Ed.
    + destruct has_params; [|discriminate].
      cbn [py_getitem] in H. rewrite Ed in H. cbn [bind] in H.
      inv_bind H. now rewrite E0.
    + destruct has_params; [discriminate|exact H].
Qed.

Lemma handle_request_body_loop (spec details : json)
    (st st' : params_state) :
  handle_request_body spec details st = Ok st' ->
  foldM (add_content spec) (contents_of spec details) st = Ok st'.
Proof.
  unfold handle_request_body, contents_of. intros H.
  inv_bind H. rename x into has_body.
  destruct has_body.
  - inv_bind H. rename x into body. rewrite E0.
    inv_bind H. rename x into rb. rewrite E1.
    inv_bind H. rename x into content. rewrite E2.
    inv_bind H. apply py_items_dict in E3. subst content. exact H.
  - destruct details as [| | |s|l|d]; try discriminate; cbn [py_getitem];
      try exact H.
    cbn [py_contains] in E. unfold dict_has in E.
    destruct (dict_get (KStr "requestBody") d); [discriminate|exact H].
Qed.

Lemma extract_properties_required (spec schema : json) (props : dict)
    (required : json) :
  extract_properties schema spec = Ok (props, required) ->
  exists s,
    resolve_if_ref schema spec = Ok s
    /\ py_get s "required" (JList []) = Ok required.
Proof.
  unfold extract_properties. intros H.
  inv_bind H. rename x into s. inv_bind H. inv_bind H. inv_bind H.
  inv_bind H. inv_bind H. inv_ok H. exists s. auto.
Qed.

(** C5: the [required] list of the emitted descriptor is the
    concatenation, in order, of the names of the parameters marked
    required and then of the [required] value of each content type's
    flattened schema, which is the schema's own [required] entry; nothing
    is removed from it and nothing is checked against [properties]. *)
Theorem required_is_concatenation (spec details : json) :
  (forall f,
      build_function spec details = Ok f ->
      required_of f
      = Ok (JList (flat_map (required_name spec) (parameters_of details)
                   ++ flat_map (flattened_required spec)
                        (contents_of spec details))%list))
  /\
  (forall schema props required,
      extract_properties schema spec = Ok (props, required) ->
      exists s,
        resolve_if_ref schema spec = Ok s
        /\ py_get s "required" (JList []) = Ok required).
Proof.
  split.
  - intros f H. apply build_function_stages in H.
    destruct H as (name & description & st1 & st2 & _ & _ & H1 & H2 & ->).
    apply handle_parameters_loop, add_parameter_loop_required in H1.
    apply handle_request_body_loop, add_content_loop_required in H2.
    cbn. rewrite H2, H1. reflexivity.
  - apply extract_properties_required.
Qed.

(** ** The entries of [properties] *)

(** A key that the dict does not have goes to its end. *)
Lemma dict_set_fresh {V : Type} (k : key) (v : V) (d : list (key * V)) :
  existsb (fun a => key_eqb a k) (dict_keys d) = false ->
  dict_set k v d = (d ++ [(k, v)])%list.
Proof.
  induction d as [|[k0 v0] d IH]; cbn [dict_keys map existsb dict_set app fst];
    [reflexivity|].
  intros H. apply orb_false_iff in H. destruct H as [H0 H].
  rewrite H0. f_equal. now apply IH.
Qed.

Lemma keys_distinct_app (l1 l2 : list key) :
  keys_distinct (l1 ++ l2)%list = true ->
  keys_distinct l1 = true
  /\ keys_distinct l2 = true
  /\ forall k, In k l2 -> existsb (fun a => key_eqb a k) l1 = false.
Proof.
  induction l1 as [|a l1 IH]; cbn [app keys_distinct existsb].
  - auto.
  - intros H. apply andb_true_iff in H. destruct H as [Ha H].
    apply negb_true_iff in Ha. rewrite existsb_app in Ha.
    apply orb_false_iff in Ha. destruct Ha as [Ha1 Ha2].
    destruct (IH H) as (D1 & D2 & Hx). repeat split.
    + now rewrite Ha1, D1.
    + exact D2.
    + intros k Hk. rewrite (Hx k Hk), orb_false_r.
      destruct (key_eqb a k) eqn:E; [|reflexivity].
      assert (existsb (key_eqb a) l2 = true); [|congruence].
      apply existsb_exists. now exists k.
Qed.

(** The loop of the flattener on items with pairwise different keys, none
    of them in the dict so far: each item adds one entry at the end. *)
Lemma extract_property_loop_appends (spec : json) (items : dict) :
  forall acc props,
    keys_distinct (dict_keys acc ++ dict_keys items)%list = true ->
    foldM (extract_property spec) items acc = Ok props ->
    exists entries,
      props = (acc ++ entries)%list
      /\ dict_keys entries = dict_keys items
      /\ Forall (fun kv => exists t d, snd kv = descriptor t d) entries.
Proof.
  induction items as [|[k0 d0] items IH]; intros acc props Hd H;
    cbn [foldM] in H.
  - inv_ok H. exists []. rewrite app_nil_r. auto.
  - inv_bind H. apply extract_property_writes in E.
    destruct E as (p & t & d & _ & _ & _ & ->).
    destruct (keys_distinct_app _ _ Hd) as (_ & _ & Hfresh).
    rewrite (dict_set_fresh k0 (descriptor t d) acc) in H
      by (apply Hfresh; now left).
    destruct (IH (acc ++ [(k0, descriptor t d)])%list props) as
      (entries & -> & Hk & Hf); [|exact H|].
    + unfold dict_keys in *. rewrite map_app. cbn [map fst].
      now rewrite <- app_assoc.
    + exists ((k0, descriptor t d) :: entries). repeat split.
      * now rewrite <- app_assoc.
      * unfold dict_keys in *. cbn [map fst]. now rewrite Hk.
      * constructor; [now exists t, d|exact Hf].
Qed.

Lemma extract_properties_loop (schema spec : json) (props : dict)
    (required s : json) (items : dict) :
  extract_properties schema spec = Ok (props, required) ->
  resolve_if_ref schema spec = Ok s ->
  py_get s "properties" (JDict []) = Ok (JDict items) ->
  foldM (extract_property spec) items [] = Ok props.
Proof.
  intros H Hs Hitems. unfold extract_properties in H.
  rewrite Hs in H. cbn [bind] in H.
  destruct (py_get_dict _ _ _ _ Hitems) as (sd & -> & Hsd).
  cbn [py_contains bind] in H. unfold dict_has in H. cbn [py_getitem] in H.
  destruct (dict_get (KStr "properties") sd) as [ps|];
    [subst ps|injection Hsd as ->]; cbn [bind] in H;
    inv_bind H; cbn [py_items bind] in H; inv_bind H; now inv_ok H.
Qed.

Lemma dict_get_none_keys {V : Type} (k : key) (d : list (key * V)) :
  dict_get k d = None -> existsb (key_eqb k) (dict_keys d) = false.
Proof.
  unfold dict_keys.
  induction d as [|[k0 v0] d IH]; cbn [dict_get map fst existsb];
    [reflexivity|].
  rewrite (key_eqb_sym k k0). destruct (key_eqb k0 k); [discriminate|].
  exact IH.
Qed.

Lemma dict_get_fresh_key {V : Type} (k0 k : key) (d : list (key * V)) :
  key_eqb k0 k = true ->
  existsb (key_eqb k0) (dict_keys d) = false ->
  dict_get k d = None.
Proof.
  unfold dict_keys. intros Hk.
  induction d as [|[k1 v1] d IH]; cbn [dict_get map fst existsb];
    [reflexivity|].
  intros H. apply orb_false_iff in H. destruct H as [H1 H].
  rewrite (key_eqb_sym k1 k), <- (key_eqb_congr k0 k k1 Hk), H1.
  now apply IH.
Qed.

(** [update] leaves alone a key that [other] does not have, and gives a
    key that [other] has the entry of [other]. *)
Lemma dict_get_update_none {V : Type} (k : key) (other : list (key * V)) :
  dict_get k other = None ->
  forall d, dict_get k (dict_update d other) = dict_get k d.
Proof.
  unfold dict_update.
  induction other as [|[k0 v0] other IH]; intros H d;
    cbn [fold_left fst snd]; [reflexivity|].
  cbn [dict_get] in H. destruct (key_eqb k0 k) eqn:E; [discriminate|].
  rewrite (IH H). now apply dict_get_set_other.
Qed.

Lemma dict_get_update_entry {V : Type} (k : key) (v : V)
    (other : list (key * V)) :
  dict_wf other = true ->
  dict_get k other = Some v ->
  forall d, dict_get k (dict_update d other) = Some v.
Proof.
  unfold dict_wf, dict_keys.
  induction other as [|[k0 v0] other IH]; intros Hwf H d; [discriminate|].
  cbn [map fst keys_distinct] in Hwf.
  apply andb_true_iff in Hwf. destruct Hwf as [Hfresh Hwf].
  apply negb_true_iff in Hfresh.
  change (dict_get k (dict_update (dict_set k0 v0 d) other) = Some v).
  cbn [dict_get] in H. destruct (key_eqb k0 k) eqn:E.
  - inv_ok H.
    rewrite (dict_get_update_none k other
               (dict_get_fresh_key k0 k other E Hfresh)).
    now apply dict_get_set_same.
  - now apply IH.
Qed.

(** The flattener on a schema: its loop runs over the property
    definitions of the (resolved) schema. *)
Lemma extract_properties_schema (schema spec : json) (props : dict)
    (required : json) :
  extract_properties schema spec = Ok (props, required) ->
  exists s,
    resolve_if_ref schema spec = Ok s
    /\ foldM (extract_property spec) (schema_properties s) [] = Ok props.
Proof.
  unfold extract_properties. intros H.
  inv_bind H. rename x into s. exists s. split; [exact E|].
  inv_bind H. rename x into has_props.
  inv_bind H. rename x into ps.
  inv_bind H. inv_bind H. rename x0 into items. inv_bind H. inv_ok H.
  apply py_items_dict in E3. subst ps.
  destruct (py_get_dict _ _ _ _ E2) as (sd & -> & _).
  cbn [py_contains] in E0. inv_ok E0.
  unfold dict_has in E1. cbn [py_getitem schema_properties] in *.
  destruct (dict_get (KStr "properties") sd) as [x|]; now inv_ok E1.
Qed.

Lemma extract_property_loop_none (spec : json) (k : key)
    (items acc props : dict) :
  dict_get k items = None ->
  foldM (extract_property spec) items acc = Ok props ->
  dict_get k props = dict_get k acc.
Proof.
  intros H. apply extract_property_loop_keeps. now apply dict_get_none_keys.
Qed.

Lemma extract_property_loop_wf (spec : json) (items props : dict) :
  dict_wf items = true ->
  foldM (extract_property spec) items [] = Ok props ->
  dict_wf props = true.
Proof.
  intros Hwf H.
  destruct (extract_property_loop_appends spec items [] props Hwf H)
    as (entries & -> & Hk & _).
  unfold dict_wf. cbn [app]. now rewrite Hk.
Qed.

(** The entry the loop of the flattener leaves for a property. *)
Lemma extract_property_loop_typed (spec : json) (items props : dict)
    (name : key) (defn : json) (dd : dict) :
  dict_wf items = true ->
  foldM (extract_property spec) items [] = Ok props ->
  In (name, defn) items ->
  resolve_if_ref defn spec = Ok (JDict dd) ->
  dict_get name props
  = Some (JDict [(KStr "type",
                     value_or (JStr "object") (dict_get (KStr "type") dd));
                    (KStr "description",
                     value_or (JStr EmptyString)
                       (dict_get (KStr "description") dd))]).
Proof.
  intros Hwf H Hin Hdd.
  destruct (extract_property_loop_entry spec items Hwf [] props name defn
              H Hin) as (p & t & d & Hp & Ht & Hd & Hget).
  rewrite Hdd in Hp. inv_ok Hp. cbn [py_get] in Ht, Hd.
  rewrite Hget. unfold descriptor, value_or.
  destruct (dict_get (KStr "type") dd), (dict_get (KStr "description") dd);
    inv_ok Ht; inv_ok Hd; reflexivity.
Qed.

(** One iteration of the content loop: the properties are updated with
    what the flattener makes of the content schema. *)
Lemma add_content_props (spec : json) (props : dict) (req : list json)
    (item : key * json) (st' : params_state) :
  add_content spec (props, req) item = Ok st' ->
  exists s P,
    content_schema spec item = Some s
    /\ foldM (extract_property spec) (schema_properties s) [] = Ok P
    /\ fst st' = dict_update props P.
Proof.
  unfold add_content, content_schema. destruct item as [ct schema_obj].
  cbn [snd]. intros H.
  inv_bind H. rewrite E. inv_bind H. rewrite E0.
  inv_bind H. destruct x1 as [P required]. inv_bind H. inv_ok H.
  destruct (extract_properties_schema _ _ _ _ E1) as (s & Hs & Hloop).
  exists s, P. rewrite Hs. auto.
Qed.

(** One iteration of the parameter loop: the entry it writes. *)
Lemma add_parameter_entry (spec : json) (props : dict) (req : list json)
    (param : json) (st' : params_state) :
  add_parameter spec (props, req) param = Ok st' ->
  exists pd sd name k,
    resolve_if_ref param spec = Ok (JDict pd)
    /\ dict_get (KStr "name") pd = Some name
    /\ json_to_key name = Ok k
    /\ resolve_if_ref (value_or (JDict []) (dict_get (KStr "schema") pd))
         spec = Ok (JDict sd)
    /\ fst st'
       = dict_set k
           (JDict [(KStr "type",
                     value_or (JStr "string") (dict_get (KStr "type") sd));
                    (KStr "description",
                     value_or (JStr EmptyString)
                       (dict_get (KStr "description") pd))])
           props.
Proof.
  unfold add_parameter. intros H.
  inv_bind H. rename x into p. inv_bind H. rename x into name.
  destruct (py_getitem_dict _ _ _ E0) as (pd & -> & Hname).
  cbn [py_get] in H.
  inv_bind H. rename x into sch. inv_bind H. rename x into sch'.
  inv_bind H. rename x into t.
  destruct (py_get_dict _ _ _ _ E3) as (sd & -> & ->).
  inv_bind H. rename x into de. inv_bind H. rename x into k.
  inv_bind H. inv_ok H.
  exists pd, sd, name, k. repeat split; try assumption.
  - unfold value_or.
    destruct (dict_get (KStr "schema") pd); inv_ok E1; assumption.
  - cbn [fst]. unfold descriptor, value_or.
    destruct (dict_get (KStr "type") sd),
      (dict_get (KStr "description") pd); inv_ok E4; reflexivity.
Qed.

Lemma add_parameter_writes_key (spec : json) (props : dict)
    (req : list json) (param : json) (st' : params_state) :
  add_parameter spec (props, req) param = Ok st' ->
  exists k entry,
    parameter_key spec param = Some k /\ fst st' = dict_set k entry props.
Proof.
  intros H.
  destruct (add_parameter_entry _ _ _ _ _ H)
    as (pd & sd & name & k & Hp & Hn & Hk & _ & Hst).
  exists k. eexists. split; [|exact Hst].
  unfold parameter_key. rewrite Hp. cbn [py_getitem]. now rewrite Hn, Hk.
Qed.

(** The entry of a key after the parameter loop is the one written for
    the last parameter of that key. *)
Lemma parameter_loop_entry (spec : json) (before after : list json)
    (param : json) (pd sd : dict) (name : json) (k : key)
    (st st' : params_state) :
  foldM (add_parameter spec) (before ++ param :: after)%list st = Ok st' ->
  resolve_if_ref param spec = Ok (JDict pd) ->
  dict_get (KStr "name") pd = Some name ->
  json_to_key name = Ok k ->
  resolve_if_ref (value_or (JDict []) (dict_get (KStr "schema") pd)) spec
    = Ok (JDict sd) ->
  (forall q k',
      In q after -> parameter_key spec q = Some k' ->
      key_eqb k' k = false) ->
  dict_get k (fst st')
  = Some (JDict [(KStr "type",
                     value_or (JStr "string") (dict_get (KStr "type") sd));
                    (KStr "description",
                     value_or (JStr EmptyString)
                       (dict_get (KStr "description") pd))]).
Proof.
  intros H Hp Hn Hk Hs Hafter.
  rewrite foldM_app in H. inv_bind H. destruct x as [props1 req1].
  cbn [foldM] in H. inv_bind H. rename x into st1.
  destruct (add_parameter_entry _ _ _ _ _ E0)
    as (pd' & sd' & name' & k' & Hp' & Hn' & Hk' & Hs' & Hst).
  rewrite Hp in Hp'. injection Hp' as <-.
  rewrite Hn in Hn'. injection Hn' as <-.
  rewrite Hk in Hk'. injection Hk' as <-.
  rewrite Hs in Hs'. injection Hs' as <-.
  refine (foldM_invariant
            (fun s => dict_get k (fst s) = Some _)
            (add_parameter spec) after _ st1 st' _ H).
  - cbv beta. intros [props2 req2] q s' Hin Hinv Hq.
    destruct (add_parameter_writes_key _ _ _ _ _ Hq)
      as (k2 & entry & Hk2 & Hst2).
    destruct s' as [props3 req3]. cbn [fst] in *. subst props3.
    rewrite dict_get_set_other; [exact Hinv|].
    exact (Hafter q k2 Hin Hk2).
  - refine (eq_trans (f_equal (dict_get k) Hst) _).
    apply dict_get_set_same, key_eqb_refl.
Qed.

(** The content loop leaves alone a key that no content schema has as a
    property. *)
Lemma content_loop_keeps_entry (spec : json) (k : key) (items : dict)
    (st st' : params_state) :
  foldM (add_content spec) items st = Ok st' ->
  (forall item s,
      In item items -> content_schema spec item = Some s ->
      dict_get k (schema_properties s) = None) ->
  dict_get k (fst st') = dict_get k (fst st).
Proof.
  intros H Hnone.
  refine (foldM_invariant
            (fun s => dict_get k (fst s) = dict_get k (fst st))
            (add_content spec) items _ st st' eq_refl H).
  cbv beta. intros [props2 req2] item s' Hin Hinv Hitem.
  destruct (add_content_props _ _ _ _ _ Hitem) as (s & P & Hs & HP & Hst).
  destruct s' as [props3 req3]. cbn [fst] in *. subst props3.
  rewrite dict_get_update_none; [exact Hinv|].
  rewrite (extract_property_loop_none spec k _ [] P (Hnone item s Hin Hs) HP).
  reflexivity.
Qed.

(** The entry of a name after the content loop is the one the flattener
    makes of the last content schema that has the property. *)
Lemma content_loop_entry (spec : json) (before after : dict)
    (item : key * json) (s : json) (name : key) (defn : json) (dd : dict)
    (st st' : params_state) :
  foldM (add_content spec) (before ++ item :: after)%list st = Ok st' ->
  content_schema spec item = Some s ->
  dict_wf (schema_properties s) = true ->
  In (name, defn) (schema_properties s) ->
  resolve_if_ref defn spec = Ok (JDict dd) ->
  (forall it s',
      In it after -> content_schema spec it = Some s' ->
      dict_get name (schema_properties s') = None) ->
  dict_get name (fst st')
  = Some (JDict [(KStr "type",
                     value_or (JStr "object") (dict_get (KStr "type") dd));
                    (KStr "description",
                     value_or (JStr EmptyString)
                       (dict_get (KStr "description") dd))]).
Proof.
  intros H Hs Hwf Hin Hdd Hafter.
  rewrite foldM_app in H. inv_bind H. destruct x as [props1 req1].
  cbn [foldM] in H. inv_bind H. rename x into st1.
  destruct (add_content_props _ _ _ _ _ E0) as (s0 & P & Hs0 & HP & Hst).
  rewrite Hs in Hs0. injection Hs0 as <-.
  rewrite (content_loop_keeps_entry spec name after st1 st' H Hafter).
  refine (eq_trans (f_equal (dict_get name) Hst) _).
  apply dict_get_update_entry.
  - exact (extract_property_loop_wf spec _ P Hwf HP).
  - exact (extract_property_loop_typed spec _ P name defn dd Hwf HP Hin Hdd).
Qed.

(** The entry of a parameter in the emitted descriptor, when no later
    parameter and no content schema writes its key. *)
Lemma parameter_entry_emitted (spec details f : json)
    (before after : list json) (param : json) (pd sd : dict) (name : json)
    (k : key) :
  build_function spec details = Ok f ->
  parameters_of details = (before ++ param :: after)%list ->
  resolve_if_ref param spec = Ok (JDict pd) ->
  dict_get (KStr "name") pd = Some name ->
  json_to_key name = Ok k ->
  resolve_if_ref (value_or (JDict []) (dict_get (KStr "schema") pd)) spec
    = Ok (JDict sd) ->
  (forall q k',
      In q after -> parameter_key spec q = Some k' ->
      key_eqb k' k = false) ->
  (forall item s,
      In item (contents_of spec details) ->
      content_schema spec item = Some s ->
      dict_get k (schema_properties s) = None) ->
  exists props entry,
    properties_of f = Ok (JDict props)
    /\ dict_get k props = Some entry
    /\ py_getitem entry "type"
       = Ok (value_or (JStr "string") (dict_get (KStr "type") sd))
    /\ py_getitem entry "description"
       = Ok (value_or (JStr EmptyString)
               (dict_get (KStr "description") pd)).
Proof.
  intros Hf Hl Hp Hn Hk Hs Hafter Hbody.
  apply build_function_stages in Hf.
  destruct Hf as (fname & description & st1 & st2 & _ & _ & H1 & H2 & ->).
  apply handle_parameters_loop in H1. rewrite Hl in H1.
  apply handle_request_body_loop in H2.
  exists (fst st2). eexists. split; [reflexivity|]. split.
  - rewrite (content_loop_keeps_entry spec k _ st1 st2 H2 Hbody).
    exact (parameter_loop_entry spec before after param pd sd name k _ st1
             H1 Hp Hn Hk Hs Hafter).
  - split; reflexivity.
Qed.

(** The entry of a body property in the emitted descriptor, when no later
    content schema has a property of its name. *)
Lemma body_entry_emitted (spec details f : json) (before after : dict)
    (item : key * json) (s : json) (name : key) (defn : json) (dd : dict) :
  build_function spec details = Ok f ->
  contents_of spec details = (before ++ item :: after)%list ->
  content_schema spec item = Some s ->
  dict_wf (schema_properties s) = true ->
  In (name, defn) (schema_properties s) ->
  resolve_if_ref defn spec = Ok (JDict dd) ->
  (forall it s',
      In it after -> content_schema spec it = Some s' ->
      dict_get name (schema_properties s') = None) ->
  exists props entry,
    properties_of f = Ok (JDict props)
    /\ dict_get name props = Some entry
    /\ py_getitem entry "type"
       = Ok (value_or (JStr "object") (dict_get (KStr "type") dd))
    /\ py_getitem entry "description"
       = Ok (value_or (JStr EmptyString)
               (dict_get (KStr "description") dd)).
Proof.
  intros Hf Hl Hs Hwf Hin Hdd Hafter.
  apply build_function_stages in Hf.
  destruct Hf as (fname & description & st1 & st2 & _ & _ & _ & H2 & ->).
  apply handle_request_body_loop in H2. rewrite Hl in H2.
  exists (fst st2). eexists. split; [reflexivity|]. split.
  - exact (content_loop_entry spec before after item s name defn dd st1 st2
             H2 Hs Hwf Hin Hdd Hafter).
  - split; reflexivity.
Qed.

(** C3: the default types.  (1) In the function descriptor of an
    operation, the entry of a parameter whose (resolved) schema has no
    [type] key has the type ["string"]; the parameter is the one that
    writes the entry last: no later parameter has its name and no content
    schema has a property of its name (see C4).  (2) In the dict the
    flattener returns, the entry of a property whose (resolved)
    definition has no [type] key has the type ["object"]. *)
Theorem default_type_substitution (spec : json) :
  (forall details f before param after pd sd name k,
      build_function spec details = Ok f ->
      parameters_of details = (before ++ param :: after)%list ->
      resolve_if_ref param spec = Ok (JDict pd) ->
      dict_get (KStr "name") pd = Some name ->
      json_to_key name = Ok k ->
      resolve_if_ref (value_or (JDict []) (dict_get (KStr "schema") pd))
        spec = Ok (JDict sd) ->
      dict_get (KStr "type") sd = None ->
      (forall q k',
          In q after -> parameter_key spec q = Some k' ->
          key_eqb k' k = false) ->
      (forall item s,
          In item (contents_of spec details) ->
          content_schema spec item = Some s ->
          dict_get k (schema_properties s) = None) ->
      exists props entry,
        properties_of f = Ok (JDict props)
        /\ dict_get k props = Some entry
        /\ py_getitem entry "type" = Ok (JStr "string"))
  /\
  (forall schema props required s name defn dd,
      extract_properties schema spec = Ok (props, required) ->
      resolve_if_ref schema spec = Ok s ->
      dict_wf (schema_properties s) = true ->
      In (name, defn) (schema_properties s) ->
      resolve_if_ref defn spec = Ok (JDict dd) ->
      dict_get (KStr "type") dd = None ->
      exists entry,
        dict_get name props = Some entry
        /\ py_getitem entry "type" = Ok (JStr "object")).
Proof.
  split.
  - intros details f before param after pd sd name k Hf Hl Hp Hn Hk Hs Hty
      Hafter Hbody.
    destruct (parameter_entry_emitted spec details f before after param pd
                sd name k Hf Hl Hp Hn Hk Hs Hafter Hbody)
      as (props & entry & Hprops & Hentry & Htype & _).
    rewrite Hty in Htype. now exists props, entry.
  - intros schema props required s name defn dd H Hs Hwf Hin Hdd Hty.
    destruct (extract_properties_schema schema spec props required H)
      as (s' & Hs' & Hloop).
    rewrite Hs in Hs'. injection Hs' as <-.
    rewrite (extract_property_loop_typed spec _ props name defn dd Hwf Hloop
               Hin Hdd).
    eexists. split; [reflexivity|]. cbn [py_getitem dict_get].
    rewrite key_eqb_refl. now rewrite Hty.
Qed.

(** C4: the last write wins.  In the function descriptor of an
    operation, (1) the entry of a name that parameters have is the
    descriptor of the last parameter of that name (its type, ["string"]
    without one, and its description), as long as no content schema has
    a property of that name; (2) the entry of a name that content schemas
    have as a property is the descriptor of that property in the last
    content type that has it (its type, ["object"] without one, and its
    description), whatever the parameters and the earlier content types
    wrote under this name. *)
Theorem last_write_wins (spec details f : json) :
  build_function spec details = Ok f ->
  (forall before param after pd sd name k,
      parameters_of details = (before ++ param :: after)%list ->
      resolve_if_ref param spec = Ok (JDict pd) ->
      dict_get (KStr "name") pd = Some name ->
      json_to_key name = Ok k ->
      resolve_if_ref (value_or (JDict []) (dict_get (KStr "schema") pd))
        spec = Ok (JDict sd) ->
      (forall q k',
          In q after -> parameter_key spec q = Some k' ->
          key_eqb k' k = false) ->
      (forall item s,
          In item (contents_of spec details) ->
          content_schema spec item = Some s ->
          dict_get k (schema_properties s) = None) ->
      exists props entry,
        properties_of f = Ok (JDict props)
        /\ dict_get k props = Some entry
        /\ py_getitem entry "type"
           = Ok (value_or (JStr "string") (dict_get (KStr "type") sd))
        /\ py_getitem entry "description"
           = Ok (value_or (JStr EmptyString)
                   (dict_get (KStr "description") pd)))
  /\
  (forall before item after s name defn dd,
      contents_of spec details = (before ++ item :: after)%list ->
      content_schema spec item = Some s ->
      dict_wf (schema_properties s) = true ->
      In (name, defn) (schema_properties s) ->
      resolve_if_ref defn spec = Ok (JDict dd) ->
      (forall it s',
          In it after -> content_schema spec it = Some s' ->
          dict_get name (schema_properties s') = None) ->
      exists props entry,
        properties_of f = Ok (JDict props)
        /\ dict_get name props = Some entry
        /\ py_getitem entry "type"
           = Ok (value_or (JStr "object") (dict_get (KStr "type") dd))
        /\ py_getitem entry "description"
           = Ok (value_or (JStr EmptyString)
                   (dict_get (KStr "description") dd))).
Proof.
  intros Hf. split.
  - intros before param after pd sd name k.
    exact (parameter_entry_emitted spec details f before after param pd sd
             name k Hf).
  - intros before item after s name defn dd.
    exact (body_entry_emitted spec details f before after item s name defn
             dd Hf).
Qed.

(** ** Hard failures (C6) *)

Lemma bind_raises {A B} (m : result A) (f : A -> result B) :
  (forall a, m = Ok a -> exists e, f a = Err e) ->
  exists e, bind m f = Err e.
Proof.
  intros H. destruct m as [a|e]; simpl; [now apply H|now exists e].
Qed.

Lemma build_function_raises (spec details : json) :
  (exists d, details = JDict d /\ dict_get (KStr "operationId") d = None)
  \/ (exists body rb,
         py_getitem details "requestBody" = Ok body
         /\ resolve_if_ref body spec = Ok (JDict rb)
         /\ dict_get (KStr "content") rb = None) ->
  exists e, build_function spec details = Err e.
Proof.
  intros [(d & -> & Hd)|(body & rb & Hb & Hrb & Hc)]; unfold build_function.
  - cbn [py_getitem]. rewrite Hd. now exists KeyError.
  - apply bind_raises. intros name _.
    apply bind_raises. intros description _.
    apply bind_raises. intros st1 _.
    apply bind_raises. intros st2 H. exfalso.
    unfold handle_request_body in H.
    destruct (py_getitem_dict _ _ _ Hb) as (dd & -> & Hdd).
    cbn [py_contains bind] in H. unfold dict_has in H. rewrite Hdd in H.
    cbn [py_getitem] in H. rewrite Hdd in H. cbn [bind] in H.
    rewrite Hrb in H. cbn [bind py_getitem] in H. rewrite Hc in H.
    discriminate.
Qed.

Lemma function_code_raises (spec : json) (path : key) (s : stub)
    (d : dict) :
  spec = JDict d -> dict_get (KStr "servers") d = None ->
  exists e, function_code spec path s = Err e.
Proof.
  intros -> Hd. unfold function_code.
  apply bind_raises. intros body_keys _.
  apply bind_raises. intros signature _.
  cbn [py_getitem]. rewrite Hd. now exists KeyError.
Qed.

Lemma transform_operation_raises (spec : json) (path method : key)
    (details : json) :
  assumed_field_absent spec details ->
  forall out, exists e,
    transform_operation spec path out (method, details) = Err e.
Proof.
  intros Habs [fs cs]. unfold transform_operation.
  destruct Habs as [d Hd Ho|body rb Hb Hrb Hc|d Hd Hs].
  - destruct (build_function_raises spec details) as [e ->]; [|now exists e].
    left. eauto.
  - destruct (build_function_raises spec details) as [e ->]; [|now exists e].
    right. eauto.
  - apply bind_raises. intros f _. apply bind_raises. intros s _.
    destruct (function_code_raises spec path s d Hd Hs) as [e ->].
    now exists e.
Qed.

(** C6: when a field the transformer assumes is absent from one operation
    of the document (or [servers] from the document, which has an
    operation), the whole conversion raises: the result is an exception
    and carries no function and no stub, also for the operations that come
    before the faulty one. *)
Theorem absent_field_aborts (spec : json) (paths ops : dict)
    (path method : key) (details : json) :
  py_getitem spec "paths" = Ok (JDict paths) ->
  In (path, JDict ops) paths ->
  In (method, details) ops ->
  assumed_field_absent spec details ->
  exists e, transform_to_openai_format spec = Err e.
Proof.
  intros Hpaths Hpath Hop Habs. unfold transform_to_openai_format.
  rewrite Hpaths. cbn [bind py_items].
  apply (foldM_raises (transform_path spec) paths (path, JDict ops) Hpath).
  intros out. unfold transform_path. cbn [py_items bind].
  apply (foldM_raises (transform_operation spec path) ops (method, details)
           Hop).
  now apply transform_operation_raises.
Qed.

(** ** Parallel outputs (C7) *)

Lemma mapM_nth {A B} (f : A -> result B) (l : list A) (ys : list B) :
  mapM f l = Ok ys ->
  List.length ys = List.length l
  /\ forall i x, nth_error l i = Some x ->
                 exists y, nth_error ys i = Some y /\ f x = Ok y.
Proof.
  revert ys. induction l as [|x0 l IH]; intros ys H; simpl in H.
  - inv_ok H. split; [reflexivity|]. intros [|i] x; discriminate.
  - inv_bind H. inv_bind H. inv_ok H.
    destruct (IH _ E0) as [Hlen Hnth]. split; [simpl; now rewrite Hlen|].
    intros [|i] x' Hx; simpl in Hx.
    + inv_ok Hx. exists x. auto.
    + now apply Hnth.
Qed.

Lemma mapM_app {A B} (f : A -> result B) (l1 l2 : list A)
    (ys1 ys2 : list B) :
  mapM f l1 = Ok ys1 -> mapM f l2 = Ok ys2 ->
  mapM f (l1 ++ l2)%list = Ok (ys1 ++ ys2)%list.
Proof.
  revert ys1. induction l1 as [|x l1 IH]; intros ys1 H1 H2; simpl in *.
  - now inv_ok H1.
  - inv_bind H1. inv_bind H1. inv_ok H1. rewrite E. cbn [bind].
    now rewrite (IH _ E0 H2).
Qed.

(** The inner loop appends, to each list, the outputs of the operations
    of the path item, in order. *)
Lemma transform_operation_loop (spec : json) (path : key) (ops : dict) :
  forall fs cs out',
    foldM (transform_operation spec path) ops (fs, cs) = Ok out' ->
    exists outs,
      mapM (operation_output spec) (map (fun op => (path, op)) ops) = Ok outs
      /\ out' = ((fs ++ map fst outs)%list, (cs ++ map snd outs)%list).
Proof.
  induction ops as [|[method details] ops IH]; intros fs cs out' H;
    simpl in H.
  - inv_ok H. exists []. simpl. now rewrite !app_nil_r.
  - inv_bind H. unfold transform_operation in E.
    inv_bind E. rename x0 into f. inv_bind E. rename x0 into s.
    inv_bind E. rename x0 into code. inv_ok E.
    destruct (IH _ _ _ H) as (outs & Houts & ->).
    exists ((f, code) :: outs). split.
    + cbn [map mapM operation_output]. rewrite E0. cbn [bind].
      rewrite E1. cbn [bind]. rewrite E2. cbn [bind].
      now rewrite Houts.
    + cbn [map fst snd]. now rewrite <- !app_assoc.
Qed.

Lemma transform_path_loop (spec : json) (paths : dict) :
  forall fs cs out',
    foldM (transform_path spec) paths (fs, cs) = Ok out' ->
    exists outs,
      mapM (operation_output spec) (flat_map operations_of_path paths)
      = Ok outs
      /\ out' = ((fs ++ map fst outs)%list, (cs ++ map snd outs)%list).
Proof.
  induction paths as [|[path methods] paths IH]; intros fs cs out' H;
    simpl in H.
  - inv_ok H. exists []. simpl. now rewrite !app_nil_r.
  - inv_bind H. unfold transform_path in E. inv_bind E.
    apply py_items_dict in E0. subst methods.
    apply transform_operation_loop in E. destruct E as (outs1 & H1 & ->).
    destruct (IH _ _ _ H) as (outs2 & H2 & ->).
    exists (outs1 ++ outs2)%list. split.
    + cbn [flat_map operations_of_path fst snd].
      now apply mapM_app.
    + now rewrite !map_app, <- !app_assoc.
Qed.

(** C7: when the transformer succeeds, the two lists have the length of
    the list of operations in traversal order, and at every index the
    function descriptor and the stub are the ones of the operation at that
    index. *)
Theorem outputs_are_parallel (spec : json) (functions : list json)
    (codes : list string) :
  transform_to_openai_format spec = Ok (functions, codes) ->
  List.length functions = List.length (operations spec)
  /\ List.length codes = List.length (operations spec)
  /\ forall i path method details,
      nth_error (operations spec) i = Some (path, (method, details)) ->
      exists f code,
        nth_error functions i = Some f
        /\ nth_error codes i = Some code
        /\ build_function spec details = Ok f
        /\ (s <- stub_of details ;; function_code spec path s) = Ok code.
Proof.
  unfold transform_to_openai_format, operations. intros H.
  inv_bind H. rename x into paths. inv_bind H.
  apply py_items_dict in E0. subst paths. rewrite E.
  apply transform_path_loop in H. destruct H as (outs & Houts & Hout).
  injection Hout as -> ->. cbn [app].
  destruct (mapM_nth _ _ _ Houts) as [Hlen Hnth].
  rewrite !length_map. repeat split; try assumption.
  intros i path method details Hi.
  destruct (Hnth i _ Hi) as ([f code] & Hy & Hop).
  exists f, code. unfold operation_output in Hop.
  inv_bind Hop. inv_bind Hop. inv_bind Hop. inv_ok Hop.
  rewrite !nth_error_map, Hy, E1. cbn [bind option_map fst snd]. auto.
Qed.

(** ** The stub reads the raw operation object (C8, C10) *)

Lemma str_app_assoc (a b c : string) : (a ++ b) ++ c = a ++ (b ++ c).
Proof. induction a as [|x a IH]; simpl; [reflexivity|now rewrite IH]. Qed.

(** A chain of [.get(k, {})] returns the subtree at the keys when every key
    is there, and [{}] otherwise. *)
Lemma get_chain_empty (keys : list string) (x : json) :
  foldM (fun v k => py_get v k (JDict [])) keys (JDict []) = Ok x ->
  x = JDict [].
Proof.
  induction keys as [|k keys IH]; simpl; intros H; [now inv_ok H|].
  now apply IH.
Qed.

Lemma get_chain_subtree (keys : list string) (v x : json) :
  foldM (fun v k => py_get v k (JDict [])) keys v = Ok x ->
  x = value_or_empty (subtree_at keys v).
Proof.
  revert v. induction keys as [|k keys IH]; intros v H; simpl in H.
  - now inv_ok H.
  - inv_bind H. rename x0 into v1.
    destruct (py_get_dict _ _ _ _ E) as (d & -> & Hv1).
    cbn [subtree_at]. destruct (dict_get (KStr k) d) as [y|].
    + subst v1. now apply IH.
    + subst v1. now apply get_chain_empty in H.
Qed.

Lemma raw_body_params_chain (details : json) :
  raw_body_params details
  = foldM (fun v k => py_get v k (JDict [])) raw_body_path details.
Proof.
  unfold raw_body_params, raw_body_path. cbn [foldM].
  destruct (py_get details "requestBody" (JDict [])) as [v1|]; [|reflexivity].
  cbn [bind].
  destruct (py_get v1 "content" (JDict [])) as [v2|]; [|reflexivity].
  cbn [bind].
  destruct (py_get v2 "application/json" (JDict [])) as [v3|]; [|reflexivity].
  cbn [bind].
  destruct (py_get v3 "schema" (JDict [])) as [v4|]; [|reflexivity].
  cbn [bind].
  now destruct (py_get v4 "properties" (JDict [])).
Qed.

Lemma stub_of_fields (details : json) (s : stub) :
  stub_of details = Ok s ->
  names_in "path" (parameters_of details) = Ok (path_params s)
  /\ names_in "query" (parameters_of details) = Ok (query_params s)
  /\ request_body_params s
     = value_or_empty (subtree_at raw_body_path details).
Proof.
  unfold stub_of, parameters_of. intros H.
  inv_bind H. inv_bind H. rewrite E0. inv_bind H. rewrite E1.
  inv_bind H. inv_bind H. inv_bind H. inv_ok H.
  cbn [path_params query_params request_body_params].
  repeat split; try assumption.
  rewrite raw_body_params_chain in E4. now apply get_chain_subtree.
Qed.

(** The text of a stub, line by line. *)
Lemma function_code_lines (spec : json) (path : key) (s : stub)
    (code : string) :
  function_code spec path s = Ok code ->
  exists P signature servers server url,
    request_body_params s = JDict P
    /\ py_join ", " (path_params s ++ query_params s
                     ++ map key_to_json (dict_keys P))%list = Ok signature
    /\ py_getitem spec "servers" = Ok servers
    /\ py_getitem0 servers = Ok server
    /\ py_getitem server "url" = Ok url
    /\ code = def_line (func_name s) signature
              ++ url_line url path
              ++ headers_line
              ++ params_line (query_params s)
              ++ match P with
                 | [] => get_tail
                 | _ :: _ => post_tail (map key_to_json (dict_keys P))
                 end.
Proof.
  unfold function_code. intros H.
  inv_bind H. rename x into body_keys.
  destruct (request_body_params s) as [| | | | |P] eqn:EP; try discriminate.
  cbn [py_keys] in E. inv_ok E.
  inv_bind H. rename x into signature.
  inv_bind H. rename x into servers. inv_bind H. rename x into server.
  inv_bind H. rename x into url. inv_ok H.
  exists P, signature, servers, server, url.
  repeat split; try assumption.
  unfold def_line, url_line, headers_line, params_line, get_tail, post_tail.
  destruct (query_params s), P as [|kv P]; cbn [py_truthy];
    repeat (cbn [append]; rewrite ?str_app_assoc); reflexivity.
Qed.

(** A key that is in [properties] stays there. *)
Lemma add_parameter_keeps (spec : json) (k : key) (st st' : params_state)
    (param : json) :
  dict_has k (fst st) = true ->
  add_parameter spec st param = Ok st' ->
  dict_has k (fst st') = true.
Proof.
  destruct st as [props req]. intros Hk H.
  apply add_parameter_state in H. destruct H as (k' & d' & _ & ->).
  now apply dict_has_set.
Qed.

Lemma add_content_keeps (spec : json) (k : key) (st st' : params_state)
    (item : key * json) :
  dict_has k (fst st) = true ->
  add_content spec st item = Ok st' ->
  dict_has k (fst st') = true.
Proof.
  destruct st as [props req]. intros Hk H.
  apply add_content_state in H. destruct H as (P & _ & ->).
  now apply dict_has_update.
Qed.

Lemma add_parameter_loop_keeps (spec : json) (k : key) (l : list json)
    (st st' : params_state) :
  dict_has k (fst st) = true ->
  foldM (add_parameter spec) l st = Ok st' ->
  dict_has k (fst st') = true.
Proof.
  apply (foldM_invariant (fun s => dict_has k (fst s) = true)).
  intros s x s' _. apply add_parameter_keeps.
Qed.

Lemma add_content_loop_keeps (spec : json) (k : key) (l : dict)
    (st st' : params_state) :
  dict_has k (fst st) = true ->
  foldM (add_content spec) l st = Ok st' ->
  dict_has k (fst st') = true.
Proof.
  apply (foldM_invariant (fun s => dict_has k (fst s) = true)).
  intros s x s' _. apply add_content_keeps.
Qed.

(** What a parameter or a content type writes is in [properties] when the
    loop ends. *)
Lemma add_parameter_loop_has (spec : json) (l : list json) (param : json)
    (k : key) (d : json) (r : list json) (st st' : params_state) :
  In param l ->
  add_parameter spec ([], []) param = Ok ([(k, d)], r) ->
  foldM (add_parameter spec) l st = Ok st' ->
  dict_has k (fst st') = true.
Proof.
  intros Hin Hparam H. apply in_split in Hin.
  destruct Hin as (before & after & ->).
  rewrite foldM_app in H. inv_bind H. destruct x as [props1 req1].
  simpl in H. inv_bind H.
  apply add_parameter_state in E0. destruct E0 as (k0 & d0 & Hany & ->).
  pose proof (eq_trans (eq_sym (Hany [] [])) Hparam) as Hx.
  cbn [dict_set] in Hx. injection Hx as -> -> _.
  refine (add_parameter_loop_keeps spec k after _ st' _ H).
  apply dict_has_set_same, key_eqb_refl.
Qed.

Lemma add_content_loop_has (spec : json) (l : dict) (item : key * json)
    (k : key) (P : dict) (r : list json) (st st' : params_state) :
  In item l ->
  add_content spec ([], []) item = Ok (P, r) ->
  dict_has k P = true ->
  foldM (add_content spec) l st = Ok st' ->
  dict_has k (fst st') = true.
Proof.
  intros Hin Hitem Hk H. apply in_split in Hin.
  destruct Hin as (before & after & ->).
  rewrite foldM_app in H. inv_bind H. destruct x as [props1 req1].
  simpl in H. inv_bind H.
  apply add_content_state in E0. destruct E0 as (P0 & Hany & ->).
  pose proof (eq_trans (eq_sym (Hany [] [])) Hitem) as Hx.
  injection Hx as <- _.
  refine (add_content_loop_keeps spec k after _ st' _ H).
  now apply dict_has_update_new.
Qed.

Lemma properties_of_function_json (name description : json)
    (st : params_state) :
  properties_of (function_json name description st) = Ok (JDict (fst st)).
Proof. reflexivity. Qed.

(** C8: the body parameters of the stub are the value found in the
    operation object itself at
    [requestBody/content/application/json/schema/properties] (the empty
    dict when a key of that path is absent): no reference is resolved.
    The stub has them in its signature and issues a POST when there are
    some and a GET when there are none.  So a request body that is only a
    [$ref], or has no [application/json] content, gives a GET stub
    without body parameters, while every property that the flattener
    finds in a content type of the resolved request body is in the
    [properties] of the function descriptor. *)
Theorem stub_body_params_are_raw (spec : json) (path : key)
    (details : json) (s : stub) (code : string) (f : json) :
  stub_of details = Ok s ->
  function_code spec path s = Ok code ->
  build_function spec details = Ok f ->
  request_body_params s = value_or_empty (subtree_at raw_body_path details)
  /\
  (exists P signature url,
      request_body_params s = JDict P
      /\ py_join ", " (path_params s ++ query_params s
                       ++ map key_to_json (dict_keys P))%list = Ok signature
      /\ code = def_line (func_name s) signature
                ++ url_line url path
                ++ headers_line
                ++ params_line (query_params s)
                ++ match P with
                   | [] => get_tail
                   | _ :: _ => post_tail (map key_to_json (dict_keys P))
                   end)
  /\
  (forall body,
      py_getitem details "requestBody" = Ok (JDict body) ->
      dict_get (KStr "content") body = None
      \/ (exists content,
             dict_get (KStr "content") body = Some (JDict content)
             /\ dict_get (KStr "application/json") content = None) ->
      request_body_params s = JDict []
      /\ exists signature url,
          py_join ", " (path_params s ++ query_params s)%list = Ok signature
          /\ code = def_line (func_name s) signature
                    ++ url_line url path
                    ++ headers_line
                    ++ params_line (query_params s)
                    ++ get_tail)
  /\
  (forall item P r k,
      In item (contents_of spec details) ->
      add_content spec ([], []) item = Ok (P, r) ->
      dict_has k P = true ->
      exists props,
        properties_of f = Ok (JDict props) /\ dict_has k props = true).
Proof.
  intros Hs Hcode Hf.
  destruct (stub_of_fields details s Hs) as (_ & _ & Hraw).
  destruct (function_code_lines spec path s code Hcode)
    as (P & signature & servers & server & url & HP & Hsig & _ & _ & _ & Hc).
  split; [exact Hraw|]. split; [|split].
  - exists P, signature, url. auto.
  - intros body Hbody Hno.
    assert (Hempty : subtree_at raw_body_path details = None).
    { destruct (py_getitem_dict _ _ _ Hbody) as (dd & -> & Hdd).
      unfold raw_body_path. cbn [subtree_at]. rewrite Hdd.
      destruct Hno as [Hno|(content & Hcont & Hno)].
      - now rewrite Hno.
      - now rewrite Hcont, Hno. }
    rewrite Hempty in Hraw. cbn [value_or_empty] in Hraw.
    split; [exact Hraw|].
    rewrite Hraw in HP. injection HP as <-.
    exists signature, url. cbn [dict_keys map] in Hsig.
    rewrite app_nil_r in Hsig. auto.
  - intros item P' r k Hin Hitem Hk.
    apply build_function_stages in Hf.
    destruct Hf as (name & description & st1 & st2 & _ & _ & H1 & H2 & ->).
    exists (fst st2). split; [apply properties_of_function_json|].
    apply handle_request_body_loop in H2.
    apply (add_content_loop_has spec (contents_of spec details) item k P' r
             st1 st2 Hin Hitem Hk H2).
Qed.

(** A parameter object without an [in] key adds no name to the stub. *)
Lemma names_in_skip (place : string) (before after : list json)
    (pd : dict) :
  dict_get (KStr "in") pd = None ->
  names_in place (before ++ JDict pd :: after)%list
  = names_in place (before ++ after)%list.
Proof.
  intros Hin. induction before as [|x before IH]; cbn [app names_in].
  - cbn [py_get]. rewrite Hin. reflexivity.
  - destruct (py_get x "in" JNone) as [loc|]; [|reflexivity].
    cbn [bind]. destruct (eq_str loc place); [|exact IH].
    destruct (py_getitem x "name"); [|reflexivity].
    cbn [bind]. now rewrite IH.
Qed.

Lemma add_parameter_key (spec : json) (props : dict) (req : list json)
    (param : json) (st' : params_state) :
  add_parameter spec (props, req) param = Ok st' ->
  exists p n k d,
    resolve_if_ref param spec = Ok p
    /\ py_getitem p "name" = Ok n
    /\ json_to_key n = Ok k
    /\ fst st' = dict_set k d props.
Proof.
  unfold add_parameter. intros H.
  inv_bind H. rename x into p. inv_bind H. rename x into n.
  inv_bind H. inv_bind H. inv_bind H. inv_bind H. inv_bind H.
  rename x3 into k. inv_bind H. inv_ok H.
  exists p, n, k, (descriptor x1 x2). auto.
Qed.

Lemma parameters_of_list (details : json) (l : list json) :
  py_getitem details "parameters" = Ok (JList l) ->
  parameters_of details = l.
Proof.
  intros H. destruct (py_getitem_dict _ _ _ H) as (d & -> & Hd).
  unfold parameters_of. cbn [py_get]. now rewrite Hd.
Qed.

(** C10: a parameter written as a [$ref] object (so without an [in] key
    of its own) adds nothing to the stub: the path and query parameters of
    the stub are those of the parameter list without it.  The parameter it
    refers to is in the [properties] of the function descriptor, under its
    resolved name. *)
Theorem ref_parameter_not_in_stub (spec details : json) (s : stub)
    (f : json) (before after : list json) (pd : dict) :
  stub_of details = Ok s ->
  build_function spec details = Ok f ->
  py_getitem details "parameters"
    = Ok (JList (before ++ JDict pd :: after)) ->
  dict_has (KStr "$ref") pd = true ->
  dict_get (KStr "in") pd = None ->
  names_in "path" (before ++ after) = Ok (path_params s)
  /\ names_in "query" (before ++ after) = Ok (query_params s)
  /\ exists r q n k props,
      dict_get (KStr "$ref") pd = Some r
      /\ resolve_ref r spec = Ok q
      /\ py_getitem q "name" = Ok n
      /\ json_to_key n = Ok k
      /\ properties_of f = Ok (JDict props)
      /\ dict_has k props = true.
Proof.
  intros Hs Hf Hps Href Hin.
  pose proof (parameters_of_list details _ Hps) as Hl.
  destruct (stub_of_fields details s Hs) as (Hpath & Hquery & _).
  rewrite Hl, names_in_skip in Hpath, Hquery by assumption.
  split; [exact Hpath|]. split; [exact Hquery|].
  apply build_function_stages in Hf.
  destruct Hf as (name & description & st1 & st2 & _ & _ & H1 & H2 & ->).
  apply handle_parameters_loop in H1. rewrite Hl in H1.
  rewrite foldM_app in H1. inv_bind H1. destruct x as [props0 req0].
  cbn [foldM] in H1. inv_bind H1. rename x into st0.
  apply add_parameter_key in E0.
  destruct E0 as (q & n & k & d & Hq & Hn & Hk & Hst0).
  unfold resolve_if_ref in Hq. cbn [py_contains bind] in Hq.
  rewrite Href in Hq. unfold dict_has in Href. cbn [py_getitem] in Hq.
  destruct (dict_get (KStr "$ref") pd) as [r|]; [|discriminate].
  cbn [bind] in Hq.
  exists r, q, n, k, (fst st2). repeat split; try assumption.
  apply handle_request_body_loop in H2.
  refine (add_content_loop_keeps spec k _ st1 st2 _ H2).
  refine (add_parameter_loop_keeps spec k after st0 st1 _ H1).
  rewrite Hst0. apply dict_has_set_same, key_eqb_refl.
Qed.

(** ** The theorems on the sample document *)

Lemma default_type_substitution_witness :
  (exists props entry,
      properties_of (sample_function get_item) = Ok (JDict props)
      /\ dict_get (KStr "id") props = Some entry
      /\ py_getitem entry "type" = Ok (JStr "string"))
  /\ (exists entry,
         dict_get (KStr "tag") (sample_flattened alias_schema) = Some entry
         /\ py_getitem entry "type" = Ok (JStr "object")).
Proof.
  destruct (default_type_substitution sample_spec) as [Hparam Hprop].
  split.
  - apply (Hparam get_item (sample_function get_item) [] id_parameter
             [limit_ref]
             [(KStr "name", JStr "id"); (KStr "in", JStr "path");
              (KStr "required", JBool true)]
             [] (JStr "id") (KStr "id")); try reflexivity.
    + intros q k' [<-|[]] Hq. vm_compute in Hq. injection Hq as <-.
      reflexivity.
    + intros item s [].
  - apply (Hprop alias_schema (sample_flattened alias_schema)
             (JList [JStr "name"]) pet_schema (KStr "tag") (obj []) []);
      try reflexivity.
    right. left. reflexivity.
Defined.

Lemma last_write_wins_witness :
  (exists props entry,
      properties_of (sample_function rename_pet) = Ok (JDict props)
      /\ dict_get (KStr "name") props = Some entry
      /\ py_getitem entry "type" = Ok (JStr "string")
      /\ py_getitem entry "description" = Ok (JStr EmptyString))
  /\ (exists props entry,
         properties_of (sample_function update_pet) = Ok (JDict props)
         /\ dict_get (KStr "name") props = Some entry
         /\ py_getitem entry "type" = Ok (JStr "boolean")
         /\ py_getitem entry "description" = Ok (JStr EmptyString)).
Proof.
  split.
  - destruct (last_write_wins sample_spec rename_pet
                (sample_function rename_pet) eq_refl) as [Hparam _].
    apply (Hparam [name_int_parameter] name_parameter []
             [(KStr "name", JStr "name"); (KStr "in", JStr "query");
              (KStr "required", JBool true)]
             [] (JStr "name") (KStr "name")); try reflexivity.
    + intros q k' [].
    + intros item s [<-|[]] Hs. vm_compute in Hs. injection Hs as <-.
      reflexivity.
  - destruct (last_write_wins sample_spec update_pet
                (sample_function update_pet) eq_refl) as [_ Hbody].
    apply (Hbody [xml_content] json_content []
             (obj [("properties",
                    obj [("name", obj [("type", JStr "boolean")]);
                         ("age", obj [("type", JStr "integer")])]);
                   ("required", JList [JStr "name"])])
             (KStr "name") (obj [("type", JStr "boolean")])
             [(KStr "type", JStr "boolean")]); try reflexivity.
    + left. reflexivity.
    + intros it s' [].
Defined.

Lemma required_is_concatenation_witness :
  required_of (sample_function update_pet)
  = Ok (JList [JStr "name"; JStr "name"; JStr "name"; JStr "name"]).
Proof.
  destruct (required_is_concatenation sample_spec update_pet) as [H _].
  apply (H (sample_function update_pet)). reflexivity.
Defined.

Lemma absent_field_aborts_witness :
  exists e, transform_to_openai_format sample_spec_no_servers = Err e.
Proof.
  apply (absent_field_aborts sample_spec_no_servers
           [(KStr "/items/{id}", obj [("get", get_item)]);
            (KStr "/pets", obj [("post", create_pet); ("put", update_pet)])]
           [(KStr "get", get_item)]
           (KStr "/items/{id}") (KStr "get") get_item).
  - reflexivity.
  - left. reflexivity.
  - left. reflexivity.
  - apply (no_servers sample_spec_no_servers get_item
             [(KStr "components", sample_components);
              (KStr "paths", sample_paths)]); reflexivity.
Defined.

Lemma outputs_are_parallel_witness :
  List.length sample_functions = 3
  /\ List.length sample_codes = 3
  /\ exists f code,
      nth_error sample_functions 1 = Some f
      /\ nth_error sample_codes 1 = Some code
      /\ build_function sample_spec create_pet = Ok f
      /\ (s <- stub_of create_pet ;;
          function_code sample_spec (KStr "/pets") s) = Ok code.
Proof.
  destruct (outputs_are_parallel sample_spec sample_functions sample_codes)
    as (Hf & Hc & Hnth); [reflexivity|].
  split; [exact Hf|]. split; [exact Hc|].
  apply (Hnth 1 (KStr "/pets") (KStr "post") create_pet). reflexivity.
Defined.

Lemma stub_body_params_are_raw_witness :
  request_body_params (sample_stub create_pet) = JDict []
  /\ exists props,
      properties_of (sample_function create_pet) = Ok (JDict props)
      /\ dict_has (KStr "tag") props = true.
Proof.
  destruct (stub_body_params_are_raw sample_spec (KStr "/pets") create_pet
              (sample_stub create_pet)
              (sample_code (KStr "/pets") create_pet)
              (sample_function create_pet) eq_refl eq_refl eq_refl)
    as (_ & _ & Href & Hprops).
  split.
  - apply (Href [(KStr "$ref", JStr "#/components/requestBodies/PetBody")]);
      [reflexivity|left; reflexivity].
  - apply (Hprops
             (KStr "application/json",
              obj [("schema",
                     obj [("$ref", JStr "#/components/schemas/Pet")])])
             [(KStr "name", descriptor (JStr "string") (JStr EmptyString));
              (KStr "tag", descriptor (JStr "object") (JStr EmptyString))]
             [JStr "name"] (KStr "tag")); [left| |]; reflexivity.
Defined.

Lemma ref_parameter_not_in_stub_witness :
  names_in "path" [id_parameter] = Ok (path_params (sample_stub get_item))
  /\ names_in "query" [id_parameter]
     = Ok (query_params (sample_stub get_item))
  /\ exists r q n k props,
      dict_get (KStr "$ref")
        [(KStr "$ref", JStr "#/components/parameters/Limit")] = Some r
      /\ resolve_ref r sample_spec = Ok q
      /\ py_getitem q "name" = Ok n
      /\ json_to_key n = Ok k
      /\ properties_of (sample_function get_item) = Ok (JDict props)
      /\ dict_has k props = true.
Proof.
  apply (ref_parameter_not_in_stub sample_spec get_item
           (sample_stub get_item) (sample_function get_item)
           [id_parameter] []
           [(KStr "$ref", JStr "#/components/parameters/Limit")]);
    reflexivity.
Defined.

(** ** The scenarios of the specification *)

(** Scenario A. *)
Lemma scenario_A_output :
  transform_to_openai_format scenario_A
  = Ok ([obj [("name", JStr "getItem");
              ("description", JStr EmptyString);
              ("parameters",
                obj [("type", JStr "object");
                     ("properties",
                       obj [("id",
                             obj [("type", JStr "string");
                                  ("description", JStr EmptyString)])]);
                     ("required", JList [JStr "id"])])]],
        [def_line (JStr "getItem") "id"
         ++ url_line (JStr "https://api.example.com") (KStr "/items/{id}")
         ++ headers_line ++ params_line [] ++ get_tail]).
Proof. vm_compute. reflexivity. Qed.

(** Scenario B. *)
Lemma scenario_B_output :
  match transform_to_openai_format scenario_B with
  | Ok (_, [code]) =>
      code = def_line (JStr "createThing") "name, age"
             ++ url_line (JStr "https://api.example.com") (KStr "/things")
             ++ headers_line ++ params_line []
             ++ post_tail [JStr "name"; JStr "age"]
  | _ => False
  end.
Proof. vm_compute. reflexivity. Qed.

(** Scenario C: the parameter behind [#/components/parameters/Limit] has
    the type of its schema. *)
Lemma scenario_C_output :
  add_parameter sample_spec ([], []) limit_ref
  = Ok ([(KStr "limit",
          obj [("type", JStr "integer"); ("description", JStr EmptyString)])],
        []).
Proof. reflexivity. Qed.

(** Scenario D: a reference to a node that is not there aborts the
    conversion. *)
Lemma scenario_D_output :
  transform_to_openai_format scenario_D = Err KeyError.
Proof. reflexivity. Qed.

(** Scenario E: no [servers], one operation at least. *)
Lemma scenario_E_output :
  transform_to_openai_format sample_spec_no_servers = Err KeyError.
Proof. reflexivity. Qed.

(** Without any operation the absence of [servers] is not noticed. *)
Lemma no_operation_no_failure :
  transform_to_openai_format (obj [("paths", obj [("/items", obj [])])])
  = Ok ([], []).
Proof. reflexivity. Qed.

(** * The document is read-only (C9) *)

Module HeapFrame.
Import Heap.
Local Open Scope list_scope.
Local Open Scope heap_scope.

(** ** The store *)

Lemma length_replace (l : loc) (o : object) (h : heap) :
  List.length (replace l o h) = List.length h.
Proof.
  revert l. induction h as [|o' h IH]; intros [|l]; simpl; auto.
Qed.

Lemma nth_error_replace_other (l l' : loc) (o : object) (h : heap) :
  l' <> l -> nth_error (replace l o h) l' = nth_error h l'.
Proof.
  revert l l'. induction h as [|o' h IH]; intros [|l] [|l'] H; simpl;
    try reflexivity; try congruence.
  apply IH. congruence.
Qed.

Lemma touches_refl (b : nat) (ex : list loc) (h : heap) : touches b ex h h.
Proof. split; auto. Qed.

Lemma touches_trans (b : nat) (ex : list loc) (h1 h2 h3 : heap) :
  touches b ex h1 h2 -> touches b ex h2 h3 -> touches b ex h1 h3.
Proof.
  intros [L1 H1] [L2 H2]. split; [lia|].
  intros l Hl Hex. now rewrite H2, H1.
Qed.

(** A lower boundary and more exceptions. *)
Lemma touches_weaken (b b' : nat) (ex ex' : list loc) (h h' : heap) :
  touches b' ex' h h' ->
  b <= b' ->
  (forall l, l < b -> In l ex' -> In l ex) ->
  touches b ex h h'.
Proof.
  intros [L H] Hb Hex. split; [exact L|].
  intros l Hl Hn. apply H; [lia|]. intros Hin. apply Hn. now apply Hex.
Qed.

Lemma touches_append (b : nat) (ex : list loc) (h : heap) (o : object) :
  b <= List.length h -> touches b ex h (h ++ [o]).
Proof.
  intros Hb. split.
  - rewrite length_app. simpl. lia.
  - intros l Hl _. apply nth_error_app1. lia.
Qed.

Lemma touches_replace (b : nat) (ex : list loc) (h : heap) (l : loc)
    (o : object) :
  (l < b -> In l ex) -> touches b ex h (replace l o h).
Proof.
  intros Hl. split.
  - now rewrite length_replace.
  - intros l' Hl' Hex. apply nth_error_replace_other.
    intros ->. apply Hex. now apply Hl.
Qed.

(** With no exception, the store that was there is the beginning of the
    store that results. *)
Lemma touches_firstn (h h' : heap) :
  touches (List.length h) [] h h' -> firstn (List.length h) h' = h.
Proof.
  intros [L H]. apply nth_error_ext. intros l.
  destruct (Nat.lt_ge_cases l (List.length h)) as [Hl|Hl].
  - rewrite nth_error_firstn.
    destruct (Nat.ltb_spec l (List.length h)); [|lia].
    apply H; [assumption|intros []].
  - rewrite (proj2 (nth_error_None h l) Hl).
    apply nth_error_None. rewrite length_firstn. lia.
Qed.

(** ** Rules for [frames] *)

Lemma frames_ret {A} Inv b ex (a : A) (Q : A -> Prop) :
  Q a -> frames Inv b ex (ret a) Q.
Proof.
  intros Ha h _. simpl. split; [apply touches_refl|].
  intros a' E. now inv_ok E.
Qed.

Lemma frames_read {A} Inv b ex (f : heap -> outcome A) (Q : A -> Prop) :
  (forall h a, Inv h -> f h = Done a -> Q a) ->
  frames Inv b ex (read f) Q.
Proof.
  intros Hf h Hh. simpl. split; [apply touches_refl|].
  intros a E. now apply (Hf h).
Qed.

Lemma frames_read_any {A} Inv b ex (f : heap -> outcome A) :
  frames Inv b ex (read f) (fun _ => True).
Proof. now apply frames_read. Qed.

Lemma frames_bind {A B} Inv b ex (m : M A) (f : A -> M B) (Q : A -> Prop)
    (R : B -> Prop) :
  stable Inv b ex ->
  frames Inv b ex m Q ->
  (forall a, Q a -> frames Inv b ex (f a) R) ->
  frames Inv b ex (bind m f) R.
Proof.
  intros Hst Hm Hf h Hh. unfold bind.
  destruct (Hm h Hh) as [Ht Hq].
  destruct (m h) as [[a|e|] h1]; simpl in *.
  - destruct (Hf a (Hq a eq_refl) h1 (Hst h h1 Hh Ht)) as [Ht' Hr].
    split; [exact (touches_trans b ex h h1 _ Ht Ht')|exact Hr].
  - split; [exact Ht|discriminate].
  - split; [exact Ht|discriminate].
Qed.

Lemma frames_post {A} Inv b ex (m : M A) (Q Q' : A -> Prop) :
  frames Inv b ex m Q -> (forall a, Q a -> Q' a) -> frames Inv b ex m Q'.
Proof.
  intros Hm HQ h Hh. destruct (Hm h Hh) as [Ht Hq].
  split; [exact Ht|]. intros a E. apply HQ, Hq, E.
Qed.

Lemma frames_foldM {A S} Inv b ex (body : S -> A -> M S) (l : list A)
    (P : S -> Prop) :
  stable Inv b ex ->
  (forall s x, P s -> frames Inv b ex (body s x) P) ->
  forall s, P s -> frames Inv b ex (foldM body l s) P.
Proof.
  intros Hst Hbody. induction l as [|x l IH]; intros s Hs; cbn [foldM].
  - now apply frames_ret.
  - apply (frames_bind Inv b ex _ _ P P Hst (Hbody s x Hs)). exact IH.
Qed.

Lemma frames_for_each {A} Inv b ex (body : A -> M unit) (l : list A) :
  stable Inv b ex ->
  (forall x, frames Inv b ex (body x) (fun _ => True)) ->
  frames Inv b ex (for_each body l) (fun _ => True).
Proof.
  intros Hst Hbody. unfold for_each.
  apply (frames_foldM Inv b ex (fun _ x => body x) l (fun _ => True) Hst);
    [|exact I].
  intros s x _. apply Hbody.
Qed.

Lemma frames_alloc Inv b ex (o : object) :
  (forall h, Inv h -> b <= List.length h) ->
  frames Inv b ex (alloc o) (fun l => b <= l).
Proof.
  intros Hb h Hh. unfold alloc. cbn [fst snd]. split.
  - apply touches_append. now apply Hb.
  - intros a E. inv_ok E. now apply Hb.
Qed.

Lemma frames_setitem Inv b ex (target : value) (k : key) (v : value) :
  (forall l, target = VRef l -> l < b -> In l ex) ->
  frames Inv b ex (setitem target k v) (fun _ => True).
Proof.
  intros Ht h Hh. split; [|trivial]. unfold setitem.
  destruct target as [| | | |l]; try apply touches_refl.
  destruct (nth_error h l) as [[xs|d]|]; try apply touches_refl.
  cbn [snd]. apply touches_replace. now apply Ht.
Qed.

Lemma frames_append Inv b ex (target v : value) :
  (forall l, target = VRef l -> l < b -> In l ex) ->
  frames Inv b ex (append target v) (fun _ => True).
Proof.
  intros Ht h Hh. split; [|trivial]. unfold append.
  destruct target as [| | | |l]; try apply touches_refl.
  destruct (nth_error h l) as [[xs|d]|]; try apply touches_refl.
  cbn [snd]. apply touches_replace. now apply Ht.
Qed.

Lemma frames_extend Inv b ex (target other : value) :
  (forall l, target = VRef l -> l < b -> In l ex) ->
  frames Inv b ex (extend target other) (fun _ => True).
Proof.
  intros Ht h Hh. split; [|trivial]. unfold extend.
  destruct target as [| | | |l]; try apply touches_refl.
  destruct (nth_error h l) as [[xs|d]|]; try apply touches_refl.
  destruct (h_iter other h); try apply touches_refl.
  cbn [snd]. apply touches_replace. now apply Ht.
Qed.

Lemma frames_update Inv b ex (target : value) (other : loc) :
  (forall l, target = VRef l -> l < b -> In l ex) ->
  frames Inv b ex (update target other) (fun _ => True).
Proof.
  intros Ht h Hh. split; [|trivial]. unfold update.
  destruct target as [| | | |l]; try apply touches_refl.
  destruct (nth_error h l) as [[xs|d]|]; try apply touches_refl.
  destruct (nth_error h other) as [[xs'|d']|]; try apply touches_refl.
  cbn [snd]. apply touches_replace. now apply Ht.
Qed.

(** One statement of a sequence; the context has the stability of the
    invariant and its bound. *)
Tactic Notation "fbind" "as" ident(x) :=
  eapply frames_bind; [eassumption| |intros x ?].

Tactic Notation "fread" "as" ident(x) :=
  eapply frames_bind; [eassumption|apply frames_read_any|intros x _].

Tactic Notation "falloc" "as" ident(x) ident(Hx) :=
  eapply frames_bind;
  [eassumption
  |apply frames_alloc; eassumption
  |intros x Hx; cbv beta in Hx; unfold loc in x, Hx].

(** ** The functions that write to the objects they create *)

Section Local.

Variable Inv : heap -> Prop.
Variable b : nat.
Variable ex : list loc.
Hypothesis Inv_stable : stable Inv b ex.
Hypothesis Inv_bound : forall h, Inv h -> b <= List.length h.

Lemma frames_resolve_ref (ref spec : value) :
  frames Inv b ex (resolve_ref ref spec) (fun _ => True).
Proof.
  unfold resolve_ref.
  destruct ref; try apply frames_read_any.
  apply (frames_foldM Inv b ex
           (fun result key => read (h_getitem result key)) _
           (fun _ => True) Inv_stable); [|exact I].
  intros r k _. apply frames_read_any.
Qed.

Lemma frames_resolve_if_ref (x spec : value) :
  frames Inv b ex (resolve_if_ref x spec) (fun _ => True).
Proof.
  unfold resolve_if_ref. fread as has_ref. destruct has_ref.
  - fread as r. apply frames_resolve_ref.
  - now apply frames_ret.
Qed.

Lemma frames_extract_property (spec : value) (properties : loc)
    (item : key * value) :
  (properties < b -> In properties ex) ->
  frames Inv b ex (extract_property spec properties item) (fun _ => True).
Proof.
  intros Hp. unfold extract_property. destruct item as [prop_name details].
  fbind as details'; [apply frames_resolve_if_ref|].
  fread as prop_type. fread as description. falloc as d Hd.
  apply frames_setitem. intros l E. now inv_ok E.
Qed.

Lemma frames_extract_properties (schema spec : value) :
  frames Inv b ex (extract_properties schema spec) (fun _ => True).
Proof.
  unfold extract_properties. falloc as properties Hp.
  falloc as required0 Hr.
  fbind as schema'; [apply frames_resolve_if_ref|].
  fread as has_props.
  fbind as props.
  { destruct has_props.
    - apply frames_read_any.
    - falloc as e He. now apply frames_ret. }
  falloc as default Hd. fread as required. fread as items.
  fbind as u.
  { apply frames_for_each; [assumption|]. intros item.
    apply frames_extract_property. intros Hlt. exfalso. lia. }
  now apply frames_ret.
Qed.

Lemma frames_names_in (place : string) (params : list value) :
  frames Inv b ex (names_in place params) (fun _ => True).
Proof.
  induction params as [|param params IH]; cbn [names_in].
  - now apply frames_ret.
  - fread as loc. destruct (v_eq_str loc place); [|exact IH].
    fread as name. fbind as names; [exact IH|]. now apply frames_ret.
Qed.

Lemma frames_get_or_empty (v : value) (s : string) :
  frames Inv b ex (get_or_empty v s) (fun _ => True).
Proof. unfold get_or_empty. falloc as d Hd. apply frames_read_any. Qed.

Lemma frames_raw_body_params (details : value) :
  frames Inv b ex (raw_body_params details) (fun _ => True).
Proof.
  unfold raw_body_params.
  fbind as request_body; [apply frames_get_or_empty|].
  fbind as content; [apply frames_get_or_empty|].
  fbind as media; [apply frames_get_or_empty|].
  fbind as schema; [apply frames_get_or_empty|].
  apply frames_get_or_empty.
Qed.

Lemma frames_stub_of (details : value) :
  frames Inv b ex (stub_of details) (fun _ => True).
Proof.
  unfold stub_of. fread as name. falloc as d1 H1. fread as ps1.
  fread as l1. fbind as path_params; [apply frames_names_in|].
  falloc as d2 H2. fread as ps2. fread as l2.
  fbind as query_params; [apply frames_names_in|].
  fbind as body; [apply frames_raw_body_params|]. now apply frames_ret.
Qed.

Lemma frames_function_code (spec : value) (path : key) (s : stub) :
  frames Inv b ex (function_code spec path s) (fun _ => True).
Proof.
  unfold function_code. fread as body_keys. fread as signature.
  fread as name. fread as servers. fread as server. fread as url.
  fread as url_text. fread as query_entries. fread as has_body.
  fread as body_entries. now apply frames_ret.
Qed.

End Local.

(** ** The loops that write to the [function] object *)

Section Shape.

Variables function parameters properties required : loc.
Variable b : nat.
Hypothesis function_below : function < b.
Hypothesis parameters_below : parameters < b.
Hypothesis function_apart : function <> properties /\ function <> required.
Hypothesis parameters_apart :
  parameters <> properties /\ parameters <> required.

(** While the loops run, the store has the objects of the operation, and
    the loops write to its [properties] dict and its [required] list. *)
Abbreviation Inv := (loops_inv function parameters properties required b).
Abbreviation ex := [properties; required].

Lemma shape_stable : stable Inv b ex.
Proof.
  intros h h' [Hb (fd & pd & Hf & Hfd & Hp & Hpd & Hrd)] [L H]. split; [lia|].
  exists fd, pd. repeat split; try assumption.
  - rewrite H; [exact Hf|exact function_below|].
    cbn. intros [E|[E|[]]]; symmetry in E;
      [now apply (proj1 function_apart)|now apply (proj2 function_apart)].
  - rewrite H; [exact Hp|exact parameters_below|].
    cbn. intros [E|[E|[]]]; symmetry in E;
      [now apply (proj1 parameters_apart)|now apply (proj2 parameters_apart)].
Qed.

Lemma shape_bound : forall h, Inv h -> b <= List.length h.
Proof. now intros h [Hb _]. Qed.

Lemma frames_parameters_field (field : string) :
  frames Inv b ex (parameters_field function field)
    (fun v => (field = "properties" -> v = VRef properties)
              /\ (field = "required" -> v = VRef required)).
Proof.
  pose proof shape_stable as Hst.
  unfold parameters_field.
  eapply frames_bind; [exact Hst| |].
  - apply (frames_read Inv b ex _ (fun v => v = VRef parameters)).
    intros h a [_ (fd & pd & Hf & Hfd & _)]. cbn [h_getitem].
    rewrite Hf, Hfd. intros E. now inv_ok E.
  - intros v ->. apply frames_read.
    intros h a [_ (fd & pd & _ & _ & Hp & Hpd & Hrd)]. cbn [h_getitem].
    rewrite Hp. intros E. split; intros ->.
    + rewrite Hpd in E. now inv_ok E.
    + rewrite Hrd in E. now inv_ok E.
Qed.

Lemma frames_add_parameter (spec param : value) :
  frames Inv b ex (add_parameter spec function param) (fun _ => True).
Proof.
  pose proof shape_stable as Hst. pose proof shape_bound as Hbd.
  unfold add_parameter.
  fbind as param'; [now apply frames_resolve_if_ref|].
  fread as param_name. falloc as default Hd. fread as param_schema.
  fbind as param_schema'; [now apply frames_resolve_if_ref|].
  fread as param_type. fread as description. falloc as details Hdt.
  eapply frames_bind;
    [eassumption
    |apply (frames_parameters_field "properties")
    |intros target [Ht _]; rewrite (Ht eq_refl); clear target Ht].
  fread as k.
  fbind as u.
  { apply frames_setitem. intros l E _. inv_ok E. now left. }
  fread as is_required. fread as truth. destruct truth.
  - eapply frames_bind;
      [eassumption
      |apply (frames_parameters_field "required")
      |intros target [_ Ht]; rewrite (Ht eq_refl); clear target Ht].
    apply frames_append. intros l E _. inv_ok E. right. now left.
  - now apply frames_ret.
Qed.

Lemma frames_add_content (spec : value) (item : key * value) :
  frames Inv b ex (add_content spec function item) (fun _ => True).
Proof.
  pose proof shape_stable as Hst. pose proof shape_bound as Hbd.
  unfold add_content. destruct item as [content_type schema_obj].
  fread as schema.
  fbind as schema'; [now apply frames_resolve_if_ref|].
  fbind as extracted; [now apply frames_extract_properties|].
  destruct extracted as [props req].
  eapply frames_bind;
    [eassumption
    |apply (frames_parameters_field "properties")
    |intros target [Ht _]; rewrite (Ht eq_refl); clear target Ht].
  fbind as u.
  { apply frames_update. intros l E _. inv_ok E. now left. }
  eapply frames_bind;
    [eassumption
    |apply (frames_parameters_field "required")
    |intros target [_ Ht]; rewrite (Ht eq_refl); clear target Ht].
  apply frames_extend. intros l E _. inv_ok E. right. now left.
Qed.

Lemma frames_handle_parameters (spec details : value) :
  frames Inv b ex (handle_parameters spec details function) (fun _ => True).
Proof.
  pose proof shape_stable as Hst.
  unfold handle_parameters. fread as has_params. destruct has_params.
  - fread as ps. fread as l. apply frames_for_each; [assumption|].
    intros param. apply frames_add_parameter.
  - now apply frames_ret.
Qed.

Lemma frames_handle_request_body (spec details : value) :
  frames Inv b ex (handle_request_body spec details function)
    (fun _ => True).
Proof.
  pose proof shape_stable as Hst.
  unfold handle_request_body. fread as has_body. destruct has_body.
  - fread as body. fbind as body'; [now apply frames_resolve_if_ref|].
    fread as content. fread as items.
    apply frames_for_each; [assumption|].
    intros item. apply frames_add_content.
  - now apply frames_ret.
Qed.

(** The two loops, from a store that has the objects of the operation. *)
Lemma handle_loops_touch (spec details : value) (h : heap) :
  b <= List.length h ->
  function_shape function parameters properties required h ->
  touches b [properties; required] h
    (snd ((handle_parameters spec details function ;;;
           handle_request_body spec details function ;;;
           ret function) h)).
Proof.
  intros Hb Hshape.
  assert (H : frames Inv b ex
                (handle_parameters spec details function ;;;
                 handle_request_body spec details function ;;;
                 ret function) (fun _ => True)).
  { pose proof shape_stable as Hst.
    fbind as u; [apply frames_handle_parameters|].
    fbind as u'; [apply frames_handle_request_body|].
    now apply frames_ret. }
  apply H. now split.
Qed.

End Shape.

Lemma bind_read {A B} (f : heap -> outcome A) (k : A -> M B) (h : heap) :
  bind (read f) k h
  = match f h with
    | Done a => k a h
    | Raise e => (Raise e, h)
    | Stuck => (Stuck, h)
    end.
Proof. unfold bind, read. now destruct (f h). Qed.

Lemma bind_alloc {B} (o : object) (k : loc -> M B) (h : heap) :
  bind (alloc o) k h = k (List.length h) (h ++ [o]).
Proof. reflexivity. Qed.

Lemma nth_error_snoc (h : heap) (o : object) :
  nth_error (h ++ [o]) (List.length h) = Some o.
Proof.
  rewrite nth_error_app2 by lia. now rewrite Nat.sub_diag.
Qed.

Lemma nth_error_snoc_lt (h : heap) (o : object) (l : loc) :
  l < List.length h -> nth_error (h ++ [o]) l = nth_error h l.
Proof. intros H. now apply nth_error_app1. Qed.

(** [build_function] creates the objects of the operation and writes to
    them only. *)
Lemma build_function_touches (spec details : value) (b : nat) (h : heap) :
  b <= List.length h ->
  touches b [] h (snd (build_function spec details h)).
Proof.
  intros Hb. unfold build_function.
  rewrite bind_read. destruct (h_getitem details "operationId" h) as [name| |];
    try apply touches_refl.
  rewrite bind_read.
  destruct (h_get details "summary" (VStr EmptyString) h) as [description| |];
    try apply touches_refl.
  rewrite !bind_alloc.
  set (o1 := ODict []). set (o2 := OList []).
  set (h1 := h ++ [o1]). set (h2 := h1 ++ [o2]).
  set (o3 := ODict _). set (h3 := h2 ++ [o3]).
  set (o4 := ODict _). set (h4 := h3 ++ [o4]).
  assert (L1 : List.length h1 = S (List.length h))
    by (unfold h1; rewrite length_app; simpl; lia).
  assert (L2 : List.length h2 = S (List.length h1))
    by (unfold h2; rewrite length_app; simpl; lia).
  assert (L3 : List.length h3 = S (List.length h2))
    by (unfold h3; rewrite length_app; simpl; lia).
  assert (L4 : List.length h4 = S (List.length h3))
    by (unfold h4; rewrite length_app; simpl; lia).
  apply (touches_trans b [] h h4).
  { split; [lia|]. intros l Hl _. unfold h4, h3, h2, h1.
    rewrite !nth_error_snoc_lt; trivial; rewrite ?length_app; simpl; lia. }
  apply (touches_weaken b (List.length h4) []
           [List.length h; List.length h1]).
  - apply (handle_loops_touch (List.length h3) (List.length h2)
             (List.length h) (List.length h1) (List.length h4));
      try lia.
    exists [(KStr "name", name); (KStr "description", description);
            (KStr "parameters", VRef (List.length h2))],
           [(KStr "type", VStr "object");
            (KStr "properties", VRef (List.length h));
            (KStr "required", VRef (List.length h1))].
    repeat split.
    + unfold h4. apply nth_error_snoc.
    + unfold h4. rewrite nth_error_snoc_lt by lia.
      unfold h3. apply nth_error_snoc.
  - lia.
  - intros l Hl [E|[E|[]]]; lia.
Qed.

(** ** The transformer *)

Section Transform.

Variable Inv : heap -> Prop.
Variable b : nat.
Variable ex : list loc.
Hypothesis Inv_stable : stable Inv b ex.
Hypothesis Inv_bound : forall h, Inv h -> b <= List.length h.

Lemma frames_build_function (spec details : value) :
  frames Inv b ex (build_function spec details) (fun _ => True).
Proof.
  intros h Hh. split; [|trivial].
  apply (touches_weaken b b ex []); [|lia|intros l _ []].
  apply build_function_touches. now apply Inv_bound.
Qed.

Lemma frames_transform_operation (spec : value) (path : key)
    (functions codes : loc) (item : key * value) :
  (functions < b -> In functions ex) ->
  (codes < b -> In codes ex) ->
  frames Inv b ex (transform_operation spec path functions codes item)
    (fun _ => True).
Proof.
  intros Hf Hc. unfold transform_operation.
  destruct item as [method details].
  fbind as function; [apply frames_build_function|].
  fbind as s; [now apply frames_stub_of|].
  fbind as code; [now apply frames_function_code|].
  fbind as u.
  { apply frames_append. intros l E. now inv_ok E. }
  apply frames_append. intros l E. now inv_ok E.
Qed.

Lemma frames_transform_path (spec : value) (functions codes : loc)
    (item : key * value) :
  (functions < b -> In functions ex) ->
  (codes < b -> In codes ex) ->
  frames Inv b ex (transform_path spec functions codes item)
    (fun _ => True).
Proof.
  intros Hf Hc. unfold transform_path. destruct item as [path methods].
  fread as ops. apply frames_for_each; [assumption|].
  intros op. now apply frames_transform_operation.
Qed.

Lemma frames_transform_to_openai_format (spec : value) :
  frames Inv b ex (transform_to_openai_format spec) (fun _ => True).
Proof.
  unfold transform_to_openai_format.
  falloc as functions Hf. falloc as codes Hc.
  fread as paths. fread as items.
  fbind as u.
  { apply frames_for_each; [assumption|]. intros item.
    apply frames_transform_path; intros Hlt; exfalso; lia. }
  now apply frames_ret.
Qed.

End Transform.

Lemma above_stable (b : nat) (ex : list loc) :
  stable (fun h => b <= List.length h) b ex.
Proof. intros h h' Hb [L _]. lia. Qed.

(** A statement that writes to no object of the store it starts from
    leaves that store as the beginning of the store it ends with. *)
Lemma frames_firstn {A} (m : M A) (h : heap) :
  frames (fun h' => List.length h <= List.length h') (List.length h) []
    m (fun _ => True) ->
  firstn (List.length h) (snd (m h)) = h.
Proof.
  intros H. apply touches_firstn. now apply H.
Qed.

(** C9: the store the converter is started from, which holds the
    document, is the beginning of the store it ends with, whether it
    returns or raises: every object that was there is there unchanged, and
    the objects the converter wrote to are new ones.  This holds for the
    transformer, for the flattener and for the resolver, which leaves the
    whole store as it is. *)
Theorem document_is_read_only (h : heap) (spec : value) :
  firstn (List.length h) (snd (transform_to_openai_format spec h)) = h
  /\ (forall schema,
         firstn (List.length h) (snd (extract_properties schema spec h)) = h)
  /\ (forall ref, snd (resolve_ref ref spec h) = h).
Proof.
  pose proof (above_stable (List.length h) []) as Hst.
  split; [|split].
  - apply frames_firstn. now apply frames_transform_to_openai_format.
  - intros schema. apply frames_firstn.
    now apply frames_extract_properties.
  - intros ref. unfold resolve_ref. destruct ref; try reflexivity.
    generalize (str_split "/" (str_lstrip "#/" s)). intros keys.
    revert spec. induction keys as [|k keys IH]; intros spec;
      [reflexivity|].
    cbn [foldM]. rewrite bind_read.
    destruct (h_getitem spec k h); try reflexivity. apply IH.
Qed.

(** On the sample document: the store after the conversion begins with
    the store that holds the document, and the document read back from it
    is the sample document. *)
Lemma sample_document_unchanged :
  firstn (List.length sample_heap)
    (snd (transform_to_openai_format sample_root sample_heap)) = sample_heap
  /\ reify (List.length sample_heap)
       (snd (transform_to_openai_format sample_root sample_heap))
       sample_root = sample_spec.
Proof. split; vm_compute; reflexivity. Qed.

End HeapFrame.

(** On the sample document the two models return the same lists, and
    raise the same exception when [servers] is absent. *)
Lemma models_agree_on_sample :
  Heap.convert sample_spec
  = Ok (JList sample_functions, JList (map JStr sample_codes))
  /\ Heap.convert sample_spec_no_servers = Err KeyError
  /\ transform_to_openai_format sample_spec_no_servers = Err KeyError.
Proof. repeat split; vm_compute; reflexivity. Qed.

(** * More properties of the converter *)

(** ** The resolver: exceptions, composition, unreachable nodes *)

Lemma walk_one (k : string) (spec : json) :
  walk [k] spec = py_getitem spec k.
Proof. unfold walk. cbn [foldM]. now destruct (py_getitem spec k). Qed.

Lemma walk_app (keys1 keys2 : list string) (spec : json) :
  walk (keys1 ++ keys2)%list spec
  = (node <- walk keys1 spec ;; walk keys2 node).
Proof. apply foldM_app. Qed.

(** Where and why the loop of [resolve_ref] stops. *)
Lemma walk_error (keys : list string) (spec : json) (e : pyerr) :
  walk keys spec = Err e ->
  exists before k after node,
    keys = (before ++ k :: after)%list
    /\ subtree_at before spec = Some node
    /\ ((exists d, node = JDict d /\ dict_get (KStr k) d = None
                   /\ e = KeyError)
        \/ (is_dict node = false /\ e = TypeError)).
Proof.
  unfold walk. revert spec. induction keys as [|k keys IH]; intros spec H;
    cbn [foldM] in H; [discriminate|].
  destruct (py_getitem spec k) as [child|e'] eqn:E; cbn [bind] in H.
  - destruct (IH child H) as (before & k' & after & node & -> & Hn & Hc).
    exists (k :: before), k', after, node. repeat split; trivial.
    destruct (py_getitem_dict _ _ _ E) as (d & -> & Hd).
    cbn [subtree_at]. now rewrite Hd.
  - inv_ok H. exists [], k, keys, spec. repeat split.
    destruct spec as [| | | | |d]; cbn [py_getitem] in E;
      try (inv_ok E; now right).
    destruct (dict_get (KStr k) d) eqn:Hd; [discriminate|].
    inv_ok E. left. now exists d.
Qed.

(** X1: when [resolve_ref] raises on a str reference, it is at the first
    key that cannot be applied: [KeyError] if the node reached so far is a
    mapping that lacks the key, [TypeError] if that node is not a mapping
    (a list, a str, a number, ...).  It raises nothing else. *)
Theorem resolve_ref_exception (r : string) (spec : json) (e : pyerr) :
  resolve_ref (JStr r) spec = Err e ->
  exists before k after node,
    str_split "/" (str_lstrip "#/" r) = (before ++ k :: after)%list
    /\ subtree_at before spec = Some node
    /\ ((exists d, node = JDict d /\ dict_get (KStr k) d = None
                   /\ e = KeyError)
        \/ (is_dict node = false /\ e = TypeError)).
Proof. unfold resolve_ref. apply walk_error. Qed.

Lemma resolve_ref_exception_witness :
  exists before k after node,
    str_split "/" (str_lstrip "#/" "#/components/parameters/Missing")
    = (before ++ k :: after)%list
    /\ subtree_at before sample_spec = Some node
    /\ ((exists d, node = JDict d /\ dict_get (KStr k) d = None
                   /\ KeyError = KeyError)
        \/ (is_dict node = false /\ KeyError = TypeError)).
Proof.
  apply (resolve_ref_exception "#/components/parameters/Missing"
           sample_spec KeyError).
  reflexivity.
Defined.

Lemma keys_ok_app (keys1 keys2 : list string) :
  keys_ok keys1 = true -> keys_ok keys2 = true ->
  keys1 <> [EmptyString] ->
  keys_ok (keys1 ++ keys2)%list = true.
Proof.
  unfold keys_ok. intros H1 H2 Hne.
  apply andb_true_iff in H1. destruct H1 as [S1 F1].
  apply andb_true_iff in H2. destruct H2 as [S2 F2].
  apply andb_true_iff. split.
  - rewrite forallb_app. now rewrite S1, S2.
  - destruct keys1 as [|k keys1]; [discriminate|].
    destruct k as [|c k]; cbn [app].
    + destruct keys1; [congruence|discriminate].
    + exact F1.
Qed.

(** X2: a reference can be resolved in two steps: the reference
    [#/k1/.../km/l1/.../ln] resolves to what [#/l1/.../ln] resolves to in
    the node that [#/k1/.../km] resolves to, and raises what the first of
    the two steps that raises does.  (The keys are such that each of the
    three references spells them: see [keys_ok]; the first reference is
    not the one to the empty key.) *)
Theorem resolve_ref_composes (keys1 keys2 : list string) (spec : json) :
  keys_ok keys1 = true ->
  keys_ok keys2 = true ->
  keys1 <> [EmptyString] ->
  resolve_ref (JStr (ref_of_keys (keys1 ++ keys2))) spec
  = (node <- resolve_ref (JStr (ref_of_keys keys1)) spec ;;
     resolve_ref (JStr (ref_of_keys keys2)) node).
Proof.
  intros H1 H2 Hne.
  rewrite (resolve_ref_of_keys _ spec (keys_ok_app keys1 keys2 H1 H2 Hne)).
  rewrite (resolve_ref_of_keys keys1 spec H1), walk_app.
  destruct (walk keys1 spec) as [node|e]; [|reflexivity].
  cbn [bind]. now rewrite (resolve_ref_of_keys keys2 node H2).
Qed.

Lemma resolve_ref_composes_witness :
  resolve_ref (JStr "#/components/schemas/Pet/required") sample_spec
  = (node <- resolve_ref (JStr "#/components/schemas") sample_spec ;;
     resolve_ref (JStr "#/Pet/required") node).
Proof.
  apply (resolve_ref_composes ["components"; "schemas"] ["Pet"; "required"]
           sample_spec); [reflexivity|reflexivity|discriminate].
Defined.

Lemma str_lstrip_only (chars s : string) :
  only_chars chars s = true -> str_lstrip chars s = EmptyString.
Proof.
  induction s as [|c s IH]; cbn [only_chars str_lstrip]; [reflexivity|].
  intros H. apply andb_true_iff in H. destruct H as [Hc Hs].
  rewrite Hc. now apply IH.
Qed.

(** X3: the document itself cannot be referred to.  A reference made of
    ['#'] and ['/'] characters only (the empty one, [#], [#/], ...) is
    resolved to the entry of the root under the empty key, so it raises
    [KeyError] on a document that has no such entry. *)
Theorem resolve_ref_root (r : string) (spec : json) :
  only_chars "#/" r = true ->
  resolve_ref (JStr r) spec = py_getitem spec EmptyString.
Proof.
  intros H. unfold resolve_ref. rewrite (str_lstrip_only "#/" r H).
  cbn [str_split]. apply walk_one.
Qed.

Lemma resolve_ref_root_witness :
  resolve_ref (JStr "#/") sample_spec = Err KeyError.
Proof.
  rewrite (resolve_ref_root "#/" sample_spec); reflexivity.
Defined.

Lemma str_split_nonempty (sep : ascii) (s : string) : str_split sep s <> [].
Proof.
  destruct s as [|c s]; cbn [str_split]; [discriminate|].
  destruct (Ascii.eqb c sep); [discriminate|].
  destruct (str_split sep s); discriminate.
Qed.

Lemma str_split_no_slash (s : string) :
  forallb no_slash (str_split "/" s) = true.
Proof.
  induction s as [|c s IH]; cbn [str_split]; [reflexivity|].
  destruct (Ascii.eqb c "/") eqn:Ec.
  - cbn [forallb]. now rewrite IH.
  - pose proof (str_split_nonempty "/" s) as Hne.
    destruct (str_split "/" s) as [|w ws]; [congruence|].
    cbn [forallb] in *. apply andb_true_iff in IH. destruct IH as [Hw Hws].
    rewrite Hws, andb_true_r. unfold no_slash in *. cbn [mem_char].
    rewrite Ascii.eqb_sym, Ec. exact Hw.
Qed.

(** X4: whatever [resolve_ref] returns is found from the root along at
    least one key, none of which holds a ['/'].  A node that is only under
    a key with a ['/'] in it, such as a path item under [paths], is out of
    its reach: there is no [~1] escape. *)
Theorem resolve_ref_reach (r : string) (spec v : json) :
  resolve_ref (JStr r) spec = Ok v ->
  exists keys,
    keys <> []
    /\ forallb no_slash keys = true
    /\ subtree_at keys spec = Some v.
Proof.
  unfold resolve_ref. intros H.
  exists (str_split "/" (str_lstrip "#/" r)). repeat split.
  - apply str_split_nonempty.
  - apply str_split_no_slash.
  - now apply walk_subtree_at.
Qed.

Lemma resolve_ref_reach_witness :
  exists keys,
    keys <> []
    /\ forallb no_slash keys = true
    /\ subtree_at keys sample_spec = Some pet_schema.
Proof.
  apply (resolve_ref_reach "#/components/schemas/Pet" sample_spec pet_schema).
  reflexivity.
Defined.

(** ** The flattener: reference objects, names, failures *)

Lemma resolve_if_ref_ref (pd : dict) (r spec : json) :
  dict_get (KStr "$ref") pd = Some r ->
  resolve_if_ref (JDict pd) spec = resolve_ref r spec.
Proof.
  intros H. unfold resolve_if_ref. cbn [py_contains bind].
  unfold dict_has. rewrite H. cbn [py_getitem]. now rewrite H.
Qed.

Lemma resolve_if_ref_inline (v spec : json) :
  inline_dict v = true -> resolve_if_ref v spec = Ok v.
Proof.
  destruct v as [| | | | |d]; try discriminate. cbn [inline_dict].
  intros H. apply negb_true_iff in H. unfold resolve_if_ref.
  cbn [py_contains bind]. now rewrite H.
Qed.

(** X5: what stands beside [$ref] in a reference object is ignored by the
    descriptor side: a parameter object, a schema or a property
    definition that has a [$ref] key is handled exactly as the object
    that has this [$ref] and nothing else. *)
Theorem ref_siblings_ignored (spec : json) (pd : dict) (r : json) :
  dict_get (KStr "$ref") pd = Some r ->
  (forall st,
      add_parameter spec st (JDict pd)
      = add_parameter spec st (JDict [(KStr "$ref", r)]))
  /\ (forall acc k,
         extract_property spec acc (k, JDict pd)
         = extract_property spec acc (k, JDict [(KStr "$ref", r)]))
  /\ extract_properties (JDict pd) spec
     = extract_properties (JDict [(KStr "$ref", r)]) spec.
Proof.
  intros H.
  assert (E : resolve_if_ref (JDict pd) spec
              = resolve_if_ref (JDict [(KStr "$ref", r)]) spec).
  { rewrite (resolve_if_ref_ref pd r spec H).
    symmetry. now apply resolve_if_ref_ref. }
  repeat split.
  - intros [props req]. unfold add_parameter. now rewrite E.
  - intros acc k. unfold extract_property. now rewrite E.
  - unfold extract_properties. now rewrite E.
Qed.

Lemma ref_siblings_ignored_witness :
  add_parameter sample_spec ([], []) (JDict limit_ref_described)
  = add_parameter sample_spec ([], []) limit_ref.
Proof.
  apply (ref_siblings_ignored sample_spec limit_ref_described
           (JStr "#/components/parameters/Limit")).
  reflexivity.
Defined.

(** X6: the flattener keeps the names and nothing else.  The dict it
    returns has the property names of the (resolved) schema, in the order
    of the schema, and each entry is a dict with the two keys [type] and
    [description], in this order, and no other: what else a property
    definition holds (its own properties, [items], [enum], [format], ...)
    is not in the output. *)
Theorem extract_properties_names (schema spec : json) (props : dict)
    (required s : json) (items : dict) :
  extract_properties schema spec = Ok (props, required) ->
  resolve_if_ref schema spec = Ok s ->
  py_get s "properties" (JDict []) = Ok (JDict items) ->
  dict_wf items = true ->
  dict_keys props = dict_keys items
  /\ Forall (fun entry =>
               exists t d,
                 snd entry
                 = JDict [(KStr "type", t); (KStr "description", d)])
       props.
Proof.
  intros H Hs Hitems Hwf.
  pose proof (extract_properties_loop schema spec props required s items
                H Hs Hitems) as Hloop.
  destruct (extract_property_loop_appends spec items [] props Hwf Hloop)
    as (entries & -> & Hk & Hf).
  split; [exact Hk|].
  apply (Forall_impl _ (P := fun kv => exists t d, snd kv = descriptor t d));
    [|exact Hf].
  intros entry (t & d & ->). now exists t, d.
Qed.

Lemma extract_properties_names_witness :
  dict_keys (sample_flattened alias_schema) = [KStr "name"; KStr "tag"]
  /\ Forall (fun entry =>
               exists t d,
                 snd entry
                 = JDict [(KStr "type", t); (KStr "description", d)])
       (sample_flattened alias_schema).
Proof.
  apply (extract_properties_names alias_schema sample_spec
           (sample_flattened alias_schema)
           (JList [JStr "name"]) pet_schema
           [(KStr "name", obj [("type", JStr "string")]);
            (KStr "tag", obj [])]); reflexivity.
Defined.





Lemma resolve_if_ref_not_dict (v spec x : json) :
  is_dict v = false -> resolve_if_ref v spec = Ok x -> x = v.
Proof.
  intros Hv. unfold resolve_if_ref.
  destruct v as [| | |s|l|d]; try discriminate; cbn [py_contains bind].
  - destruct (str_contains "$ref" s); cbn [py_getitem bind];
      [discriminate|]. intros H. now inv_ok H.
  - destruct (existsb _ l); cbn [py_getitem bind]; [discriminate|].
    intros H. now inv_ok H.
Qed.

Lemma extract_property_not_dict (spec : json) (acc : dict) (k : key)
    (v : json) :
  is_dict v = false ->
  exists e, extract_property spec acc (k, v) = Err e.
Proof.
  intros Hv. unfold extract_property.
  apply bind_raises. intros x Hx.
  apply (resolve_if_ref_not_dict v spec x Hv) in Hx. subst x.
  destruct v; try discriminate; cbn [py_get bind]; eauto.
Qed.

(** X8: a property whose definition is not a mapping ([null], a str, a
    list, ...) makes the flattener raise, whatever the other properties
    are. *)
Theorem extract_properties_bad_definition (schema spec s : json)
    (items : dict) (k : key) (v : json) :
  resolve_if_ref schema spec = Ok s ->
  py_getitem s "properties" = Ok (JDict items) ->
  In (k, v) items ->
  is_dict v = false ->
  exists e, extract_properties schema spec = Err e.
Proof.
  intros Hs Hitems Hin Hv. unfold extract_properties.
  rewrite Hs. cbn [bind].
  destruct (py_getitem_dict _ _ _ Hitems) as (sd & -> & Hsd).
  cbn [py_contains bind py_getitem py_get]. unfold dict_has. rewrite Hsd.
  cbn [bind py_items].
  destruct (dict_get (KStr "required") sd); cbn [bind];
    apply bind_raises; intros props Hprops; exfalso;
    destruct (foldM_raises (extract_property spec) items (k, v) Hin
                (fun acc => extract_property_not_dict spec acc k v Hv) [])
      as [e He]; congruence.
Qed.

Lemma extract_properties_bad_definition_witness :
  exists e, extract_properties null_property_schema sample_spec = Err e.
Proof.
  apply (extract_properties_bad_definition null_property_schema sample_spec
           null_property_schema
           [(KStr "id", obj []); (KStr "tag", JNone)]
           (KStr "tag") JNone); try reflexivity.
  right. left. reflexivity.
Defined.

(** X9: the schema of a content type is dereferenced twice, once by the
    transformer (line 88) and once more by the flattener (line 25): a
    schema that refers to a schema that refers to an inline schema is
    flattened as that inline schema. *)
Theorem content_schema_two_levels (spec : json) (st : params_state)
    (content_type : key) (schema_obj x s1 s2 : json) :
  py_getitem schema_obj "schema" = Ok x ->
  resolve_if_ref x spec = Ok s1 ->
  resolve_if_ref s1 spec = Ok s2 ->
  inline_dict s2 = true ->
  add_content spec st (content_type, schema_obj)
  = add_content spec st (content_type, JDict [(KStr "schema", s2)]).
Proof.
  intros Hx H1 H2 Hin. destruct st as [props req].
  unfold add_content. rewrite Hx. cbn [bind py_getitem dict_get].
  rewrite key_eqb_refl, H1. cbn [bind].
  rewrite (resolve_if_ref_inline s2 spec Hin). cbn [bind].
  unfold extract_properties. rewrite H2.
  now rewrite (resolve_if_ref_inline s2 spec Hin).
Qed.

Lemma content_schema_two_levels_witness :
  add_content chain_spec ([], [])
    (KStr "application/json",
     obj [("schema", obj [("$ref", JStr "#/components/schemas/Alias")])])
  = add_content chain_spec ([], [])
      (KStr "application/json", JDict [(KStr "schema", pet_schema)]).
Proof.
  apply (content_schema_two_levels chain_spec ([], [])
           (KStr "application/json")
           (obj [("schema",
                  obj [("$ref", JStr "#/components/schemas/Alias")])])
           (obj [("$ref", JStr "#/components/schemas/Alias")])
           alias_schema pet_schema); reflexivity.
Defined.

(** X10: the [required] entry of a flattened schema is iterated, not
    copied: a list adds its elements, a str adds its characters one by
    one, a mapping adds its keys, and anything else ([true], [false],
    [null], a number) makes the content loop raise [TypeError]. *)
Theorem content_required_is_iterated (spec : json) (props : dict)
    (req : list json) (content_type : key) (schema_obj x s1 : json)
    (sd P : dict) (required0 required : json) :
  py_getitem schema_obj "schema" = Ok x ->
  resolve_if_ref x spec = Ok s1 ->
  extract_properties s1 spec = Ok (P, required0) ->
  resolve_if_ref s1 spec = Ok (JDict sd) ->
  dict_get (KStr "required") sd = Some required ->
  add_content spec (props, req) (content_type, schema_obj)
  = match required with
    | JList names => Ok (dict_update props P, (req ++ names)%list)
    | JStr s =>
        Ok (dict_update props P, (req ++ map JStr (chars_of s))%list)
    | JDict d =>
        Ok (dict_update props P,
            (req ++ map key_to_json (dict_keys d))%list)
    | JNone | JBool _ | JInt _ => Err TypeError
    end.
Proof.
  intros Hx H1 HP Hs Hr. unfold add_content.
  rewrite Hx. cbn [bind]. rewrite H1. cbn [bind]. rewrite HP. cbn [bind].
  destruct (extract_properties_required spec s1 P required0 HP)
    as (s & Hs' & Hreq).
  rewrite Hs in Hs'. inv_ok Hs'. cbn [py_get] in Hreq. rewrite Hr in Hreq.
  inv_ok Hreq. now destruct required0.
Qed.

Lemma content_required_is_iterated_witness :
  add_content chain_spec ([], [])
    (KStr "application/json", obj [("schema", legacy_schema)])
  = Err TypeError.
Proof.
  apply (content_required_is_iterated chain_spec [] []
           (KStr "application/json") (obj [("schema", legacy_schema)])
           legacy_schema legacy_schema
           [(KStr "properties", obj [("id", obj [("type", JStr "integer")])]);
            (KStr "required", JBool true)]
           [(KStr "id", descriptor (JStr "integer") (JStr EmptyString))]
           (JBool true) (JBool true)); reflexivity.
Defined.

(** ** The transformer: what aborts it *)

(** An operation on which the body of the inner loop raises makes the
    conversion raise. *)
Lemma operation_raises_aborts (spec : json) (paths ops : dict)
    (path method : key) (details : json) :
  py_getitem spec "paths" = Ok (JDict paths) ->
  In (path, JDict ops) paths ->
  In (method, details) ops ->
  (forall out, exists e,
      transform_operation spec path out (method, details) = Err e) ->
  exists e, transform_to_openai_format spec = Err e.
Proof.
  intros Hpaths Hpath Hop Hraises. unfold transform_to_openai_format.
  rewrite Hpaths. cbn [bind py_items].
  apply (foldM_raises (transform_path spec) paths (path, JDict ops) Hpath).
  intros out. unfold transform_path. cbn [py_items bind].
  now apply (foldM_raises (transform_operation spec path) ops
               (method, details) Hop).
Qed.

Lemma build_raises_operation_raises (spec : json) (path method : key)
    (details : json) :
  (exists e, build_function spec details = Err e) ->
  forall out, exists e,
    transform_operation spec path out (method, details) = Err e.
Proof.
  intros [e He] [fs cs]. unfold transform_operation. rewrite He.
  now exists e.
Qed.

Lemma code_raises_operation_raises (spec : json) (path method : key)
    (details : json) :
  (forall s, stub_of details = Ok s ->
             exists e, function_code spec path s = Err e) ->
  forall out, exists e,
    transform_operation spec path out (method, details) = Err e.
Proof.
  intros H [fs cs]. unfold transform_operation.
  apply bind_raises. intros f _. apply bind_raises. intros s Hs.
  destruct (H s Hs) as [e ->]. now exists e.
Qed.

(** X11: every entry of [paths] has to be a mapping, and every entry of a
    path item is taken for an operation.  A path item that is not a
    mapping, or that has an entry that is not a mapping (path-level
    [parameters], [summary], [description], ...), makes the whole
    conversion raise. *)
Theorem non_mapping_entry_aborts (spec : json) (paths : dict) (path : key)
    (item : json) :
  py_getitem spec "paths" = Ok (JDict paths) ->
  In (path, item) paths ->
  is_dict item = false
  \/ (exists ops method details,
         item = JDict ops /\ In (method, details) ops
         /\ is_dict details = false) ->
  exists e, transform_to_openai_format spec = Err e.
Proof.
  intros Hpaths Hin [Hitem|(ops & method & details & -> & Hop & Hd)].
  - unfold transform_to_openai_format. rewrite Hpaths. cbn [bind py_items].
    apply (foldM_raises (transform_path spec) paths (path, item) Hin).
    intros out. unfold transform_path.
    destruct item; try discriminate; now exists AttributeError.
  - apply (operation_raises_aborts spec paths ops path method details
             Hpaths Hin Hop).
    apply build_raises_operation_raises. unfold build_function.
    destruct details; try discriminate; now exists TypeError.
Qed.

Lemma non_mapping_entry_aborts_witness :
  exists e, transform_to_openai_format shared_parameters_spec = Err e.
Proof.
  apply (non_mapping_entry_aborts shared_parameters_spec
           [(KStr "/items/{id}", shared_parameters_item)]
           (KStr "/items/{id}") shared_parameters_item).
  - reflexivity.
  - left. reflexivity.
  - right.
    exists [(KStr "parameters", JList [id_parameter]);
            (KStr "get", obj [("operationId", JStr "getItem")])],
           (KStr "parameters"), (JList [id_parameter]).
    repeat split. left. reflexivity.
Defined.

Lemma handle_parameters_raises (spec details : json) (ps : list json)
    (p : json) (st : params_state) :
  py_getitem details "parameters" = Ok (JList ps) ->
  In p ps ->
  (forall st', exists e, add_parameter spec st' p = Err e) ->
  exists e, handle_parameters spec details st = Err e.
Proof.
  intros Hps Hin Hp.
  destruct (handle_parameters spec details st) as [st'|e] eqn:E;
    [|now exists e].
  apply handle_parameters_loop in E.
  rewrite (parameters_of_list details ps Hps) in E.
  destruct (foldM_raises (add_parameter spec) ps p Hin Hp st) as [e He].
  congruence.
Qed.

Lemma handle_request_body_raises (spec details : json)
    (item : key * json) (st : params_state) :
  In item (contents_of spec details) ->
  (forall st', exists e, add_content spec st' item = Err e) ->
  exists e, handle_request_body spec details st = Err e.
Proof.
  intros Hin Hitem.
  destruct (handle_request_body spec details st) as [st'|e] eqn:E;
    [|now exists e].
  apply handle_request_body_loop in E.
  destruct (foldM_raises (add_content spec) _ item Hin Hitem st) as [e He].
  congruence.
Qed.

(** X12: a parameter has to have a [name] and a content type a [schema]:
    an operation with a (resolved) parameter object without [name], or
    with a content type of its (resolved) request body without [schema],
    makes the whole conversion raise. *)
Theorem nameless_parameter_aborts (spec : json) (paths ops : dict)
    (path method : key) (details : json) :
  py_getitem spec "paths" = Ok (JDict paths) ->
  In (path, JDict ops) paths ->
  In (method, details) ops ->
  (exists ps p pd,
      py_getitem details "parameters" = Ok (JList ps)
      /\ In p ps
      /\ resolve_if_ref p spec = Ok (JDict pd)
      /\ dict_get (KStr "name") pd = None)
  \/ (exists content_type so,
         In (content_type, JDict so) (contents_of spec details)
         /\ dict_get (KStr "schema") so = None) ->
  exists e, transform_to_openai_format spec = Err e.
Proof.
  intros Hpaths Hpath Hop H.
  apply (operation_raises_aborts spec paths ops path method details
           Hpaths Hpath Hop).
  apply build_raises_operation_raises. unfold build_function.
  apply bind_raises. intros name _. apply bind_raises. intros d _.
  destruct H as [(ps & p & pd & Hps & Hin & Hp & Hn)
                |(ct & so & Hin & Hs)].
  - destruct (handle_parameters_raises spec details ps p ([], []) Hps Hin)
      as [e ->]; [|now exists e].
    intros [props req]. unfold add_parameter. rewrite Hp.
    cbn [bind py_getitem]. rewrite Hn. now exists KeyError.
  - apply bind_raises. intros st1 _.
    destruct (handle_request_body_raises spec details (ct, JDict so) st1 Hin)
      as [e ->]; [|now exists e].
    intros [props req]. unfold add_content. cbn [py_getitem].
    rewrite Hs. now exists KeyError.
Qed.

Lemma nameless_parameter_aborts_witness :
  exists e, transform_to_openai_format nameless_spec = Err e.
Proof.
  apply (nameless_parameter_aborts nameless_spec
           [(KStr "/items", obj [("get", nameless_operation)])]
           [(KStr "get", nameless_operation)]
           (KStr "/items") (KStr "get") nameless_operation).
  - reflexivity.
  - left. reflexivity.
  - left. reflexivity.
  - left. exists [nameless_parameter], nameless_parameter,
      [(KStr "in", JStr "query")].
    repeat split. left. reflexivity.
Defined.

(** X13: the stub needs the first server and its [url]: with an operation
    in the document, an empty [servers] list ([IndexError]) or a first
    server without [url] makes the whole conversion raise. *)
Theorem no_first_server_aborts (spec : json) (paths ops : dict)
    (path method : key) (details servers : json) :
  py_getitem spec "paths" = Ok (JDict paths) ->
  In (path, JDict ops) paths ->
  In (method, details) ops ->
  py_getitem spec "servers" = Ok servers ->
  servers = JList []
  \/ (exists server rest sd,
         servers = JList (server :: rest)
         /\ server = JDict sd
         /\ dict_get (KStr "url") sd = None) ->
  exists e, transform_to_openai_format spec = Err e.
Proof.
  intros Hpaths Hpath Hop Hservers H.
  apply (operation_raises_aborts spec paths ops path method details
           Hpaths Hpath Hop).
  apply code_raises_operation_raises. intros s _. unfold function_code.
  apply bind_raises. intros body_keys _.
  apply bind_raises. intros signature _.
  rewrite Hservers. cbn [bind].
  destruct H as [->|(server & rest & sd & -> & -> & Hurl)].
  - now exists IndexError.
  - cbn [py_getitem0 bind py_getitem]. rewrite Hurl. now exists KeyError.
Qed.

Lemma no_first_server_aborts_witness :
  exists e, transform_to_openai_format empty_servers_spec = Err e.
Proof.
  apply (no_first_server_aborts empty_servers_spec
           [(KStr "/items/{id}", obj [("get", get_item)]);
            (KStr "/pets", obj [("post", create_pet); ("put", update_pet)])]
           [(KStr "get", get_item)]
           (KStr "/items/{id}") (KStr "get") get_item (JList [])).
  - reflexivity.
  - left. reflexivity.
  - left. reflexivity.
  - reflexivity.
  - left. reflexivity.
Defined.

Lemma mapM_raises {A B} (f : A -> result B) (l : list A) (x : A) :
  In x l -> (exists e, f x = Err e) -> exists e, mapM f l = Err e.
Proof.
  intros Hin [e He]. induction l as [|y l IH]; [contradiction|].
  cbn [mapM]. destruct Hin as [->|Hin].
  - rewrite He. now exists e.
  - destruct (f y) as [b|e']; cbn [bind]; [|now exists e'].
    destruct (IH Hin) as [e' ->]. now exists e'.
Qed.

(** X14: the names in the signature of a stub have to be str: a path or
    query parameter whose [name] is not a str (a number, [null], ...)
    is accepted by the descriptor side and makes the stub, and so the
    whole conversion, raise. *)
Theorem non_str_name_aborts (spec : json) (paths ops : dict)
    (path method : key) (details : json) (s : stub) (name : json) :
  py_getitem spec "paths" = Ok (JDict paths) ->
  In (path, JDict ops) paths ->
  In (method, details) ops ->
  stub_of details = Ok s ->
  In name (path_params s ++ query_params s)%list ->
  is_str name = false ->
  exists e, transform_to_openai_format spec = Err e.
Proof.
  intros Hpaths Hpath Hop Hs Hin Hname.
  apply (operation_raises_aborts spec paths ops path method details
           Hpaths Hpath Hop).
  apply code_raises_operation_raises. intros s' Hs'.
  rewrite Hs in Hs'. inv_ok Hs'. unfold function_code.
  apply bind_raises. intros body_keys _.
  unfold py_join.
  destruct (mapM_raises as_str
              (path_params s' ++ query_params s' ++ body_keys)%list name)
    as [e ->].
  - rewrite app_assoc. apply in_or_app. now left.
  - destruct name; try discriminate; now exists TypeError.
  - now exists e.
Qed.

Lemma non_str_name_aborts_witness :
  exists e, transform_to_openai_format numbered_spec = Err e.
Proof.
  apply (non_str_name_aborts numbered_spec
           [(KStr "/items", obj [("get", numbered_operation)])]
           [(KStr "get", numbered_operation)]
           (KStr "/items") (KStr "get") numbered_operation
           (sample_stub numbered_operation) (JInt 5)).
  - reflexivity.
  - left. reflexivity.
  - left. reflexivity.
  - reflexivity.
  - left. reflexivity.
  - reflexivity.
Defined.

(** ** The transformer: what it returns *)

(** X15: a document without operations is converted to two empty lists,
    whatever else it holds: when [paths] is a mapping whose path items are
    all empty mappings, neither [servers] nor [components] is looked
    at. *)
Theorem no_operation_gives_empty_lists (spec : json) (paths : dict) :
  py_getitem spec "paths" = Ok (JDict paths) ->
  Forall (fun item => snd item = JDict []) paths ->
  transform_to_openai_format spec = Ok ([], []).
Proof.
  intros Hpaths Hall. unfold transform_to_openai_format.
  rewrite Hpaths. cbn [bind py_items]. clear Hpaths.
  induction Hall as [|[path item] paths Hitem _ IH]; [reflexivity|].
  cbn [snd] in Hitem. subst item. cbn [foldM].
  unfold transform_path at 1. cbn [py_items bind foldM]. exact IH.
Qed.

Lemma no_operation_gives_empty_lists_witness :
  transform_to_openai_format
    (obj [("paths", obj [("/items", obj []); ("/pets", obj [])])])
  = Ok ([], []).
Proof.
  apply (no_operation_gives_empty_lists _
           [(KStr "/items", obj []); (KStr "/pets", obj [])]).
  - reflexivity.
  - repeat constructor.
Defined.

Lemma stub_of_name (details : json) (s : stub) :
  stub_of details = Ok s ->
  py_getitem details "operationId" = Ok (func_name s).
Proof.
  unfold stub_of. intros H. inv_bind H. inv_bind H. inv_bind H.
  inv_bind H. inv_bind H. inv_bind H. now inv_ok H.
Qed.

(** X16: the function descriptor and the stub of an operation have its
    [operationId] as their name.  At the index of an operation, the
    descriptor has [name] = [operationId], [description] = [summary]
    (the empty str without one) and [parameters.type] = ["object"]; the
    stub begins with [def <operationId>(...)] and its URL is the [url] of
    the first server followed by the path as it is written, placeholders
    included. *)
Theorem outputs_carry_operation_id (spec : json) (functions : list json)
    (codes : list string) (i : nat) (path method : key) (details : json) :
  transform_to_openai_format spec = Ok (functions, codes) ->
  nth_error (operations spec) i = Some (path, (method, details)) ->
  exists name description f parameters code signature servers server url
         rest,
    py_getitem details "operationId" = Ok name
    /\ py_get details "summary" (JStr EmptyString) = Ok description
    /\ nth_error functions i = Some f
    /\ py_getitem f "name" = Ok name
    /\ py_getitem f "description" = Ok description
    /\ py_getitem f "parameters" = Ok parameters
    /\ py_getitem parameters "type" = Ok (JStr "object")
    /\ nth_error codes i = Some code
    /\ py_getitem spec "servers" = Ok servers
    /\ py_getitem0 servers = Ok server
    /\ py_getitem server "url" = Ok url
    /\ code = def_line name signature ++ url_line url path ++ rest.
Proof.
  unfold transform_to_openai_format, operations. intros H Hi.
  inv_bind H. rename x into paths. inv_bind H.
  apply py_items_dict in E0. subst paths. rewrite E in Hi.
  apply transform_path_loop in H. destruct H as (outs & Houts & Hout).
  injection Hout as -> ->. cbn [app].
  destruct (mapM_nth _ _ _ Houts) as [_ Hnth].
  destruct (Hnth i _ Hi) as ([f code] & Hy & Hop).
  unfold operation_output in Hop.
  inv_bind Hop. inv_bind Hop. inv_bind Hop. inv_ok Hop.
  match goal with Hs : stub_of details = Ok ?x |- _ => rename x into s end.
  apply build_function_stages in E0.
  destruct E0 as (name & description & st1 & st2 & Hn & Hd & _ & _ & ->).
  destruct (function_code_lines spec path s code E2)
    as (P & signature & servers & server & url & _ & _ & Hsv & Hs0 & Hurl
        & Hcode).
  pose proof (stub_of_name details s E1) as Hname.
  rewrite Hn in Hname. inv_ok Hname.
  exists (func_name s), description,
    (function_json (func_name s) description st2).
  eexists _, _, signature, servers, server, url, _.
  repeat split; try eassumption; try reflexivity.
  - exact (map_nth_error fst i outs Hy).
  - exact (map_nth_error snd i outs Hy).
Qed.

Lemma outputs_carry_operation_id_witness :
  exists name description f parameters code signature servers server url
         rest,
    py_getitem create_pet "operationId" = Ok name
    /\ py_get create_pet "summary" (JStr EmptyString) = Ok description
    /\ nth_error sample_functions 1 = Some f
    /\ py_getitem f "name" = Ok name
    /\ py_getitem f "description" = Ok description
    /\ py_getitem f "parameters" = Ok parameters
    /\ py_getitem parameters "type" = Ok (JStr "object")
    /\ nth_error sample_codes 1 = Some code
    /\ py_getitem sample_spec "servers" = Ok servers
    /\ py_getitem0 servers = Ok server
    /\ py_getitem server "url" = Ok url
    /\ code = def_line name signature ++ url_line url (KStr "/pets")
              ++ rest.
Proof.
  apply (outputs_carry_operation_id sample_spec sample_functions
           sample_codes 1 (KStr "/pets") (KStr "post") create_pet);
    reflexivity.
Defined.

(** ** The stub and the descriptor of one operation *)

(** A parameter object whose [in] is not [place] adds no name to the
    list of [place]. *)
Lemma names_in_skip_other (place : string) (before after : list json)
    (param location : json) :
  py_get param "in" JNone = Ok location ->
  eq_str location place = false ->
  names_in place (before ++ param :: after)%list
  = names_in place (before ++ after)%list.
Proof.
  intros Hin Hloc. induction before as [|x before IH]; cbn [app names_in].
  - rewrite Hin. cbn [bind]. now rewrite Hloc.
  - destruct (py_get x "in" JNone) as [loc|]; [|reflexivity].
    cbn [bind]. destruct (eq_str loc place); [|exact IH].
    destruct (py_getitem x "name"); [|reflexivity].
    cbn [bind]. now rewrite IH.
Qed.

Lemma names_in_member (place : string) (params names : list json)
    (name : json) :
  names_in place params = Ok names ->
  In name names ->
  exists param, In param params /\ py_getitem param "name" = Ok name.
Proof.
  revert names. induction params as [|p params IH]; intros names H Hin;
    cbn [names_in] in H.
  - inv_ok H. contradiction.
  - inv_bind H. destruct (eq_str x place).
    + inv_bind H. inv_bind H. inv_ok H. destruct Hin as [->|Hin].
      * exists p. split; [now left|assumption].
      * destruct (IH _ E1 Hin) as (q & Hq & Hn).
        exists q. split; [now right|assumption].
    + destruct (IH _ H Hin) as (q & Hq & Hn).
      exists q. split; [now right|assumption].
Qed.

(** A parameter of the list that is written in line leaves its name in
    the [properties] of the descriptor. *)
Lemma inline_parameter_described (spec details f : json)
    (before after : list json) (param name : json) :
  build_function spec details = Ok f ->
  parameters_of details = (before ++ param :: after)%list ->
  py_contains "$ref" param = Ok false ->
  py_getitem param "name" = Ok name ->
  exists k props,
    json_to_key name = Ok k
    /\ properties_of f = Ok (JDict props)
    /\ dict_has k props = true.
Proof.
  intros Hf Hl Href Hname.
  apply build_function_stages in Hf.
  destruct Hf as (fname & description & st1 & st2 & _ & _ & H1 & H2 & ->).
  apply handle_parameters_loop in H1. rewrite Hl in H1.
  rewrite foldM_app in H1. inv_bind H1. destruct x as [props0 req0].
  cbn [foldM] in H1. inv_bind H1. rename x into st0.
  apply add_parameter_key in E0.
  destruct E0 as (q & n & k & d & Hq & Hn & Hk & Hst0).
  unfold resolve_if_ref in Hq. rewrite Href in Hq. cbn [bind] in Hq.
  inv_ok Hq. rewrite Hname in Hn. inv_ok Hn.
  exists k, (fst st2). repeat split; try assumption.
  apply handle_request_body_loop in H2.
  refine (add_content_loop_keeps spec k _ st1 st2 _ H2).
  refine (add_parameter_loop_keeps spec k after st0 st1 _ H1).
  rewrite Hst0. apply dict_has_set_same, key_eqb_refl.
Qed.

(** X17: only [path] and [query] parameters become arguments of the
    stub.  A parameter written in line with another [in] ([header],
    [cookie], anything else) is described in the [properties] of the
    descriptor under its name, and adds nothing to the stub: its path and
    query parameters are those of the parameter list without it. *)
Theorem other_location_not_in_stub (spec details : json) (s : stub)
    (f : json) (before after : list json) (pd : dict)
    (location name : json) :
  stub_of details = Ok s ->
  build_function spec details = Ok f ->
  py_getitem details "parameters"
    = Ok (JList (before ++ JDict pd :: after)) ->
  dict_has (KStr "$ref") pd = false ->
  dict_get (KStr "in") pd = Some location ->
  eq_str location "path" = false ->
  eq_str location "query" = false ->
  dict_get (KStr "name") pd = Some name ->
  names_in "path" (before ++ after) = Ok (path_params s)
  /\ names_in "query" (before ++ after) = Ok (query_params s)
  /\ exists k props,
      json_to_key name = Ok k
      /\ properties_of f = Ok (JDict props)
      /\ dict_has k props = true.
Proof.
  intros Hs Hf Hps Href Hin Hpath Hquery Hname.
  pose proof (parameters_of_list details _ Hps) as Hl.
  destruct (stub_of_fields details s Hs) as (Hp & Hq & _).
  assert (Hget : py_get (JDict pd) "in" JNone = Ok location)
    by (cbn [py_get]; now rewrite Hin).
  rewrite Hl in Hp, Hq.
  rewrite (names_in_skip_other "path" before after _ location Hget Hpath)
    in Hp.
  rewrite (names_in_skip_other "query" before after _ location Hget Hquery)
    in Hq.
  split; [exact Hp|]. split; [exact Hq|].
  apply (inline_parameter_described spec details f before after (JDict pd)
           name Hf Hl).
  - cbn [py_contains]. now rewrite Href.
  - cbn [py_getitem]. now rewrite Hname.
Qed.

Lemma other_location_not_in_stub_witness :
  names_in "path" [id_parameter]
  = Ok (path_params (sample_stub token_operation))
  /\ names_in "query" [id_parameter]
     = Ok (query_params (sample_stub token_operation))
  /\ exists k props,
      json_to_key (JStr "X-Token") = Ok k
      /\ properties_of (sample_function token_operation)
         = Ok (JDict props)
      /\ dict_has k props = true.
Proof.
  apply (other_location_not_in_stub sample_spec token_operation
           (sample_stub token_operation)
           (sample_function token_operation)
           [id_parameter] [] token_parameter (JStr "header")
           (JStr "X-Token")); reflexivity.
Defined.

(** X18: when no parameter of an operation is a [$ref] object, every
    path and query argument of its stub is described: its name is a key
    of the [properties] of the function descriptor. *)
Theorem stub_arguments_are_described (spec details : json) (s : stub)
    (f name : json) :
  stub_of details = Ok s ->
  build_function spec details = Ok f ->
  Forall (fun param => py_contains "$ref" param = Ok false)
         (parameters_of details) ->
  In name (path_params s ++ query_params s)%list ->
  exists k props,
    json_to_key name = Ok k
    /\ properties_of f = Ok (JDict props)
    /\ dict_has k props = true.
Proof.
  intros Hs Hf Hrefs Hin.
  destruct (stub_of_fields details s Hs) as (Hp & Hq & _).
  assert (Hparam : exists param,
             In param (parameters_of details)
             /\ py_getitem param "name" = Ok name).
  { apply in_app_or in Hin. destruct Hin as [Hin|Hin].
    - exact (names_in_member _ _ _ name Hp Hin).
    - exact (names_in_member _ _ _ name Hq Hin). }
  destruct Hparam as (param & Hparam & Hname).
  destruct (in_split _ _ Hparam) as (before & after & Hl).
  apply (inline_parameter_described spec details f before after param name
           Hf Hl); [|exact Hname].
  rewrite Forall_forall in Hrefs. now apply Hrefs.
Qed.

Lemma stub_arguments_are_described_witness :
  exists k props,
    json_to_key (JStr "id") = Ok k
    /\ properties_of (sample_function token_operation)
       = Ok (JDict props)
    /\ dict_has k props = true.
Proof.
  apply (stub_arguments_are_described sample_spec token_operation
           (sample_stub token_operation)
           (sample_function token_operation) (JStr "id")).
  - reflexivity.
  - reflexivity.
  - repeat constructor.
  - left. reflexivity.
Defined.

(** ** What the stubs depend on *)

Lemma function_code_first_server (spec spec' : json) (path : key)
    (s : stub) (server : json) (rest rest' : list json) :
  py_getitem spec "servers" = Ok (JList (server :: rest)) ->
  py_getitem spec' "servers" = Ok (JList (server :: rest')) ->
  function_code spec' path s = function_code spec path s.
Proof.
  intros H H'. unfold function_code.
  destruct (py_keys (request_body_params s)); [|reflexivity].
  cbn [bind]. destruct (py_join _ _); [|reflexivity].
  cbn [bind]. rewrite H, H'. reflexivity.
Qed.

Lemma mapM_snd_agree {A B C} (f g : A -> result (B * C)) (l : list A) :
  (forall x y y', f x = Ok y -> g x = Ok y' -> snd y' = snd y) ->
  forall ys ys',
    mapM f l = Ok ys -> mapM g l = Ok ys' -> map snd ys' = map snd ys.
Proof.
  intros Hfg. induction l as [|x l IH]; intros ys ys' H H';
    cbn [mapM] in H, H'.
  - inv_ok H. inv_ok H'. reflexivity.
  - inv_bind H. inv_bind H. inv_ok H.
    inv_bind H'. inv_bind H'. inv_ok H'.
    cbn [map]. f_equal; [eapply Hfg; eassumption|now apply IH].
Qed.

(** X19: the stubs depend on the document through [paths] and the first
    server only.  Two documents with the same [paths] and the same first
    server that are both converted give the same list of stubs, whatever
    their [components] and their further servers are: no reference is
    resolved for a stub. *)
Theorem stubs_depend_on_paths_and_first_server (spec spec' : json)
    (functions functions' : list json) (codes codes' : list string)
    (server : json) (rest rest' : list json) :
  py_getitem spec' "paths" = py_getitem spec "paths" ->
  py_getitem spec "servers" = Ok (JList (server :: rest)) ->
  py_getitem spec' "servers" = Ok (JList (server :: rest')) ->
  transform_to_openai_format spec = Ok (functions, codes) ->
  transform_to_openai_format spec' = Ok (functions', codes') ->
  codes' = codes.
Proof.
  unfold transform_to_openai_format. intros Hpaths Hs Hs' H H'.
  rewrite Hpaths in H'.
  inv_bind H. rename x into paths. rewrite E in H'. cbn [bind] in H'.
  inv_bind H. rewrite E0 in H'. cbn [bind] in H'.
  apply py_items_dict in E0. subst paths.
  apply transform_path_loop in H. destruct H as (outs & Houts & Hout).
  apply transform_path_loop in H'. destruct H' as (outs' & Houts' & Hout').
  injection Hout as -> ->. injection Hout' as -> ->. cbn [app].
  refine (mapM_snd_agree _ _ _ _ outs outs' Houts Houts').
  intros [path [method details]] [f code] [f' code'] Hy Hy'.
  unfold operation_output in Hy, Hy'.
  inv_bind Hy. inv_bind Hy. inv_bind Hy. inv_ok Hy.
  inv_bind Hy'. inv_bind Hy'. inv_bind Hy'. inv_ok Hy'.
  cbn [snd].
  match goal with
  | H1 : stub_of details = Ok ?a, H2 : stub_of details = Ok ?b |- _ =>
      rewrite H1 in H2; inv_ok H2
  end.
  match goal with
  | H1 : function_code spec _ _ = Ok ?a,
    H2 : function_code spec' _ _ = Ok ?b |- _ =>
      rewrite (function_code_first_server spec spec' _ _ server rest rest'
                 Hs Hs') in H2;
      rewrite H1 in H2; now inv_ok H2
  end.
Qed.

Lemma stubs_depend_on_paths_and_first_server_witness :
  exists functions',
    transform_to_openai_format two_servers_spec
    = Ok (functions', sample_codes).
Proof.
  destruct (transform_to_openai_format two_servers_spec)
    as [[functions' codes']|e] eqn:E.
  - exists functions'. f_equal. f_equal.
    apply (stubs_depend_on_paths_and_first_server sample_spec
             two_servers_spec sample_functions functions' sample_codes
             codes' (obj [("url", JStr "https://api.example.com")]) []
             [obj [("url", JStr "https://staging.example.com")]]).
    + reflexivity.
    + reflexivity.
    + reflexivity.
    + reflexivity.
    + exact E.
  - vm_compute in E. discriminate E.
Defined.

(** ** The loader *)

Lemma str_endswith_suffix (suffix s : string) :
  str_endswith suffix s = true <-> exists stem, s = stem ++ suffix.
Proof.
  split.
  - induction s as [|c s IH]; cbn [str_endswith]; intros H.
    + rewrite orb_false_r in H. apply String.eqb_eq in H. subst suffix.
      now exists EmptyString.
    + apply orb_true_iff in H. destruct H as [H|H].
      * apply String.eqb_eq in H. subst suffix. now exists EmptyString.
      * destruct (IH H) as [stem ->]. now exists (String c stem).
  - intros [stem ->]. induction stem as [|c stem IH]; cbn [append].
    + destruct suffix; cbn [str_endswith]; now rewrite String.eqb_refl.
    + cbn [str_endswith]. rewrite IH. apply orb_true_r.
Qed.

Lemma str_last_app (s t : string) :
  t <> EmptyString -> str_last (s ++ t) = str_last t.
Proof.
  intros Ht. induction s as [|c s IH]; cbn [append]; [reflexivity|].
  cbn [str_last]. rewrite IH.
  destruct (s ++ t) eqn:E; [|reflexivity].
  destruct s; [cbn [append] in E; contradiction|discriminate E].
Qed.

Lemma yaml_is_not_json (stem stem' : string) :
  stem ++ ".json" <> stem' ++ ".yaml" /\ stem ++ ".json" <> stem' ++ ".yml".
Proof.
  split; intros H; apply (f_equal str_last) in H;
    rewrite !str_last_app in H by discriminate; discriminate H.
Qed.

Lemma parser_of_json (file_path : string) :
  parser_of file_path = Some JsonLoad
  <-> exists stem, file_path = stem ++ ".json".
Proof.
  rewrite <- str_endswith_suffix. unfold parser_of.
  destruct (str_endswith ".json" file_path); [tauto|].
  destruct (str_endswith ".yaml" file_path || str_endswith ".yml" file_path);
    split; discriminate.
Qed.

Lemma parser_of_yaml (file_path : string) :
  parser_of file_path = Some YamlSafeLoad
  <-> exists stem,
      file_path = stem ++ ".yaml" \/ file_path = stem ++ ".yml".
Proof.
  unfold parser_of.
  destruct (str_endswith ".json" file_path) eqn:Ej.
  - apply str_endswith_suffix in Ej. destruct Ej as [stem0 ->].
    split; [discriminate|]. intros [stem [H|H]];
      now apply (yaml_is_not_json stem0 stem) in H.
  - destruct (str_endswith ".yaml" file_path) eqn:Ey; cbn [orb].
    + apply str_endswith_suffix in Ey. destruct Ey as [stem ->].
      split; [|reflexivity]. intros _. exists stem. now left.
    + destruct (str_endswith ".yml" file_path) eqn:Em.
      * apply str_endswith_suffix in Em. destruct Em as [stem ->].
        split; [|reflexivity]. intros _. exists stem. now right.
      * split; [discriminate|]. intros [stem [H|H]].
        -- assert (Ht : str_endswith ".yaml" file_path = true)
             by (apply str_endswith_suffix; now exists stem).
           congruence.
        -- assert (Ht : str_endswith ".yml" file_path = true)
             by (apply str_endswith_suffix; now exists stem).
           congruence.
Qed.

Lemma parser_of_none (file_path : string) :
  parser_of file_path = None
  <-> forall stem,
      file_path <> stem ++ ".json" /\ file_path <> stem ++ ".yaml"
      /\ file_path <> stem ++ ".yml".
Proof.
  split.
  - intros H stem. repeat split; intros E.
    + assert (Hp : parser_of file_path = Some JsonLoad)
        by (apply parser_of_json; now exists stem).
      congruence.
    + assert (Hp : parser_of file_path = Some YamlSafeLoad)
        by (apply parser_of_yaml; exists stem; now left).
      congruence.
    + assert (Hp : parser_of file_path = Some YamlSafeLoad)
        by (apply parser_of_yaml; exists stem; now right).
      congruence.
  - intros H. destruct (parser_of file_path) as [[|]|] eqn:E;
      [| |reflexivity].
    + apply parser_of_json in E. destruct E as [stem E].
      now destruct (H stem) as (H1 & _).
    + apply parser_of_yaml in E. destruct E as [stem [E|E]];
        destruct (H stem) as (_ & H2 & H3); contradiction.
Qed.

(** X20: when the loader returns a document.  [load_openapi_spec]
    returns [spec] exactly when the file can be opened and either the
    path ends with [.json] and [json.load] gives [spec], or the path ends
    with [.yaml] or [.yml] and [yaml.safe_load] gives [spec].  The end of
    the path is compared as it is written (a path that ends with [.yaml]
    or [.yml] never ends with [.json], so the two cases exclude each
    other). *)
Theorem load_openapi_spec_returns
    (open_file : string -> option string)
    (json_load yaml_safe_load : string -> option json)
    (file_path : string) (spec : json) :
  load_openapi_spec open_file json_load yaml_safe_load file_path
  = Loaded spec
  <-> exists text,
      open_file file_path = Some text
      /\ ((exists stem, file_path = stem ++ ".json")
          /\ json_load text = Some spec
          \/ (exists stem,
                 file_path = stem ++ ".yaml" \/ file_path = stem ++ ".yml")
             /\ yaml_safe_load text = Some spec).
Proof.
  unfold load_openapi_spec. split.
  - destruct (open_file file_path) as [text|]; [|discriminate].
    destruct (parser_of file_path) as [[|]|] eqn:E; [| |discriminate].
    + destruct (json_load text) as [j|] eqn:Ej; [|discriminate].
      intros H. injection H as ->. exists text. split; [reflexivity|].
      left. split; [now apply parser_of_json|assumption].
    + destruct (yaml_safe_load text) as [j|] eqn:Ey; [|discriminate].
      intros H. injection H as ->. exists text. split; [reflexivity|].
      right. split; [now apply parser_of_yaml|assumption].
  - intros (text & -> & [[Hp Hl]|[Hp Hl]]).
    + apply parser_of_json in Hp. now rewrite Hp, Hl.
    + apply parser_of_yaml in Hp. now rewrite Hp, Hl.
Qed.

(** X21: when the loader raises [ValueError("Unsupported file format")]:
    exactly when the file can be opened and its path ends with none of
    [.json], [.yaml] and [.yml].  The file is opened before its path is
    looked at: the loader ends with the error of [open] exactly when the
    file cannot be opened, whatever the end of its path is. *)
Theorem load_openapi_spec_unsupported
    (open_file : string -> option string)
    (json_load yaml_safe_load : string -> option json)
    (file_path : string) :
  (load_openapi_spec open_file json_load yaml_safe_load file_path
   = UnsupportedFormat
   <-> (exists text, open_file file_path = Some text)
       /\ forall stem,
           file_path <> stem ++ ".json" /\ file_path <> stem ++ ".yaml"
           /\ file_path <> stem ++ ".yml")
  /\ (load_openapi_spec open_file json_load yaml_safe_load file_path
      = OpenFails
      <-> open_file file_path = None).
Proof.
  rewrite <- parser_of_none. unfold load_openapi_spec. split; split.
  - destruct (open_file file_path) as [text|]; [|discriminate].
    destruct (parser_of file_path) as [[|]|].
    + destruct (json_load text); discriminate.
    + destruct (yaml_safe_load text); discriminate.
    + intros _. split; [now exists text|reflexivity].
  - intros [[text ->] ->]. reflexivity.
  - destruct (open_file file_path) as [text|]; [|reflexivity].
    destruct (parser_of file_path) as [[|]|].
    + destruct (json_load text); discriminate.
    + destruct (yaml_safe_load text); discriminate.
    + discriminate.
  - intros ->. reflexivity.
Qed.
